(** * OCI registry front end: route parsing, registry-info resolution,
      manifest-list walking, registry deletion and client setup hints.

    A shallow embedding of
      - registry/app/api/handler/oci/base.go
          (getRouteType, GetQueryParamMap, ExtractPathVars, GetRegistryInfo),
      - registry/app/api/controller/metadata (getManifestList,
          DeleteRegistry, deleteRegistryWithAudit, deleteUpstreamProxyWithAudit,
          GenerateClientSetupDetails, replacePlaceholders, replaceText),
    followed by the properties of the specification that concern them. *)

From Stdlib Require Import ZArith Ascii String Lia.
From stdpp Require Import gmap strings list pretty.

Local Open Scope string_scope.
Local Open Scope Z_scope.

(* ===================================================================== *)
(** ** Go run-time: results, errors and panics                            *)
(* ===================================================================== *)

(** A run-time panic of the Go program. *)
Inductive panic : Type :=
  | IndexOutOfRange (i len : Z)       (* s[i] with i outside [0, len)        *)
  | SliceBoundsOutOfRange (lo hi : Z) (* s[lo:hi] with lo > hi or hi > cap   *)
  | NilDereference.                   (* *p or p.f with p == nil             *)

(** Go [error] values that the modelled functions create or pass on. *)
Inductive error : Type :=
  | ErrCodeRootNotFound
  | ErrCodeRegNotFound
  | ErrCodeParentNotFound
  | ErrCodeDenied
  | ErrResourceNotFound                 (* store2.ErrResourceNotFound      *)
  | ErrOther (msg : string)             (* any other error value           *)
  | Errorf (fmt : string) (args : list string) (* fmt.Errorf(fmt, args...)  *)
  | ErrorfW (fmt : string) (cause : error).   (* fmt.Errorf("...: %w", err) *)

(** [errors.Is(err, target)]: [err] or an error it wraps is [target]. *)
Fixpoint errors_Is_ResourceNotFound (err : error) : bool :=
  match err with
  | ErrResourceNotFound => true
  | ErrorfW _ cause => errors_Is_ResourceNotFound cause
  | _ => false
  end.

(** The three ways a Go call ends: a value, a non-nil error, a panic. *)
Inductive outcome (A : Type) : Type :=
  | Ok (a : A)
  | Fail (e : error)
  | Panic (p : panic).
Arguments Ok {A} a.
Arguments Fail {A} e.
Arguments Panic {A} p.

#[global] Instance outcome_ret : MRet outcome := fun A a => Ok a.
#[global] Instance outcome_bind : MBind outcome := fun A B f m =>
  match m with
  | Ok a => f a
  | Fail e => Fail e
  | Panic p => Panic p
  end.

(** [err != nil] *)
Definition notNil (err : option error) : bool :=
  match err with
  | Some _ => true
  | None => false
  end.

(** [len(s)] as a Go [int]. *)
Definition len {A} (l : list A) : Z := Z.of_nat (length l).

(** [s[i]]: panics outside the bounds. *)
Definition index {A} (l : list A) (i : Z) : outcome A :=
  if (0 <=? i) && (i <? len l) then
    match l !! Z.to_nat i with
    | Some x => Ok x
    | None => Panic (IndexOutOfRange i (len l))
    end
  else Panic (IndexOutOfRange i (len l)).

(** [s[lo:hi]] on a slice whose capacity equals its length (the slices
    made by [strings.Split]): panics unless [0 <= lo <= hi <= len(s)]. *)
Definition slice {A} (l : list A) (lo hi : Z) : outcome (list A) :=
  if (0 <=? lo) && (lo <=? hi) && (hi <=? len l) then
    Ok (take (Z.to_nat (hi - lo)) (drop (Z.to_nat lo) l))
  else Panic (SliceBoundsOutOfRange lo hi).

(* ===================================================================== *)
(** ** Package strings of the Go standard library (the functions used)   *)
(* ===================================================================== *)

Module strings.

(** Does the byte [c] occur in [cutset]? *)
Fixpoint inCutset (c : ascii) (cutset : string) : bool :=
  match cutset with
  | EmptyString => false
  | String d rest => Ascii.eqb c d || inCutset c rest
  end.

Fixpoint TrimLeft (s cutset : string) : string :=
  match s with
  | EmptyString => EmptyString
  | String c rest => if inCutset c cutset then TrimLeft rest cutset else s
  end.

Fixpoint TrimRight (s cutset : string) : string :=
  match s with
  | EmptyString => EmptyString
  | String c rest =>
      match TrimRight rest cutset with
      | EmptyString => if inCutset c cutset then EmptyString else String c EmptyString
      | kept => String c kept
      end
  end.

(** [strings.Trim(s, cutset)] for a cutset of single-byte characters:
    the leading and the trailing bytes of the cutset are removed. *)
Definition Trim (s cutset : string) : string :=
  TrimRight (TrimLeft s cutset) cutset.

(** [strings.Split(s, sep)] for a non-empty [sep]: the pieces between
    the non-overlapping occurrences of [sep], scanned from the left;
    always at least one piece.  [skip] counts the bytes of a separator
    that was just matched and is still to be passed over. *)
Fixpoint splitFrom (sep : string) (skip : nat) (s : string) : list string :=
  match s with
  | EmptyString => [EmptyString]
  | String c rest =>
      match skip with
      | S k => splitFrom sep k rest
      | O =>
          if String.prefix sep s
          then EmptyString :: splitFrom sep (Nat.pred (String.length sep)) rest
          else match splitFrom sep O rest with
               | piece :: pieces => String c piece :: pieces
               | [] => [String c EmptyString]
               end
      end
  end.

Definition Split (s sep : string) : list string := splitFrom sep O s.

(** [strings.Join(elems, sep)]. *)
Fixpoint Join (elems : list string) (sep : string) : string :=
  match elems with
  | [] => EmptyString
  | [e] => e
  | e :: rest => e +:+ sep +:+ Join rest sep
  end.

(** [strings.ReplaceAll(s, old, new)] for a non-empty [old]: every
    non-overlapping occurrence of [old], scanned from the left, becomes
    [new]. *)
Fixpoint replaceFrom (old new : string) (skip : nat) (s : string) : string :=
  match s with
  | EmptyString => EmptyString
  | String c rest =>
      match skip with
      | S k => replaceFrom old new k rest
      | O =>
          if String.prefix old s
          then new +:+ replaceFrom old new (Nat.pred (String.length old)) rest
          else String c (replaceFrom old new O rest)
      end
  end.

Definition ReplaceAll (s old new : string) : string := replaceFrom old new O s.

End strings.

(* ===================================================================== *)
(** ** Shared record types (packages types and artifact)                  *)
(* ===================================================================== *)

(** [types.Space], the fields that are read. *)
Record Space : Type := mkSpace {
  space_ID : Z;
  space_Identifier : string;
  space_Path : string
}.

(** [artifact.RegistryType]. *)
Inductive RegistryType : Type := VIRTUAL | UPSTREAM.

Definition RegistryType_eqb (a b : RegistryType) : bool :=
  match a, b with
  | VIRTUAL, VIRTUAL | UPSTREAM, UPSTREAM => true
  | _, _ => false
  end.

(** [types.Registry], the fields that are read. *)
Record Registry : Type := mkRegistry {
  reg_ID : Z;
  reg_Name : string;
  reg_ParentID : Z;
  reg_RootParentID : Z;
  reg_Type : RegistryType;
  reg_PackageType : string;
  reg_AllowedPattern : list string;
  reg_BlockedPattern : list string
}.

(* ===================================================================== *)
(** ** Package oci: registry/app/api/handler/oci/base.go                  *)
(* ===================================================================== *)

Module oci.

(** [type routeType string] *)
Definition routeType : Type := string.

Definition Manifests : routeType := "manifests".
Definition Blobs : routeType := "blobs".
Definition BlobsUploadsSession : routeType := "blob-uploads-session".
Definition Tags : routeType := "tags".
Definition Referrers : routeType := "referrers".
Definition Invalid : routeType := "invalid".
Definition MinSizeOfURLSegments : Z := 5.

Definition APIPartManifest : string := "manifests".
Definition APIPartBlobs : string := "blobs".
Definition APIPartUpload : string := "uploads".
Definition APIPartTag : string := "tags".
Definition APIPartReferrer : string := "referrers".

Definition getRouteType (url : string) : outcome routeType :=
  let url := strings.Trim url "/" in
  let segments := strings.Split url "/" in
  if len segments <? MinSizeOfURLSegments then Ok Invalid
  else
    typ ← index segments (len segments - 2);
    if String.eqb typ APIPartManifest then Ok Manifests
    else if String.eqb typ APIPartBlobs then
      last ← index segments (len segments - 1);
      if String.eqb last APIPartUpload then Ok BlobsUploadsSession
      else Ok Blobs
    else if String.eqb typ APIPartUpload then Ok BlobsUploadsSession
    else if String.eqb typ APIPartTag then Ok Tags
    else if String.eqb typ APIPartReferrer then Ok Referrers
    else Ok Invalid.

(** [url.Values] is [map[string][]string]; the first value of every key
    that has one. *)
Definition GetQueryParamMap (queryParams : gmap string (list string))
  : gmap string string :=
  omap head queryParams.

(** The six results of [ExtractPathVars]. *)
Record PathVars : Type := mkPathVars {
  rootIdentifier : string;
  registry : string;
  image : string;
  ref : string;
  dgst : string;
  tag : string
}.

Section WithDigest.

(** [digest.Parse] of github.com/opencontainers/go-digest: the parsed
    digest, or [None] for a non-nil error. *)
Variable digest_Parse : string -> option string.

Definition ExtractPathVars (path : string) (paramMap : gmap string string)
  : outcome PathVars :=
  let path := strings.Trim path "/" in
  let segments := strings.Split path "/" in
  rootIdentifier ← index segments 1;
  registry ← index segments 2;
  imageSegments ← slice segments 3 (len segments - 2);
  let image := strings.Join imageSegments "/" in
  typ ← getRouteType path;
  if String.eqb typ Manifests then
    ref ← index segments (len segments - 1);
    match digest_Parse ref with
    | None => Ok (mkPathVars rootIdentifier registry image ref "" ref)
    | Some _ => Ok (mkPathVars rootIdentifier registry image ref ref "")
    end
  else if String.eqb typ Blobs then
    dgst ← index segments (len segments - 1);
    Ok (mkPathVars rootIdentifier registry image "" dgst "")
  else if String.eqb typ BlobsUploadsSession then
    last ← index segments (len segments - 1);
    '(image, ref) ←
      (if negb (String.eqb last APIPartUpload) then
         typSegment ← index segments (len segments - 2);
         if String.eqb typSegment APIPartUpload then
           imageSegments ← slice segments 3 (len segments - 3);
           ref ← index segments (len segments - 1);
           Ok (strings.Join imageSegments "/", ref)
         else Ok (image, "")
       else Ok (image, ""));
    let dgst := match paramMap !! "digest" with
                | Some d => d
                | None => ""
                end in
    Ok (mkPathVars rootIdentifier registry image ref dgst "")
  else if String.eqb typ Tags then
    Ok (mkPathVars rootIdentifier registry image "" "" "")
  else if String.eqb typ Referrers then
    dgst ← index segments (len segments - 1);
    Ok (mkPathVars rootIdentifier registry image "" dgst "")
  else
    (* Invalid, and the default branch: a warning is logged. *)
    Ok (mkPathVars rootIdentifier registry image "" "" "").

End WithDigest.

(** *** Records read by [GetRegistryInfo] *)

(** [*http.Request], the parts that are read: the URL and the headers,
    which carry the caller's credentials. *)
Record Request : Type := mkRequest {
  URL_Path : string;
  URL_Query : gmap string (list string);
  Header : gmap string (list string)
}.

(** [v2.URLBuilder] as made by [v2.NewURLBuilderFromRequest(r, relative)]. *)
Record URLBuilder : Type := NewURLBuilderFromRequest {
  ub_request : Request;
  ub_relative : bool
}.

(** [pkg.RegistryInfo] with its embedded [ArtifactInfo] and [BaseInfo]. *)
Record BaseInfo : Type := mkBaseInfo {
  ParentID : Z;
  RootIdentifier : string;
  RootParentID : Z
}.

Record ArtifactInfo : Type := mkArtifactInfo {
  base : BaseInfo;
  RegIdentifier : string;
  Image : string
}.

Record RegistryInfo : Type := mkRegistryInfo {
  artifactInfo : ArtifactInfo;
  Reference : string;
  Digest : string;
  Tag : string;
  urlBuilder : URLBuilder;
  Path : string
}.

(** The store methods that [GetRegistryInfo] calls. *)
Inductive StoreCall : Type :=
  | SpaceStore_FindByRefCaseInsensitive (spaceRef : string)
  | RegistryDao_GetByRootParentIDAndName (rootParentID : Z) (name : string)
  | SpaceStore_Find (id : Z).

(** [Handler]: the two store interfaces and the relative-URL switch. *)
Record Handler : Type := mkHandler {
  FindByRefCaseInsensitive : string -> outcome Space;
  Find : Z -> outcome Space;
  GetByRootParentIDAndName : Z -> string -> outcome Registry;
  OCIRelativeURL : bool
}.

(** A computation that calls the stores: the calls made, in order, and
    how it ended. *)
Definition traced (A : Type) : Type := (list StoreCall * outcome A)%type.

#[global] Instance traced_ret : MRet traced := fun A a => ([], Ok a).
#[global] Instance traced_bind : MBind traced := fun A B f m =>
  match m with
  | (calls, Ok a) => let '(calls', o) := f a in ((calls ++ calls')%list, o)
  | (calls, Fail e) => (calls, Fail e)
  | (calls, Panic p) => (calls, Panic p)
  end.

(** A step that touches no store. *)
Definition pure {A} (o : outcome A) : traced A := ([], o).

(** A store call whose error, if any, is replaced by [code]. *)
Definition call {A} (c : StoreCall) (o : outcome A) (code : error) : traced A :=
  match o with
  | Fail _ => ([c], Fail code)
  | _ => ([c], o)
  end.

(** [if cond { return pkg.RegistryInfo{}, code }] *)
Definition failWhen (cond : bool) (code : error) : traced unit :=
  if cond then pure (Fail code) else pure (Ok tt).

(** Modelled from the spec: [commons.IsEmpty] is not among the sources;
    on a string it tests for the empty string (the filter applies
    "when both are present", section 4.2). *)
Definition IsEmpty (s : string) : bool := String.eqb s "".

Section WithHelpers.

Variable digest_Parse : string -> option string.

(** [metadata.ValidateIdentifier]: [None] for a nil error. *)
Variable ValidateIdentifier : string -> option error.

(** [MatchArtifactFilter(allowedPattern, blockedPattern, artifact)],
    returning [(flag, err)]. *)
Variable MatchArtifactFilter :
  list string -> list string -> string -> bool * option error.

Definition GetRegistryInfo (h : Handler) (r : Request) (remoteSupport : bool)
  : traced RegistryInfo :=
  let queryParams := URL_Query r in
  let path := URL_Path r in
  let paramMap := GetQueryParamMap queryParams in
  pv ← pure (ExtractPathVars digest_Parse path paramMap);
  let rootIdentifier := rootIdentifier pv in
  let registryIdentifier := registry pv in
  _ ← pure (match ValidateIdentifier rootIdentifier with
            | Some err => Fail err
            | None => Ok tt
            end);
  rootSpace ← call (SpaceStore_FindByRefCaseInsensitive rootIdentifier)
                   (FindByRefCaseInsensitive h rootIdentifier)
                   ErrCodeRootNotFound;
  registry ← call (RegistryDao_GetByRootParentIDAndName
                     (space_ID rootSpace) registryIdentifier)
                  (GetByRootParentIDAndName h (space_ID rootSpace)
                     registryIdentifier)
                  ErrCodeRegNotFound;
  _ ← call (SpaceStore_Find (reg_ParentID registry))
           (Find h (reg_ParentID registry))
           ErrCodeParentNotFound;
  let info :=
    {| artifactInfo :=
         {| base := {| RootIdentifier := rootIdentifier;
                       RootParentID := space_ID rootSpace;
                       ParentID := reg_ParentID registry |};
            RegIdentifier := registryIdentifier;
            Image := image pv |};
       Reference := ref pv;
       Digest := dgst pv;
       Tag := tag pv;
       urlBuilder := NewURLBuilderFromRequest r (OCIRelativeURL h);
       Path := URL_Path r |} in
  _ ← failWhen (IsEmpty (space_Identifier rootSpace)) ErrCodeParentNotFound;
  _ ← failWhen (IsEmpty registryIdentifier) ErrCodeRegNotFound;
  _ ← (if negb (IsEmpty (Image (artifactInfo info))) && negb (IsEmpty (Tag info))
       then
         let '(flag, err2) :=
           MatchArtifactFilter (reg_AllowedPattern registry)
             (reg_BlockedPattern registry)
             (Image (artifactInfo info) +:+ ":" +:+ Tag info) in
         failWhen (negb flag || notNil err2) ErrCodeDenied
       else pure (Ok tt));
  _ ← failWhen (RegistryType_eqb (reg_Type registry) UPSTREAM
                && negb remoteSupport) ErrCodeDenied;
  pure (Ok info).

End WithHelpers.

(** *** The artifact filter *)

Section Filter.

(** Glob matching of a pattern against a value: [None] when the
    pattern does not compile. *)
Variable globMatch : string -> string -> option bool.

(** Does some pattern match [val]?  The first pattern that does not
    compile ends the search with an error. *)
Fixpoint matchPatterns (patterns : list string) (val : string)
  : bool * option error :=
  match patterns with
  | [] => (false, None)
  | pattern :: rest =>
      match globMatch pattern val with
      | None => (false, Some (Errorf "failed to match pattern: %s" [pattern]))
      | Some true => (true, None)
      | Some false => matchPatterns rest val
      end
  end.

(** Modelled from the spec: [MatchArtifactFilter] is not among the
    sources.  Invariant I5: the artifact passes unless it matches a
    block glob, or the allow list is non-empty and none of its globs
    matches (an empty allow list matches everything). *)
Definition MatchArtifactFilter (allowedPattern blockedPattern : list string)
  (artifact : string) : bool * option error :=
  match matchPatterns blockedPattern artifact with
  | (_, Some err) => (false, Some err)
  | (true, None) => (false, None)
  | (false, None) =>
      match allowedPattern with
      | [] => (true, None)
      | _ => matchPatterns allowedPattern artifact
      end
  end.

(** Some pattern of the list compiles and matches [val]. *)
Definition matchesAny (patterns : list string) (val : string) : Prop :=
  ∃ pattern, pattern ∈ patterns ∧ globMatch pattern val = Some true.

End Filter.

End oci.

(* ===================================================================== *)
(** ** Package metadata: registry/app/api/controller/metadata            *)
(* ===================================================================== *)

Module metadata.

(** [RegistryRequestBaseInfo], the fields that are read. *)
Record RegistryRequestBaseInfo : Type := mkRegistryRequestBaseInfo {
  RegistryID : Z;
  RegistryIdentifier : string;
  RegistryRef : string;
  parentID : Z;
  ParentRef : string;
  RootIdentifier : string
}.

(** *** Manifest lists: getManifestList *)

(** [manifestlist.ManifestDescriptor]: a child of a manifest list. *)
Record ManifestDescriptor : Type := mkManifestDescriptor {
  md_Digest : string;
  md_MediaType : string;
  md_Size : Z
}.

(** [types.Manifest], the fields that are read; [m_Digest] is a
    [types.Digest]. *)
Record Manifest : Type := mkManifest {
  m_ID : Z;
  m_Digest : string;
  m_ConfigurationDigest : string;
  m_TotalSize : Z;
  m_CreatedAt : Z
}.

Record manifestConfig : Type := mkManifestConfig {
  Os : string;
  Arch : string
}.

(** [artifact.DockerManifestDetails] *)
Record DockerManifestDetails : Type := mkDockerManifestDetails {
  dmd_Digest : string;
  dmd_CreatedAt : option string;
  dmd_Size : option string;
  dmd_DownloadsCount : option Z;
  dmd_OsArch : option string
}.

Section ManifestList.

(** [types.NewDigest] and the [String] method of [types.Digest]. *)
Variable NewDigest : string -> outcome string.
Variable Digest_String : string -> string.

(** [c.ManifestStore.FindManifestByDigest(ctx, registryID, image, dgst)] *)
Variable FindManifestByDigest : Z -> string -> string -> outcome Manifest.

(** [getManifestConfig(ctx, digest, rootIdentifier, c.StorageDriver)];
    the configuration may be nil. *)
Variable getManifestConfig : string -> string -> outcome (option manifestConfig).

Variable GetTimeInMs : Z -> string.
Variable GetSize : Z -> string.

Definition getManifestDetails (m : Manifest) (mConfig : option manifestConfig)
    (downloadsCount : Z) : DockerManifestDetails :=
  let createdAt := GetTimeInMs (m_CreatedAt m) in
  let size := GetSize (m_TotalSize m) in
  {| dmd_Digest := Digest_String (m_Digest m);
     dmd_CreatedAt := Some createdAt;
     dmd_Size := Some size;
     dmd_DownloadsCount := Some downloadsCount;
     dmd_OsArch := match mConfig with
                   | Some cfg => Some (Os cfg +:+ "/" +:+ Arch cfg)
                   | None => None
                   end |}.

(** The [for _, manifestEntry := range reqManifest.Manifests] loop, from
    the entries still to visit and the details collected so far. *)
Fixpoint walkManifestList (entries : list ManifestDescriptor)
    (registry : Registry) (image : string)
    (regInfo : RegistryRequestBaseInfo) (downloadCount : Z)
    (manifestDetailsList : list DockerManifestDetails)
  : outcome (list DockerManifestDetails) :=
  match entries with
  | [] => Ok manifestDetailsList
  | manifestEntry :: rest =>
      dgst ← NewDigest (md_Digest manifestEntry);
      match FindManifestByDigest (reg_ID registry) image dgst with
      | Fail err =>
          if errors_Is_ResourceNotFound err then
            if RegistryType_eqb (reg_Type registry) UPSTREAM then
              (* continue *)
              walkManifestList rest registry image regInfo downloadCount
                manifestDetailsList
            else Fail (Errorf "manifest: %s not found" [Digest_String dgst])
          else Fail err
      | Panic p => Panic p
      | Ok referencedManifest =>
          mConfig ← getManifestConfig
                      (m_ConfigurationDigest referencedManifest)
                      (RootIdentifier regInfo);
          walkManifestList rest registry image regInfo downloadCount
            (manifestDetailsList ++
               [getManifestDetails referencedManifest mConfig downloadCount])%list
      end
  end.

Definition getManifestList (reqManifest : list ManifestDescriptor)
    (registry : Registry) (image : string)
    (regInfo : RegistryRequestBaseInfo) (downloadCount : Z)
  : outcome (list DockerManifestDetails) :=
  walkManifestList reqManifest registry image regInfo downloadCount [].

End ManifestList.

(** *** Deleting a registry *)

Record DownloadStat : Type := mkDownloadStat {
  ds_ID : Z;
  ds_RegistryID : Z
}.

Record BandwidthStat : Type := mkBandwidthStat {
  bs_ID : Z;
  bs_RegistryID : Z
}.

Record Image : Type := mkImage {
  img_ID : Z;
  img_RegistryID : Z;
  img_Name : string
}.

Record UpstreamProxyConfig : Type := mkUpstreamProxyConfig {
  upc_ID : Z;
  upc_RegistryID : Z
}.

Record Blob : Type := mkBlob {
  blob_Digest : string;
  blob_Size : Z;
  blob_MediaType : string;
  blob_RootParentID : Z
}.

Record AuditEvent : Type := mkAuditEvent {
  ae_ResourceType : string;
  ae_ResourceName : string;
  ae_Action : string;
  ae_Scope : string
}.

(** Constants of package audit; their spelling is not among the sources. *)
Definition ResourceTypeRegistry : string := "registry".
Definition ResourceTypeRegistryUpstreamProxy : string := "registry_upstream_proxy".
Definition ActionDeleted : string := "deleted".

(** The persistent state: the metadata tables that the deletion names,
    the blob records, and the content-addressed objects by digest. *)
Record DB : Type := mkDB {
  downloadStats : list DownloadStat;
  bandwidthStats : list BandwidthStat;
  images : list Image;
  registries : list Registry;
  upstreamProxyConfigs : list UpstreamProxyConfig;
  blobs : list Blob;
  objects : gmap string string;
  auditLog : list AuditEvent
}.

Record Principal : Type := mkPrincipal {
  principal_ID : Z;
  principal_Email : string
}.

Record Session : Type := mkSession {
  session_Principal : Principal
}.

(** The store methods that write. *)
Inductive StoreWrite : Type :=
  | ImageStore_DeleteDownloadStatByRegistryID (registryID : Z)
  | ImageStore_DeleteBandwidthStatByRegistryID (registryID : Z)
  | ImageStore_DeleteByRegistryID (registryID : Z)
  | RegistryRepository_Delete (parentID : Z) (name : string)
  | UpstreamProxyStore_Delete (parentID : Z) (name : string)
  | AuditService_Log (resourceType resourceName : string).

(** A computation on the database. *)
Definition Tx (A : Type) : Type := DB -> outcome A * DB.

#[global] Instance Tx_ret : MRet Tx := fun A a db => (Ok a, db).
#[global] Instance Tx_bind : MBind Tx := fun A B f m db =>
  match m db with
  | (Ok a, db') => f a db'
  | (Fail e, db') => (Fail e, db')
  | (Panic p, db') => (Panic p, db')
  end.

(** A step that leaves the database alone. *)
Definition pure {A} (o : outcome A) : Tx A := fun db => (o, db).

(** A query. *)
Definition query {A} (q : DB -> outcome A) : Tx A := fun db => (q db, db).

(** [if err != nil { return fmt.Errorf(format, err) }] *)
Definition wrap {A} (format : string) (m : Tx A) : Tx A := fun db =>
  match m db with
  | (Fail err, db') => (Fail (ErrorfW format err), db')
  | other => other
  end.

(** Modelled from the spec: [c.tx.WithTx] is not among the sources.
    The function runs in one transaction, which "rolls back" (section 7)
    when the function does not return nil. *)
Definition WithTx (f : Tx unit) : Tx unit := fun db =>
  match f db with
  | (Ok tt, db') => (Ok tt, db')
  | (Fail err, _) => (Fail err, db)
  | (Panic p, _) => (Panic p, db)
  end.

(** [DeleteRegistry] answers with one of these. *)
Inductive DeleteRegistryResponse : Type :=
  | DeleteRegistry400JSONResponse (err : error)
  | DeleteRegistry403JSONResponse (err : error)
  | DeleteRegistry404JSONResponse (message : string)
  | DeleteRegistry500JSONResponse (err : error)
  | DeleteRegistry200JSONResponse.

Definition throwDeleteRegistry500Error (err : error) : DeleteRegistryResponse :=
  DeleteRegistry500JSONResponse err.

Section Delete.

(** The store error, if any, with which a write fails. *)
Variable fails : StoreWrite -> option error.

(** Queries of the stores and of the request context. *)
Variable GetRegistryRequestBaseInfo :
  DB -> string -> outcome RegistryRequestBaseInfo.
Variable SpaceStore_FindByRef : DB -> string -> outcome Space.
Variable SpaceStore_Find : DB -> Z -> outcome Space.
Variable CheckRegistry : option Session -> Space -> string -> option error.
Variable RegistryRepository_GetByParentIDAndName :
  DB -> Z -> string -> option Registry * option error.
Variable RegistryRepository_Get : DB -> Z -> outcome Registry.
Variable FetchUpstreamProxyIDs : DB -> list string -> Z -> outcome (list Z).
Variable FetchRegistriesIDByUpstreamProxyID :
  DB -> string -> Z -> outcome (list Z).
Variable FormatInt : Z -> string.

(** A write: it fails without effect, or has its effect. *)
Definition write (c : StoreWrite) (effect : DB -> DB) : Tx unit := fun db =>
  match fails c with
  | Some err => (Fail err, db)
  | None => (Ok tt, effect db)
  end.

(** Modelled from the spec: the methods of [ImageStore],
    [RegistryRepository] and [UpstreamProxyStore] are not among the
    sources.  Each delete removes the rows of its own table that
    belong to the registry ("removes the registry-scoped reference",
    section 4.3; "but NOT blobs", section 3). *)
Definition DeleteDownloadStatByRegistryID (registryID : Z) : Tx unit :=
  write (ImageStore_DeleteDownloadStatByRegistryID registryID) (fun db =>
    {| downloadStats :=
         filter (fun st => ds_RegistryID st ≠ registryID) (downloadStats db);
       bandwidthStats := bandwidthStats db; images := images db;
       registries := registries db;
       upstreamProxyConfigs := upstreamProxyConfigs db;
       blobs := blobs db; objects := objects db; auditLog := auditLog db |}).

Definition DeleteBandwidthStatByRegistryID (registryID : Z) : Tx unit :=
  write (ImageStore_DeleteBandwidthStatByRegistryID registryID) (fun db =>
    {| downloadStats := downloadStats db;
       bandwidthStats :=
         filter (fun st => bs_RegistryID st ≠ registryID) (bandwidthStats db);
       images := images db; registries := registries db;
       upstreamProxyConfigs := upstreamProxyConfigs db;
       blobs := blobs db; objects := objects db; auditLog := auditLog db |}).

Definition DeleteByRegistryID (registryID : Z) : Tx unit :=
  write (ImageStore_DeleteByRegistryID registryID) (fun db =>
    {| downloadStats := downloadStats db;
       bandwidthStats := bandwidthStats db;
       images :=
         filter (fun img => img_RegistryID img ≠ registryID) (images db);
       registries := registries db;
       upstreamProxyConfigs := upstreamProxyConfigs db;
       blobs := blobs db; objects := objects db; auditLog := auditLog db |}).

(** The registry named [name] under [parentID]. *)
Definition isRegistry (parentID : Z) (name : string) (reg : Registry) : bool :=
  (reg_ParentID reg =? parentID) && String.eqb (reg_Name reg) name.

Definition RegistryDelete (parentID : Z) (name : string) : Tx unit :=
  write (RegistryRepository_Delete parentID name) (fun db =>
    {| downloadStats := downloadStats db;
       bandwidthStats := bandwidthStats db; images := images db;
       registries :=
         filter (fun reg => negb (isRegistry parentID name reg)) (registries db);
       upstreamProxyConfigs := upstreamProxyConfigs db;
       blobs := blobs db; objects := objects db; auditLog := auditLog db |}).

Definition UpstreamProxyDelete (parentID : Z) (name : string) : Tx unit :=
  write (UpstreamProxyStore_Delete parentID name) (fun db =>
    {| downloadStats := downloadStats db;
       bandwidthStats := bandwidthStats db; images := images db;
       registries := registries db;
       upstreamProxyConfigs :=
         filter (fun cfg =>
                   negb (existsb
                           (fun reg => isRegistry parentID name reg
                                       && (reg_ID reg =? upc_RegistryID cfg))
                           (registries db)))
                (upstreamProxyConfigs db);
       blobs := blobs db; objects := objects db; auditLog := auditLog db |}).

(** [c.AuditService.Log(...)]: a failure is logged as a warning and
    has no other consequence. *)
Definition AuditLog (resourceType resourceName action scope : string)
  : Tx unit := fun db =>
  match fails (AuditService_Log resourceType resourceName) with
  | Some _ => (Ok tt, db)
  | None =>
      (Ok tt,
       {| downloadStats := downloadStats db;
          bandwidthStats := bandwidthStats db; images := images db;
          registries := registries db;
          upstreamProxyConfigs := upstreamProxyConfigs db;
          blobs := blobs db; objects := objects db;
          auditLog := (auditLog db ++
                         [mkAuditEvent resourceType resourceName action scope])%list |})
  end.

Definition deleteUpstreamProxyWithAudit (regInfo : RegistryRequestBaseInfo)
    (principal : Principal) (parentRef registryName : string) : Tx unit :=
  upstreamProxies ←
    wrap "failed to fectch upstream proxy IDs :%w"
      (query (fun db => FetchUpstreamProxyIDs db
                          [RegistryIdentifier regInfo] (parentID regInfo)));
  _ ← (if 0 <? len upstreamProxies then
         first ← pure (index upstreamProxies 0);
         registryIDs ←
           wrap "failed to fetch registryIDs IDs :%w"
             (query (fun db => FetchRegistriesIDByUpstreamProxyID db
                                 (FormatInt first) (parentID regInfo)));
         if 0 <? len registryIDs then
           registryID ← pure (index registryIDs 0);
           registry ← wrap "failed to fetch registry :%w"
                        (query (fun db => RegistryRepository_Get db registryID));
           spaceDetails ← wrap "failed to fetch space details: %w"
                            (query (fun db => SpaceStore_Find db
                                                (reg_ParentID registry)));
           pure (Fail (Errorf
             "upstream Proxy : [%s] is being used inside Registry: [%s] which is created under scope: [%s]. "
             [registryName; reg_Name registry; space_Path spaceDetails]))
         else pure (Ok tt)
       else pure (Ok tt));
  _ ← UpstreamProxyDelete (parentID regInfo) (RegistryIdentifier regInfo);
  _ ← AuditLog ResourceTypeRegistryUpstreamProxy registryName ActionDeleted
      parentRef;
  pure (Ok tt).

Definition deleteRegistryWithAudit (regInfo : RegistryRequestBaseInfo)
    (registry : Registry) (principal : Principal) (parentRef : string)
  : Tx unit :=
  _ ← DeleteDownloadStatByRegistryID (RegistryID regInfo);
  _ ← DeleteBandwidthStatByRegistryID (RegistryID regInfo);
  _ ← DeleteByRegistryID (RegistryID regInfo);
  _ ← RegistryDelete (parentID regInfo) (RegistryIdentifier regInfo);
  _ ← AuditLog ResourceTypeRegistry (reg_Name registry) ActionDeleted parentRef;
  pure (Ok tt).

(** [session.Principal] *)
Definition principalOf (session : option Session) : Tx Principal :=
  match session with
  | Some s => pure (Ok (session_Principal s))
  | None => pure (Panic NilDereference)
  end.

(** [DeleteRegistry]: the response and the returned error. *)
Definition DeleteRegistry (session : option Session) (registryRef : string)
  : Tx (DeleteRegistryResponse * option error) := fun db =>
  match GetRegistryRequestBaseInfo db registryRef with
  | Panic p => (Panic p, db)
  | Fail err => (Ok (DeleteRegistry400JSONResponse err, Some err), db)
  | Ok regInfo =>
  match SpaceStore_FindByRef db (ParentRef regInfo) with
  | Panic p => (Panic p, db)
  | Fail err => (Ok (DeleteRegistry400JSONResponse err, Some err), db)
  | Ok space =>
  match CheckRegistry session space (RegistryIdentifier regInfo) with
  | Some err => (Ok (DeleteRegistry403JSONResponse err, Some err), db)
  | None =>
  let '(repoEntity, err) :=
    RegistryRepository_GetByParentIDAndName db (parentID regInfo)
      (RegistryIdentifier regInfo) in
  match repoEntity with
  | None => (Panic NilDereference, db)
  | Some repoEntity =>
  if Z.of_nat (String.length (reg_Name repoEntity)) =? 0 then
    (Ok (DeleteRegistry404JSONResponse "registry doesn't exist with this key",
         None), db)
  else
  match err with
  | Some err => (Ok (throwDeleteRegistry500Error err, Some err), db)
  | None =>
  let transaction :=
    if RegistryType_eqb (reg_Type repoEntity) VIRTUAL then
      WithTx (
        principal ← principalOf session;
        wrap "failed to delete registry: %w"
          (deleteRegistryWithAudit regInfo repoEntity principal
             (ParentRef regInfo)))
    else
      WithTx (
        principal ← principalOf session;
        _ ← wrap "failed to delete upstream proxy: %w"
              (deleteUpstreamProxyWithAudit regInfo principal
                 (ParentRef regInfo) (reg_Name repoEntity));
        principal ← principalOf session;
        wrap "failed to delete registry: %w"
          (deleteRegistryWithAudit regInfo repoEntity principal
             (ParentRef regInfo))) in
  match transaction db with
  | (Panic p, db') => (Panic p, db')
  | (Fail err, db') => (Ok (throwDeleteRegistry500Error err, None), db')
  | (Ok tt, db') => (Ok (DeleteRegistry200JSONResponse, None), db')
  end
  end end end end end.

End Delete.

(** *** Client setup details *)

Inductive ClientSetupStepType : Type :=
  | ClientSetupStepTypeStatic
  | ClientSetupStepTypeGenerateToken.

Inductive Status : Type := StatusSUCCESS | StatusFAILURE.

(** [artifact.ClientSetupStepCommand]; a [*string] is never written
    through, so it is modelled by the string it points to, if any. *)
Record ClientSetupStepCommand : Type := mkCommand {
  Label : option string;
  Value : option string
}.

(** The address of a [[]ClientSetupStepCommand] variable. *)
Definition loc : Type := nat.

(** [artifact.ClientSetupStep]; [Commands] is a pointer to a slice that
    [replaceText] writes to. *)
Record ClientSetupStep : Type := mkStep {
  step_Header : option string;
  Commands : option loc;
  step_Type : option ClientSetupStepType
}.

(** [artifact.ClientSetupSection]; the slice of steps behind [Steps] is
    only read. *)
Record ClientSetupSection : Type := mkSection {
  section_Header : option string;
  Steps : option (list ClientSetupStep)
}.

Record ClientSetupDetails : Type := mkDetails {
  MainHeader : string;
  SecHeader : string;
  Sections : list ClientSetupSection
}.

Record ClientSetupDetailsResponseJSONResponse : Type := mkResponse {
  Data : ClientSetupDetails;
  response_Status : Status
}.

(** The command slices, by address. *)
Definition Heap : Type := gmap loc (list ClientSetupStepCommand).

(** Dereference of the pointer [p]. *)
Definition deref {A} (p : option A) : outcome A :=
  match p with
  | Some a => Ok a
  | None => Panic NilDereference
  end.

(** [for _, x := range xs { ... }] over a state. *)
Fixpoint forEach {A S} (body : A -> S -> outcome S) (xs : list A) (s : S)
  : outcome S :=
  match xs with
  | [] => Ok s
  | x :: rest => s' ← body x s; forEach body rest s'
  end.

(** The command at index [i] of the slice that [st.Commands] points to. *)
Definition loadCommand (heap : Heap) (st : ClientSetupStep) (i : Z)
  : outcome ClientSetupStepCommand :=
  l ← deref (Commands st);
  commands ← deref (heap !! l);
  index commands i.

(** Assignment to the command at index [i] of that slice. *)
Definition storeCommand (heap : Heap) (st : ClientSetupStep) (i : Z)
    (command : ClientSetupStepCommand) : outcome Heap :=
  l ← deref (Commands st);
  commands ← deref (heap !! l);
  _ ← index commands i;
  Ok (<[l := <[Z.to_nat i := command]> commands]> heap).

(** The [Value] of that command becomes a pointer to
    [strings.ReplaceAll] of the string it pointed to. *)
Definition replaceInValue (old new : string) (st : ClientSetupStep) (i : Z)
    (heap : Heap) : outcome Heap :=
  command ← loadCommand heap st i;
  value ← deref (Value command);
  storeCommand heap st i
    {| Label := Label command;
       Value := Some (strings.ReplaceAll value old new) |}.

(** The same for the [Label]. *)
Definition replaceInLabel (old new : string) (st : ClientSetupStep) (i : Z)
    (heap : Heap) : outcome Heap :=
  command ← loadCommand heap st i;
  label ← deref (Label command);
  storeCommand heap st i
    {| Label := Some (strings.ReplaceAll label old new);
       Value := Value command |}.

Section ClientSetup.

(** [paths.DisectRoot] and [paths.DisectLeaf], without their errors. *)
Variable DisectRoot : string -> string * string.
Variable DisectLeaf : string -> string * string.
(** [c.URLProvider.RegistryURL(ctx, rootSpace)] *)
Variable RegistryURL : string -> string.
Variable TrimURLScheme : string -> string.
Variable GetHost : string -> string.

Definition replaceText (username : string) (st : ClientSetupStep) (i : Z)
    (hostname repoName : string) (image tag : option string) (heap : Heap)
  : outcome Heap :=
  heap ← (if negb (String.eqb username "") then
            heap ← replaceInValue "<USERNAME>" username st i heap;
            replaceInLabel "<USERNAME>" username st i heap
          else Ok heap);
  heap ← (if negb (String.eqb hostname "") then
            replaceInValue "<HOSTNAME>" hostname st i heap
          else Ok heap);
  heap ← (if negb (String.eqb hostname "") then
            replaceInValue "<LOGIN_HOSTNAME>" (GetHost hostname) st i heap
          else Ok heap);
  heap ← (if negb (String.eqb repoName "") then
            replaceInValue "<REGISTRY_NAME>" repoName st i heap
          else Ok heap);
  heap ← (match image with
          | Some image => replaceInValue "<IMAGE_NAME>" image st i heap
          | None => Ok heap
          end);
  match tag with
  | Some tag => replaceInValue "<TAG>" tag st i heap
  | None => Ok heap
  end.

Definition replacePlaceholders (clientSetupDetails : ClientSetupDetails)
    (username regRef : string) (image tag : option string) (heap : Heap)
  : outcome Heap :=
  let rootSpace := (DisectRoot regRef).1 in
  let registryName := (DisectLeaf regRef).2 in
  let hostname := TrimURLScheme (RegistryURL rootSpace) in
  forEach (fun s heap =>
    match Steps s with
    | None => Ok heap (* continue *)
    | Some steps =>
        forEach (fun st heap =>
          match Commands st with
          | None => Ok heap (* continue *)
          | Some l =>
              commands ← deref (heap !! l);
              forEach (fun i heap =>
                         replaceText username st i hostname registryName
                           image tag heap)
                      (seqZ 0 (len commands)) heap
          end) steps heap
    end) (Sections clientSetupDetails) heap.

(** The response, with the heap that holds its command slices. *)
Definition GenerateClientSetupDetails (session : option Session)
    (packageType : string) (image tag : option string) (registryRef : string)
  : outcome (ClientSetupDetailsResponseJSONResponse * Heap) :=
  session ← deref session;
  let username := principal_Email (session_Principal session) in
  let loginUsernameLabel := "Username: <USERNAME>" in
  let loginUsernameValue := "<USERNAME>" in
  let loginPasswordLabel := "Password: *see step 2*" in
  let blankString := "" in
  if String.eqb packageType "HELM" then
    let header1 := "Login to Helm" in
    let section1step1Header :=
      "Run this Helm command in your terminal to authenticate the client." in
    let helmLoginValue := "helm registry login <LOGIN_HOSTNAME>" in
    let section1step1Commands : loc := 1%nat in
    let heap : Heap :=
      <[section1step1Commands :=
          [mkCommand (Some blankString) (Some helmLoginValue);
           mkCommand (Some loginUsernameLabel) (Some loginUsernameValue);
           mkCommand (Some loginPasswordLabel) (Some blankString)]]> ∅ in
    let section1step1Type := ClientSetupStepTypeStatic in
    let section1step2Header :=
      "For the Password field above, generate an identity token" in
    let section1step2Type := ClientSetupStepTypeGenerateToken in
    let section1 :=
      [mkStep (Some section1step1Header) (Some section1step1Commands)
         (Some section1step1Type);
       mkStep (Some section1step2Header) None (Some section1step2Type)] in
    let header2 := "Push a version" in
    let section2step1Header :=
      "Run this Helm push command in your terminal to push a chart in OCI form."
      +:+ " Note: Make sure you add oci:// prefix to the repository URL." in
    let helmPushValue :=
      "helm push <CHART_TGZ_FILE> oci://<HOSTNAME>/<REGISTRY_NAME>" in
    let section2step1Commands : loc := 2%nat in
    let heap : Heap :=
      <[section2step1Commands :=
          [mkCommand (Some blankString) (Some helmPushValue)]]> heap in
    let section2step1Type := ClientSetupStepTypeStatic in
    let section2 :=
      [mkStep (Some section2step1Header) (Some section2step1Commands)
         (Some section2step1Type)] in
    let header3 := "Pull a version" in
    let section3step1Header :=
      "Run this Helm command in your terminal to pull a specific chart version." in
    let helmPullValue :=
      "helm pull oci://<HOSTNAME>/<REGISTRY_NAME>/<IMAGE_NAME> --version <TAG>" in
    let section3step1Commands : loc := 3%nat in
    let heap : Heap :=
      <[section3step1Commands :=
          [mkCommand (Some blankString) (Some helmPullValue)]]> heap in
    let section3step1Type := ClientSetupStepTypeStatic in
    let section3 :=
      [mkStep (Some section3step1Header) (Some section3step1Commands)
         (Some section3step1Type)] in
    let clientSetupDetails :=
      {| MainHeader := "Helm Client Setup";
         SecHeader :=
           "Follow these instructions to install/use Helm artifacts or compatible packages.";
         Sections := [mkSection (Some header1) (Some section1);
                      mkSection (Some header2) (Some section2);
                      mkSection (Some header3) (Some section3)] |} in
    heap ← replacePlaceholders clientSetupDetails username registryRef
             image tag heap;
    Ok ({| Data := clientSetupDetails; response_Status := StatusSUCCESS |},
        heap)
  else
    let header1 := "Login to Docker" in
    let section1step1Header :=
      "Run this Docker command in your terminal to authenticate the client." in
    let dockerLoginValue := "docker login <LOGIN_HOSTNAME>" in
    let section1step1Commands : loc := 1%nat in
    let heap : Heap :=
      <[section1step1Commands :=
          [mkCommand (Some blankString) (Some dockerLoginValue);
           mkCommand (Some loginUsernameLabel) (Some loginUsernameValue);
           mkCommand (Some loginPasswordLabel) (Some blankString)]]> ∅ in
    let section1step1Type := ClientSetupStepTypeStatic in
    let section1step2Header :=
      "For the Password field above, generate an identity token" in
    let section1step2Type := ClientSetupStepTypeGenerateToken in
    let section1 :=
      [mkStep (Some section1step1Header) (Some section1step1Commands)
         (Some section1step1Type);
       mkStep (Some section1step2Header) None (Some section1step2Type)] in
    let header2 := "Pull an image" in
    let section2step1Header :=
      "Run this Docker command in your terminal to pull image." in
    let dockerPullValue :=
      "docker pull <HOSTNAME>/<REGISTRY_NAME>/<IMAGE_NAME>:<TAG>" in
    let section2step1Commands : loc := 2%nat in
    let heap : Heap :=
      <[section2step1Commands :=
          [mkCommand (Some blankString) (Some dockerPullValue)]]> heap in
    let section2step1Type := ClientSetupStepTypeStatic in
    let section2 :=
      [mkStep (Some section2step1Header) (Some section2step1Commands)
         (Some section2step1Type)] in
    let header3 := "Retag and Push the image" in
    let section3step1Header :=
      "Run this Docker command in your terminal to tag the image." in
    let dockerTagValue :=
      "docker tag <IMAGE_NAME>:<TAG> <HOSTNAME>/<REGISTRY_NAME>/<IMAGE_NAME>:<TAG>" in
    let section3step1Commands : loc := 3%nat in
    let heap : Heap :=
      <[section3step1Commands :=
          [mkCommand (Some blankString) (Some dockerTagValue)]]> heap in
    let section3step1Type := ClientSetupStepTypeStatic in
    let section3step2Header :=
      "Run this Docker command in your terminal to push the image." in
    let dockerPushValue :=
      "docker push <HOSTNAME>/<REGISTRY_NAME>/<IMAGE_NAME>:<TAG>" in
    let section3step2Commands : loc := 4%nat in
    let heap : Heap :=
      <[section3step2Commands :=
          [mkCommand (Some blankString) (Some dockerPushValue)]]> heap in
    let section3step2Type := ClientSetupStepTypeStatic in
    let section3 :=
      [mkStep (Some section3step1Header) (Some section3step1Commands)
         (Some section3step1Type);
       mkStep (Some section3step2Header) (Some section3step2Commands)
         (Some section3step2Type)] in
    let clientSetupDetails :=
      {| MainHeader := "Docker Client Setup";
         SecHeader :=
           "Follow these instructions to install/use Docker artifacts or compatible packages.";
         Sections := [mkSection (Some header1) (Some section1);
                      mkSection (Some header3) (Some section3);
                      mkSection (Some header2) (Some section2)] |} in
    heap ← replacePlaceholders clientSetupDetails username registryRef
             image tag heap;
    Ok ({| Data := clientSetupDetails; response_Status := StatusSUCCESS |},
        heap).

End ClientSetup.

(** The commands that a response emits, section by section and step by
    step, read from the heap; steps without commands emit none. *)
Definition emittedCommands
    (response : ClientSetupDetailsResponseJSONResponse * Heap)
  : list ClientSetupStepCommand :=
  let '(response, heap) := response in
  s ← Sections (Data response);
  st ← default [] (Steps s);
  match Commands st with
  | Some l => default [] (heap !! l)
  | None => []
  end.

(** *** Permissions, tags and the remaining controller methods *)

(** [enum.Permission], the two that the modelled methods ask for. *)
Inductive Permission : Type :=
  | PermissionRegistryView
  | PermissionRegistryDelete.

(** [types.Tag], the fields that are read. *)
Record Tag : Type := mkTag {
  tag_ID : Z;
  tag_Name : string;
  tag_ManifestID : Z
}.

(** [types.TagMetadata], the fields that are read. *)
Record TagMetadata : Type := mkTagMetadata {
  tm_Name : string;
  tm_DownloadCount : Z
}.

(** What [docker.DBManifestToManifest] returns, by the cases of the type
    switch in [ProcessManifest]. *)
Inductive DistributionManifest : Type :=
  | Schema2Manifest (configDigest : string)  (* *schema2.DeserializedManifest    *)
  | OCIManifest (configDigest : string)      (* *ocischema.DeserializedManifest  *)
  | ManifestList (manifests : list ManifestDescriptor)
                                             (* *ml.DeserializedManifestList     *)
  | OtherManifest.                           (* any other type                   *)

(** [artifact.GetDockerArtifactManifestsResponseObject] *)
Inductive GetDockerArtifactManifestsResponse : Type :=
  | GetDockerArtifactManifests400JSONResponse (err : error)
  | GetDockerArtifactManifests403JSONResponse (err : error)
  | GetDockerArtifactManifests500JSONResponse (err : error)
  | GetDockerArtifactManifests200JSONResponse
      (imageName version : string) (manifests : list DockerManifestDetails).

Definition artifactManifestsErrorRs (err : error)
  : GetDockerArtifactManifestsResponse :=
  GetDockerArtifactManifests500JSONResponse err.

Section ArtifactManifests.

Variable NewDigest : string -> outcome string.
Variable Digest_String : string -> string.
Variable FindManifestByDigest : Z -> string -> string -> outcome Manifest.
Variable getManifestConfig : string -> string -> outcome (option manifestConfig).
Variable GetTimeInMs : Z -> string.
Variable GetSize : Z -> string.

(** [c.GetRegistryRequestBaseInfo(ctx, "", registryRef)] *)
Variable GetRegistryRequestBaseInfo : string -> outcome RegistryRequestBaseInfo.
Variable SpaceStore_FindByRef : string -> outcome Space.
(** [apiauth.CheckRegistry] on the permission checks of a space, a
    registry identifier and a permission. *)
Variable CheckRegistry :
  option Session -> Space -> string -> Permission -> option error.
(** A registry pointer and an error, as Go returns them. *)
Variable RegistryRepository_GetByParentIDAndName :
  Z -> string -> option Registry * option error.
Variable TagStore_GetLatestTagMetadata : Z -> string -> string -> outcome TagMetadata.
(** A tag pointer and an error. *)
Variable TagStore_FindTag : Z -> string -> string -> option Tag * option error.
Variable ManifestStore_Get : Z -> outcome Manifest.
Variable DBManifestToManifest : Manifest -> outcome DistributionManifest.
(** [errors.Is(err, sql.ErrNoRows)] *)
Variable errors_Is_ErrNoRows : error -> bool.

Definition ProcessManifest (regInfo : RegistryRequestBaseInfo)
    (image version : string) (downloadCount : Z)
  : outcome (list DockerManifestDetails) :=
  let '(registry, err) :=
    RegistryRepository_GetByParentIDAndName (parentID regInfo)
      (RegistryIdentifier regInfo) in
  _ ← match err with
      | Some err => Fail err
      | None => Ok tt
      end;
  registry ← deref registry;
  let '(t, err) := TagStore_FindTag (reg_ID registry) image version in
  _ ← match err with
      | Some err => if negb (errors_Is_ErrNoRows err) then Fail err else Ok tt
      | None => Ok tt
      end;
  t ← deref t;
  m ← ManifestStore_Get (tag_ManifestID t);
  manifest ← DBManifestToManifest m;
  match manifest with
  | Schema2Manifest configDigest =>
      mConfig ← getManifestConfig configDigest (RootIdentifier regInfo);
      Ok [getManifestDetails Digest_String GetTimeInMs GetSize
            m mConfig downloadCount]
  | OCIManifest configDigest =>
      mConfig ← getManifestConfig configDigest (RootIdentifier regInfo);
      Ok [getManifestDetails Digest_String GetTimeInMs GetSize
            m mConfig downloadCount]
  | ManifestList manifests =>
      getManifestList NewDigest Digest_String FindManifestByDigest
        getManifestConfig GetTimeInMs GetSize
        manifests registry image regInfo downloadCount
  | OtherManifest =>
      (* an error is logged; the list stays empty *)
      Ok []
  end.

(** [GetDockerArtifactManifests]: the response; the Go error it returns
    beside it is nil on every path. *)
Definition GetDockerArtifactManifests (session : option Session)
    (registryRef artifactParam versionParam : string)
  : outcome GetDockerArtifactManifestsResponse :=
  match GetRegistryRequestBaseInfo registryRef with
  | Panic p => Panic p
  | Fail err => Ok (GetDockerArtifactManifests400JSONResponse err)
  | Ok regInfo =>
  match SpaceStore_FindByRef (ParentRef regInfo) with
  | Panic p => Panic p
  | Fail err => Ok (GetDockerArtifactManifests400JSONResponse err)
  | Ok space =>
  match CheckRegistry session space (RegistryIdentifier regInfo)
          PermissionRegistryView with
  | Some err => Ok (GetDockerArtifactManifests403JSONResponse err)
  | None =>
  let image := artifactParam in
  let version := versionParam in
  match TagStore_GetLatestTagMetadata (parentID regInfo)
          (RegistryIdentifier regInfo) image with
  | Panic p => Panic p
  | Fail err => Ok (artifactManifestsErrorRs err)
  | Ok artifactMetadata =>
  match ProcessManifest regInfo image version
          (tm_DownloadCount artifactMetadata) with
  | Panic p => Panic p
  | Fail err => Ok (artifactManifestsErrorRs err)
  | Ok manifestDetailsList =>
      Ok (GetDockerArtifactManifests200JSONResponse image version
            manifestDetailsList)
  end end end end end.

End ArtifactManifests.

(** *** The summary of an artifact version *)

Section ArtifactSummary.

Variable GetRegistryRequestBaseInfo : string -> outcome RegistryRequestBaseInfo.
Variable SpaceStore_FindByRef : string -> outcome Space.
Variable CheckRegistry :
  option Session -> Space -> string -> Permission -> option error.
Variable TagStore_GetTagMetadata :
  Z -> string -> string -> string -> outcome TagMetadata.
(** A name and an error, as Go returns them. *)
Variable TagStore_GetLatestTagName : Z -> string -> string -> string * option error.

(** The payload of the 200 response, built by the package function
    [GetArtifactVersionSummary(tag, image, isLatestTag)]. *)
Variable Summary : Type.
Variable buildArtifactVersionSummary : TagMetadata -> string -> bool -> Summary.

(** [FetchArtifactSummary]: the image, the tag metadata and the latest-tag
    flag, or the error. *)
Definition FetchArtifactSummary (session : option Session)
    (registryRef artifactParam versionParam : string)
  : outcome (string * TagMetadata * bool) :=
  match GetRegistryRequestBaseInfo registryRef with
  | Panic p => Panic p
  | Fail err =>
      Fail (ErrorfW "failed to get registry request base info: %w" err)
  | Ok regInfo =>
      space ← SpaceStore_FindByRef (ParentRef regInfo);
      match CheckRegistry session space (RegistryIdentifier regInfo)
              PermissionRegistryView with
      | Some err => Fail err
      | None =>
          let image := artifactParam in
          let version := versionParam in
          tag ← TagStore_GetTagMetadata (parentID regInfo)
                  (RegistryIdentifier regInfo) image version;
          let '(latestTag, _) :=
            TagStore_GetLatestTagName (parentID regInfo)
              (RegistryIdentifier regInfo) image in
          let isLatestTag := String.eqb latestTag version in
          Ok (image, tag, isLatestTag)
      end
  end.

Inductive GetArtifactVersionSummaryResponse : Type :=
  | GetArtifactVersionSummary500JSONResponse (err : error)
  | GetArtifactVersionSummary200JSONResponse (summary : Summary).

Definition GetArtifactVersionSummary (session : option Session)
    (registryRef artifactParam versionParam : string)
  : outcome GetArtifactVersionSummaryResponse :=
  match FetchArtifactSummary session registryRef artifactParam versionParam with
  | Panic p => Panic p
  | Fail err => Ok (GetArtifactVersionSummary500JSONResponse err)
  | Ok (image, tag, isLatestTag) =>
      Ok (GetArtifactVersionSummary200JSONResponse
            (buildArtifactVersionSummary tag image isLatestTag))
  end.

End ArtifactSummary.

(** *** The client setup endpoint *)

Inductive GetClientSetupDetailsResponse : Type :=
  | GetClientSetupDetails400JSONResponse (err : error)
  | GetClientSetupDetails403JSONResponse (err : error)
  | GetClientSetupDetails404JSONResponse (message : string)
  | GetClientSetupDetails200JSONResponse
      (details : ClientSetupDetailsResponseJSONResponse) (heap : Heap).

Section ClientSetupEndpoint.

Variable DisectRoot : string -> string * string.
Variable DisectLeaf : string -> string * string.
Variable RegistryURL : string -> string.
Variable TrimURLScheme : string -> string.
Variable GetHost : string -> string.

(** A base-info pointer and an error; the method drops the error. *)
Variable GetRegistryRequestBaseInfo :
  string -> option RegistryRequestBaseInfo * option error.
Variable SpaceStore_FindByRef : string -> outcome Space.
Variable CheckRegistry :
  option Session -> Space -> string -> Permission -> option error.
Variable RegistryRepository_GetByParentIDAndName :
  Z -> string -> option Registry * option error.
(** [c.ImageStore.GetByName(ctx, registryID, name)], the error only. *)
Variable ImageStore_GetByName : Z -> string -> option error.
(** [c.TagStore.FindTag(ctx, registryID, image, tag)], the error only. *)
Variable TagStore_FindTag : Z -> string -> string -> option error.

(** [GetClientSetupDetails]: the response and the Go error beside it. *)
Definition GetClientSetupDetails (session : option Session)
    (regRefParam : string) (imageParam tagParam : option string)
  : outcome (GetClientSetupDetailsResponse * option error) :=
  let '(regInfo, _) := GetRegistryRequestBaseInfo regRefParam in
  regInfo ← deref regInfo;
  match SpaceStore_FindByRef (ParentRef regInfo) with
  | Panic p => Panic p
  | Fail err => Ok (GetClientSetupDetails400JSONResponse err, None)
  | Ok space =>
  match CheckRegistry session space (RegistryIdentifier regInfo)
          PermissionRegistryView with
  | Some err => Ok (GetClientSetupDetails403JSONResponse err, None)
  | None =>
  let '(reg, err) :=
    RegistryRepository_GetByParentIDAndName (parentID regInfo)
      (RegistryIdentifier regInfo) in
  match err with
  | Some err =>
      Ok (GetClientSetupDetails404JSONResponse
            "registry doesn't exist with this ref", Some err)
  | None =>
  reg ← deref reg;
  let checked : option (GetClientSetupDetailsResponse * option error) :=
    match imageParam with
    | Some image =>
        match ImageStore_GetByName (reg_ID reg) image with
        | Some err =>
            Some (GetClientSetupDetails404JSONResponse "image doesn't exist",
                  Some err)
        | None =>
            match tagParam with
            | Some tag =>
                match TagStore_FindTag (reg_ID reg) image tag with
                | Some err =>
                    Some (GetClientSetupDetails404JSONResponse
                            "tag doesn't exist", Some err)
                | None => None
                end
            | None => None
            end
        end
    | None => None
    end in
  match checked with
  | Some answer => Ok answer
  | None =>
      let packageType := reg_PackageType reg in
      generated ← GenerateClientSetupDetails DisectRoot DisectLeaf RegistryURL
                    TrimURLScheme GetHost session packageType imageParam
                    tagParam (RegistryRef regInfo);
      Ok (GetClientSetupDetails200JSONResponse generated.1 generated.2, None)
  end
  end end end.

End ClientSetupEndpoint.

End metadata.

(* ===================================================================== *)
(** ** Concrete helpers and stores on which the model is exercised        *)
(* ===================================================================== *)

Module Samples.

Definition isLowerHex (c : ascii) : bool :=
  let n := nat_of_ascii c in
  ((48 <=? n) && (n <=? 57) || (97 <=? n) && (n <=? 102))%nat.

Fixpoint allLowerHex (s : string) : bool :=
  match s with
  | EmptyString => true
  | String c rest => isLowerHex c && allLowerHex rest
  end.

(** A digest parser that accepts [sha256:] followed by 64 hex digits. *)
Definition digest_Parse (s : string) : option string :=
  if String.prefix "sha256:" s
     && Nat.eqb (String.length s) 71
     && allLowerHex (String.substring 7 64 s)
  then Some s else None.

(** A glob matcher with the wildcard [*] only; every pattern compiles. *)
Fixpoint glob (pattern val : string) : bool :=
  match pattern with
  | EmptyString => String.eqb val ""
  | String c rest =>
      if Ascii.eqb c "*" then
        (fix star (v : string) : bool :=
           glob rest v ||
           match v with
           | EmptyString => false
           | String _ v' => star v'
           end) val
      else
        match val with
        | EmptyString => false
        | String d val' => Ascii.eqb c d && glob rest val'
        end
  end.

Definition globMatch (pattern val : string) : option bool :=
  Some (glob pattern val).

Definition ValidateIdentifier (identifier : string) : option error :=
  if String.eqb identifier "" then Some (ErrOther "identifier is empty")
  else None.

Definition rootSpace : Space :=
  {| space_ID := 1; space_Identifier := "root"; space_Path := "root" |}.

(** A local registry that blocks every [latest] tag. *)
Definition reg : Registry :=
  {| reg_ID := 10; reg_Name := "reg"; reg_ParentID := 1;
     reg_RootParentID := 1; reg_Type := VIRTUAL;
     reg_PackageType := "DOCKER";
     reg_AllowedPattern := []; reg_BlockedPattern := ["*:latest"] |}.

(** An upstream proxy registry without patterns. *)
Definition proxy : Registry :=
  {| reg_ID := 11; reg_Name := "proxy"; reg_ParentID := 1;
     reg_RootParentID := 1; reg_Type := UPSTREAM;
     reg_PackageType := "DOCKER";
     reg_AllowedPattern := []; reg_BlockedPattern := [] |}.

Definition handler : oci.Handler :=
  {| oci.FindByRefCaseInsensitive := fun spaceRef =>
       if String.eqb spaceRef "root" then Ok rootSpace
       else Fail ErrResourceNotFound;
     oci.Find := fun id =>
       if id =? 1 then Ok rootSpace else Fail ErrResourceNotFound;
     oci.GetByRootParentIDAndName := fun rootParentID name =>
       if (rootParentID =? 1) && String.eqb name "reg" then Ok reg
       else if (rootParentID =? 1) && String.eqb name "proxy" then Ok proxy
       else Fail ErrResourceNotFound;
     oci.OCIRelativeURL := false |}.

Definition request (path : string) : oci.Request :=
  {| oci.URL_Path := path; oci.URL_Query := ∅; oci.Header := ∅ |}.

Definition GetRegistryInfo :=
  oci.GetRegistryInfo digest_Parse ValidateIdentifier
    (oci.MatchArtifactFilter globMatch) handler.

(** The text before the first slash, and the text after it. *)
Fixpoint cutAtSlash (s : string) : string * string :=
  match s with
  | EmptyString => (EmptyString, EmptyString)
  | String c rest =>
      if Ascii.eqb c "/" then (EmptyString, rest)
      else let '(before, after) := cutAtSlash rest in (String c before, after)
  end.

Definition DisectRoot (path : string) : string * string := cutAtSlash path.

(** The parent path and the last segment. *)
Definition DisectLeaf (path : string) : string * string :=
  let segments := strings.Split path "/" in
  (strings.Join (take (Nat.pred (length segments)) segments) "/",
   default "" (last segments)).

Definition RegistryURL (rootSpace : string) : string :=
  "https://pkg.example.io/" +:+ rootSpace.

Definition TrimURLScheme (url : string) : string :=
  if String.prefix "https://" url
  then String.substring 8 (String.length url - 8) url
  else url.

Definition GetHost (url : string) : string := (cutAtSlash url).1.

(** A database with the two registries, records that belong to them,
    and one blob shared by both. *)
Definition db : metadata.DB :=
  {| metadata.downloadStats :=
       [metadata.mkDownloadStat 1 10; metadata.mkDownloadStat 2 11];
     metadata.bandwidthStats := [metadata.mkBandwidthStat 1 10];
     metadata.images :=
       [metadata.mkImage 100 10 "foo"; metadata.mkImage 101 11 "alpine"];
     metadata.registries := [reg; proxy];
     metadata.upstreamProxyConfigs := [metadata.mkUpstreamProxyConfig 5 11];
     metadata.blobs :=
       [metadata.mkBlob "sha256:0a" 4 "application/octet-stream" 1];
     metadata.objects := {[ "sha256:0a" := "data" ]};
     metadata.auditLog := [] |}.

Definition regInfo : metadata.RegistryRequestBaseInfo :=
  {| metadata.RegistryID := 10; metadata.RegistryIdentifier := "reg";
     metadata.RegistryRef := "root/reg"; metadata.parentID := 1;
     metadata.ParentRef := "root"; metadata.RootIdentifier := "root" |}.

(** No write fails. *)
Definition noFailure (c : metadata.StoreWrite) : option error := None.

(** Manifest stores: one child manifest is known, any other is not found. *)
Definition amd64Digest : string :=
  "sha256:aaaaaaaaaaaaaaaaaaaaaaaaaaaaaaaaaaaaaaaaaaaaaaaaaaaaaaaaaaaaaaaa".


Definition NewDigest (s : string) : outcome string :=
  match digest_Parse s with
  | Some d => Ok d
  | None => Fail (ErrOther "invalid digest")
  end.

Definition FindManifestByDigest (registryID : Z) (image dgst : string)
  : outcome metadata.Manifest :=
  if String.eqb dgst amd64Digest
  then Ok (metadata.mkManifest 1 amd64Digest "sha256:0c" 2048 0)
  else Fail ErrResourceNotFound.

Definition getManifestConfig (dgst rootIdentifier : string)
  : outcome (option metadata.manifestConfig) :=
  Ok (Some (metadata.mkManifestConfig "linux" "amd64")).

Definition getManifestList :=
  metadata.getManifestList NewDigest (fun d => d) FindManifestByDigest
    getManifestConfig (fun _ => "0") (fun _ => "2KB").

Definition amd64Child : metadata.ManifestDescriptor :=
  metadata.mkManifestDescriptor amd64Digest
    "application/vnd.oci.image.manifest.v1+json" 2048.


Definition session : metadata.Session :=
  {| metadata.session_Principal :=
       {| metadata.principal_ID := 7;
          metadata.principal_Email := "dev@example.io" |} |}.

Definition GenerateClientSetupDetails :=
  metadata.GenerateClientSetupDetails DisectRoot DisectLeaf RegistryURL
    TrimURLScheme GetHost.

(** *** Stores of the metadata endpoints *)

(** The stores behind the metadata endpoints. *)
Definition GetRegistryRequestBaseInfo (registryRef : string)
  : outcome metadata.RegistryRequestBaseInfo :=
  if String.eqb registryRef "root/reg" then Ok regInfo
  else Fail (ErrOther "registry not found").

Definition SpaceStore_FindByRef (spaceRef : string) : outcome Space :=
  if String.eqb spaceRef "root" then Ok rootSpace
  else Fail ErrResourceNotFound.

(** Any session is allowed everything; no session, nothing. *)
Definition CheckRegistry (session : option metadata.Session) (space : Space)
    (registryIdentifier : string) (permission : metadata.Permission)
  : option error :=
  match session with
  | Some _ => None
  | None => Some (ErrOther "unauthorized")
  end.

Definition RegistryRepository_GetByParentIDAndName (parentID : Z)
    (name : string) : option Registry * option error :=
  if (parentID =? 1) && String.eqb name "reg" then (Some reg, None)
  else (None, Some ErrResourceNotFound).

Definition ErrNoRows : error := ErrOther "sql: no rows in result set".

Definition errors_Is_ErrNoRows (err : error) : bool :=
  match err with
  | ErrOther msg => String.eqb msg "sql: no rows in result set"
  | _ => false
  end.

Definition TagStore_GetLatestTagMetadata (parentID : Z)
    (registryIdentifier image : string) : outcome metadata.TagMetadata :=
  Ok (metadata.mkTagMetadata "v2" 42).

(** The tag [v1] is the only one. *)
Definition TagStore_FindTag (registryID : Z) (image version : string)
  : option metadata.Tag * option error :=
  if String.eqb version "v1" then (Some (metadata.mkTag 1 "v1" 1), None)
  else (None, Some ErrNoRows).

Definition ManifestStore_Get (id : Z) : outcome metadata.Manifest :=
  Ok (metadata.mkManifest 1 amd64Digest "sha256:0c" 2048 0).

Definition DBManifestToManifest (m : metadata.Manifest)
  : outcome metadata.DistributionManifest :=
  Ok (metadata.OCIManifest (metadata.m_ConfigurationDigest m)).

Definition GetDockerArtifactManifests :=
  metadata.GetDockerArtifactManifests NewDigest (fun d => d)
    FindManifestByDigest getManifestConfig (fun _ => "0")
    (fun _ => "2KB") GetRegistryRequestBaseInfo SpaceStore_FindByRef
    CheckRegistry RegistryRepository_GetByParentIDAndName
    TagStore_GetLatestTagMetadata TagStore_FindTag ManifestStore_Get
    DBManifestToManifest errors_Is_ErrNoRows.


(** The base info with its error, as the client setup endpoint reads it. *)
Definition GetRegistryRequestBaseInfoPtr (registryRef : string)
  : option metadata.RegistryRequestBaseInfo * option error :=
  if String.eqb registryRef "root/reg" then (Some regInfo, None)
  else (None, Some (ErrOther "registry not found")).

Definition ImageStore_GetByName (registryID : Z) (name : string)
  : option error :=
  if String.eqb name "alpine" then None else Some ErrResourceNotFound.

Definition GetClientSetupDetails :=
  metadata.GetClientSetupDetails DisectRoot DisectLeaf
    RegistryURL TrimURLScheme GetHost
    GetRegistryRequestBaseInfoPtr SpaceStore_FindByRef
    CheckRegistry RegistryRepository_GetByParentIDAndName
    ImageStore_GetByName
    (fun registryID image tag => (TagStore_FindTag registryID image tag).2).


(** Queries of the sample database. *)
Definition RegistryRepository_GetByParentIDAndNameIn (db : metadata.DB)
    (parentID : Z) (name : string) : option Registry * option error :=
  match filter (fun reg => metadata.isRegistry parentID name reg = true)
          (metadata.registries db) with
  | reg :: _ => (Some reg, None)
  | [] => (None, Some ErrResourceNotFound)
  end.

Definition RegistryRepository_Get (db : metadata.DB) (id : Z)
  : outcome Registry :=
  match filter (fun reg => reg_ID reg = id) (metadata.registries db) with
  | reg :: _ => Ok reg
  | [] => Fail ErrResourceNotFound
  end.

(** The upstream proxy configurations of the registries named. *)
Definition FetchUpstreamProxyIDs (db : metadata.DB) (names : list string)
    (parentID : Z) : outcome (list Z) :=
  Ok (cfg ← metadata.upstreamProxyConfigs db;
      if existsb (fun reg => (reg_ID reg =? metadata.upc_RegistryID cfg)
                             && existsb (String.eqb (reg_Name reg)) names)
           (metadata.registries db)
      then [metadata.upc_ID cfg] else []).

(** The registry [reg] is the one that uses the upstream proxy [5]. *)
Definition FetchRegistriesIDByUpstreamProxyID (db : metadata.DB)
    (upstreamProxyID : string) (parentID : Z) : outcome (list Z) :=
  if String.eqb upstreamProxyID "5" then Ok [10] else Ok [].

Definition FormatInt (i : Z) : string := pretty i.

(** The audit service is down; every other write goes through. *)
Definition auditDown (c : metadata.StoreWrite) : option error :=
  match c with
  | metadata.AuditService_Log _ _ => Some (ErrOther "audit service is down")
  | _ => None
  end.

Definition DeleteRegistry (fails : metadata.StoreWrite -> option error) :=
  metadata.DeleteRegistry fails
    (fun _ registryRef =>
       if String.eqb registryRef "root/proxy"
       then Ok {| metadata.RegistryID := 11;
                  metadata.RegistryIdentifier := "proxy";
                  metadata.RegistryRef := "root/proxy";
                  metadata.parentID := 1; metadata.ParentRef := "root";
                  metadata.RootIdentifier := "root" |}
       else GetRegistryRequestBaseInfo registryRef)
    (fun _ => SpaceStore_FindByRef)
    (fun _ => oci.Find handler)
    (fun session space registryIdentifier =>
       CheckRegistry session space registryIdentifier
         metadata.PermissionRegistryDelete)
    RegistryRepository_GetByParentIDAndNameIn RegistryRepository_Get
    FetchUpstreamProxyIDs FetchRegistriesIDByUpstreamProxyID FormatInt.

(** A database without rows. *)
Definition emptyDB : metadata.DB :=
  {| metadata.downloadStats := []; metadata.bandwidthStats := [];
     metadata.images := []; metadata.registries := [];
     metadata.upstreamProxyConfigs := []; metadata.blobs := [];
     metadata.objects := ∅; metadata.auditLog := [] |}.

End Samples.

(* ===================================================================== *)
(** ** Vocabulary of the properties                                       *)
(* ===================================================================== *)

(** The handler [h] with the patterns of every registry it finds
    replaced by [allowed] and [blocked]. *)
Definition withPatterns (allowed blocked : list string) (h : oci.Handler)
  : oci.Handler :=
  {| oci.FindByRefCaseInsensitive := oci.FindByRefCaseInsensitive h;
     oci.Find := oci.Find h;
     oci.GetByRootParentIDAndName := fun rootParentID name =>
       reg ← oci.GetByRootParentIDAndName h rootParentID name;
       Ok {| reg_ID := reg_ID reg; reg_Name := reg_Name reg;
             reg_ParentID := reg_ParentID reg;
             reg_RootParentID := reg_RootParentID reg;
             reg_Type := reg_Type reg;
             reg_PackageType := reg_PackageType reg;
             reg_AllowedPattern := allowed;
             reg_BlockedPattern := blocked |};
     oci.OCIRelativeURL := oci.OCIRelativeURL h |}.

(** [s] when it is not empty. *)
Definition present (s : string) : option string :=
  if String.eqb s "" then None else Some s.

(** The placeholder tokens with the values that the session and the
    request provide for them, in the order in which they are replaced. *)
Definition placeholderValues (username hostname loginHostname repoName : string)
    (image tag : option string) : list (string * option string) :=
  [("<USERNAME>", present username);
   ("<HOSTNAME>", present hostname);
   ("<LOGIN_HOSTNAME>", if String.eqb hostname "" then None else Some loginHostname);
   ("<REGISTRY_NAME>", present repoName);
   ("<IMAGE_NAME>", image);
   ("<TAG>", tag)].

(** Every token that has a value is replaced by it, one token after the
    other. *)
Definition substitute (values : list (string * option string)) (text : string)
  : string :=
  foldl (fun text entry =>
           match entry.2 with
           | Some value => strings.ReplaceAll text entry.1 value
           | None => text
           end) text values.

(** In a command the value is substituted in full, the label for the
    user name only. *)
Definition substituteCommand (values : list (string * option string))
    (command : metadata.ClientSetupStepCommand) : metadata.ClientSetupStepCommand :=
  {| metadata.Label := substitute (take 1 values) <$> metadata.Label command;
     metadata.Value := substitute values <$> metadata.Value command |}.

(** The value of a placeholder, or the token itself when there is none. *)
Definition fill (token : string) (value : option string) : string :=
  default token value.

(** The Helm instructions: login, user name, password, push, pull. *)
Definition helmInstructions (U H LH R I T : string)
  : list metadata.ClientSetupStepCommand :=
  [metadata.mkCommand (Some "") (Some ("helm registry login " +:+ LH));
   metadata.mkCommand (Some ("Username: " +:+ U)) (Some U);
   metadata.mkCommand (Some "Password: *see step 2*") (Some "");
   metadata.mkCommand (Some "")
     (Some ("helm push <CHART_TGZ_FILE> oci://" +:+ H +:+ "/" +:+ R));
   metadata.mkCommand (Some "")
     (Some ("helm pull oci://" +:+ H +:+ "/" +:+ R +:+ "/" +:+ I
            +:+ " --version " +:+ T))].

(** The Docker instructions: login, user name, password, tag, push, pull. *)
Definition dockerInstructions (U H LH R I T : string)
  : list metadata.ClientSetupStepCommand :=
  [metadata.mkCommand (Some "") (Some ("docker login " +:+ LH));
   metadata.mkCommand (Some ("Username: " +:+ U)) (Some U);
   metadata.mkCommand (Some "Password: *see step 2*") (Some "");
   metadata.mkCommand (Some "")
     (Some ("docker tag " +:+ I +:+ ":" +:+ T +:+ " " +:+ H +:+ "/" +:+ R
            +:+ "/" +:+ I +:+ ":" +:+ T));
   metadata.mkCommand (Some "")
     (Some ("docker push " +:+ H +:+ "/" +:+ R +:+ "/" +:+ I +:+ ":" +:+ T));
   metadata.mkCommand (Some "")
     (Some ("docker pull " +:+ H +:+ "/" +:+ R +:+ "/" +:+ I +:+ ":" +:+ T))].

(** The instructions for a package type, over six fillers. *)
Definition instructions (packageType : string) (U H LH R I T : string)
  : list metadata.ClientSetupStepCommand :=
  if String.eqb packageType "HELM" then helmInstructions U H LH R I T
  else dockerInstructions U H LH R I T.

(** No byte of [s] is [<]. *)
Fixpoint noLt (s : string) : bool :=
  match s with
  | EmptyString => true
  | String c rest => negb (Ascii.eqb c "<") && noLt rest
  end.

(** [s] is empty or starts with a byte outside the cutset. *)
Definition headClean (cutset s : string) : Prop :=
  match s with
  | EmptyString => True
  | String c _ => strings.inCutset c cutset = false
  end.

(** The path segments that both [getRouteType] and [ExtractPathVars]
    work on. *)
Definition segmentsOf (path : string) : list string :=
  strings.Split (strings.Trim path "/") "/".


(** The value of the [digest] query parameter, or the empty string. *)
Definition digestParam (paramMap : gmap string string) : string :=
  match paramMap !! "digest" with
  | Some d => d
  | None => ""
  end.

(** [segments[3 : len(segments)-k]] joined by slashes. *)
Definition imageUpTo (segments : list string) (k : Z) : string :=
  strings.Join
    (take (Z.to_nat (len segments - k - 3)) (drop 3%nat segments)) "/".

(** The three store calls of a resolution that gets as far as the
    registry's parent space. *)
Definition lookups (pv : oci.PathVars) (rootSpace : Space) (reg : Registry)
  : list oci.StoreCall :=
  [oci.SpaceStore_FindByRefCaseInsensitive (oci.rootIdentifier pv);
   oci.RegistryDao_GetByRootParentIDAndName (space_ID rootSpace)
     (oci.registry pv);
   oci.SpaceStore_Find (reg_ParentID reg)].

(** The registry of the request is resolved: the path parses, the root
    identifier validates and the three lookups succeed. *)
Definition resolved (digest_Parse : string -> option string)
    (ValidateIdentifier : string -> option error)
    (h : oci.Handler) (r : oci.Request) (pv : oci.PathVars)
    (rootSpace : Space) (reg : Registry) : Prop :=
  oci.ExtractPathVars digest_Parse (oci.URL_Path r)
    (oci.GetQueryParamMap (oci.URL_Query r)) = Ok pv ∧
  ValidateIdentifier (oci.rootIdentifier pv) = None ∧
  oci.FindByRefCaseInsensitive h (oci.rootIdentifier pv) = Ok rootSpace ∧
  oci.GetByRootParentIDAndName h (space_ID rootSpace) (oci.registry pv)
    = Ok reg ∧
  (∃ parent, oci.Find h (reg_ParentID reg) = Ok parent) ∧
  space_Identifier rootSpace ≠ "" ∧
  oci.registry pv ≠ "".

(** The [pkg.RegistryInfo] that a successful resolution returns. *)
Definition infoOf (h : oci.Handler) (r : oci.Request) (pv : oci.PathVars)
    (rootSpace : Space) (reg : Registry) : oci.RegistryInfo :=
  {| oci.artifactInfo :=
       {| oci.base := {| oci.RootIdentifier := oci.rootIdentifier pv;
                         oci.RootParentID := space_ID rootSpace;
                         oci.ParentID := reg_ParentID reg |};
          oci.RegIdentifier := oci.registry pv;
          oci.Image := oci.image pv |};
     oci.Reference := oci.ref pv;
     oci.Digest := oci.dgst pv;
     oci.Tag := oci.tag pv;
     oci.urlBuilder := oci.NewURLBuilderFromRequest r (oci.OCIRelativeURL h);
     oci.Path := oci.URL_Path r |}.

(** A computation on the database that leaves the blob records and the
    content-addressed objects as they were, however it ends. *)
Definition keepsBlobs {A} (m : metadata.Tx A) : Prop :=
  ∀ db, metadata.blobs (m db).2 = metadata.blobs db ∧
        metadata.objects (m db).2 = metadata.objects db.

(** No byte of [s] is a slash. *)
Fixpoint noSlash (s : string) : bool :=
  match s with
  | EmptyString => true
  | String c rest => negb (Ascii.eqb c "/") && noSlash rest
  end.

(** A name that can stand as one path segment: not empty, no slash. *)
Definition isSegment (s : string) : bool :=
  negb (String.eqb s "") && noSlash s.

(** The URL path [/v2/root/reg/image.../tail...], from its segments. *)
Definition pathOf (root reg : string) (image tail : list string) : string :=
  "/" +:+ strings.Join ("v2" :: root :: reg :: image ++ tail)%list "/".

(** The referenced manifest of a manifest-list entry is in the store. *)
Definition found (NewDigest : string -> outcome string)
    (FindManifestByDigest : Z -> string -> string -> outcome metadata.Manifest)
    (registry : Registry) (image : string)
    (entry : metadata.ManifestDescriptor) : bool :=
  match NewDigest (metadata.md_Digest entry) with
  | Ok dgst =>
      match FindManifestByDigest (reg_ID registry) image dgst with
      | Ok _ => true
      | _ => false
      end
  | _ => false
  end.

(** Two databases hold the same rows and objects; their audit logs may
    differ. *)
Definition sameTables (db1 db2 : metadata.DB) : Prop :=
  metadata.downloadStats db1 = metadata.downloadStats db2 ∧
  metadata.bandwidthStats db1 = metadata.bandwidthStats db2 ∧
  metadata.images db1 = metadata.images db2 ∧
  metadata.registries db1 = metadata.registries db2 ∧
  metadata.upstreamProxyConfigs db1 = metadata.upstreamProxyConfigs db2 ∧
  metadata.blobs db1 = metadata.blobs db2 ∧
  metadata.objects db1 = metadata.objects db2.

(** Two computations end alike and leave the same tables, from databases
    with the same tables. *)
Definition alike {A} (m1 m2 : metadata.Tx A) : Prop :=
  ∀ db1 db2, sameTables db1 db2 →
    (m1 db1).1 = (m2 db2).1 ∧ sameTables (m1 db1).2 (m2 db2).2.

(** From [heap] to [heap'] the command at index [i] of the slice at [l] is
    the only one that may have changed: the other slices are the same,
    and the slice at [l] has its length and its other commands. *)
Definition writesOnly (l : metadata.loc) (i : nat)
    (heap heap' : metadata.Heap) : Prop :=
  (∀ l', l' ≠ l → heap' !! l' = heap !! l') ∧
  ∃ commands commands',
    heap !! l = Some commands ∧ heap' !! l = Some commands' ∧
    length commands' = length commands ∧ (i < length commands)%nat ∧
    ∀ j, j ≠ i → commands' !! j = commands !! j.

(* ===================================================================== *)
(** * Properties                                                          *)
(* ===================================================================== *)

(** ** Slices and indexing *)

Lemma index_Ok {A} (l : list A) (i : Z) :
  0 <= i < len l → ∃ x, index l i = Ok x ∧ l !! Z.to_nat i = Some x.
Proof.
  intros Hi. unfold index.
  assert (Hb : (0 <=? i) && (i <? len l) = true).
  { apply andb_true_iff. split; [apply Z.leb_le | apply Z.ltb_lt]; lia. }
  rewrite Hb.
  destruct (l !! Z.to_nat i) as [x|] eqn:Hl; [eauto|].
  apply lookup_ge_None in Hl. unfold len in Hi. lia.
Qed.

Lemma index_Panic {A} (l : list A) (i : Z) :
  ¬ (0 <= i < len l) → index l i = Panic (IndexOutOfRange i (len l)).
Proof.
  intros Hi. unfold index.
  destruct ((0 <=? i) && (i <? len l)) eqn:Hb; [|done].
  apply andb_true_iff in Hb as [H1 H2].
  apply Z.leb_le in H1. apply Z.ltb_lt in H2. lia.
Qed.

Lemma index_last {A} (l : list A) (x : A) :
  index l (len l - 1) = Ok x → last l = Some x.
Proof.
  unfold index. intros H.
  destruct ((0 <=? len l - 1) && (len l - 1 <? len l)) eqn:Hb; [|done].
  destruct (l !! Z.to_nat (len l - 1)) as [y|] eqn:Hl; [|done].
  injection H as ->. rewrite last_lookup.
  replace (Nat.pred (length l)) with (Z.to_nat (len l - 1)); [done|].
  unfold len. lia.
Qed.

Lemma slice_Ok {A} (l : list A) (lo hi : Z) :
  0 <= lo <= hi → hi <= len l →
  slice l lo hi = Ok (take (Z.to_nat (hi - lo)) (drop (Z.to_nat lo) l)).
Proof.
  intros H1 H2. unfold slice.
  assert (Hb : (0 <=? lo) && (lo <=? hi) && (hi <=? len l) = true).
  { rewrite !andb_true_iff, !Z.leb_le. lia. }
  by rewrite Hb.
Qed.

Lemma slice_Panic {A} (l : list A) (lo hi : Z) :
  ¬ (0 <= lo <= hi ∧ hi <= len l) →
  slice l lo hi = Panic (SliceBoundsOutOfRange lo hi).
Proof.
  intros H. unfold slice.
  destruct ((0 <=? lo) && (lo <=? hi) && (hi <=? len l)) eqn:Hb; [|done].
  rewrite !andb_true_iff, !Z.leb_le in Hb. lia.
Qed.

(** ** Trimming twice is trimming once *)

Section TrimFacts.

Variable cutset : string.

Lemma TrimLeft_headClean s : headClean cutset (strings.TrimLeft s cutset).
Proof.
  induction s as [|c s IH]; simpl; [done|].
  destruct (strings.inCutset c cutset) eqn:Hc; [done|]. simpl. done.
Qed.

Lemma TrimLeft_id s : headClean cutset s → strings.TrimLeft s cutset = s.
Proof. destruct s as [|c s]; simpl; [done|]. by intros ->. Qed.

Lemma TrimRight_headClean s :
  headClean cutset s → headClean cutset (strings.TrimRight s cutset).
Proof.
  destruct s as [|c s]; simpl; [done|]. intros Hc.
  destruct (strings.TrimRight s cutset); [rewrite Hc|]; simpl; done.
Qed.

Lemma TrimRight_idem s :
  strings.TrimRight (strings.TrimRight s cutset) cutset
  = strings.TrimRight s cutset.
Proof.
  induction s as [|c s IH]; simpl; [done|].
  destruct (strings.TrimRight s cutset) as [|d t] eqn:Ht.
  - destruct (strings.inCutset c cutset) eqn:Hc; simpl; [done|].
    by rewrite Hc.
  - simpl. simpl in IH. rewrite IH. done.
Qed.

Lemma Trim_idem s :
  strings.Trim (strings.Trim s cutset) cutset = strings.Trim s cutset.
Proof.
  unfold strings.Trim.
  rewrite (TrimLeft_id (strings.TrimRight _ _)).
  - apply TrimRight_idem.
  - apply TrimRight_headClean, TrimLeft_headClean.
Qed.

End TrimFacts.

(** ** The route classifier *)

(** Membership in an explicit list. *)
Ltac in_list := rewrite !elem_of_cons; repeat (first [by left | right]).

(** Case analysis on the first string comparison of the goal. *)
Ltac case_eqb :=
  match goal with
  | |- context [String.eqb ?a ?b] => destruct (String.eqb_spec a b)
  end.


Lemma getRouteType_trimmed path :
  oci.getRouteType (strings.Trim path "/") = oci.getRouteType path.
Proof. unfold oci.getRouteType. by rewrite Trim_idem. Qed.

Lemma getRouteType_short path :
  len (segmentsOf path) < 5 → oci.getRouteType path = Ok oci.Invalid.
Proof.
  intros H. unfold oci.getRouteType. fold (segmentsOf path).
  unfold oci.MinSizeOfURLSegments.
  destruct (Z.ltb_spec (len (segmentsOf path)) 5); [done | lia].
Qed.

(** On a path of at least five segments the classifier reads the last two
    segments and nothing else. *)
Lemma getRouteType_long path :
  5 <= len (segmentsOf path) →
  ∃ typ final,
    index (segmentsOf path) (len (segmentsOf path) - 2) = Ok typ ∧
    index (segmentsOf path) (len (segmentsOf path) - 1) = Ok final ∧
    oci.getRouteType path =
      Ok (if String.eqb typ oci.APIPartManifest then oci.Manifests
          else if String.eqb typ oci.APIPartBlobs then
            if String.eqb final oci.APIPartUpload then oci.BlobsUploadsSession
            else oci.Blobs
          else if String.eqb typ oci.APIPartUpload then oci.BlobsUploadsSession
          else if String.eqb typ oci.APIPartTag then oci.Tags
          else if String.eqb typ oci.APIPartReferrer then oci.Referrers
          else oci.Invalid).
Proof.
  intros H. unfold oci.getRouteType. fold (segmentsOf path).
  unfold oci.MinSizeOfURLSegments.
  destruct (Z.ltb_spec (len (segmentsOf path)) 5); [lia|].
  destruct (index_Ok (segmentsOf path) (len (segmentsOf path) - 2))
    as (typ & Htyp & _); [lia|].
  destruct (index_Ok (segmentsOf path) (len (segmentsOf path) - 1))
    as (final & Hfinal & _); [lia|].
  exists typ, final. rewrite Htyp, Hfinal. simpl.
  repeat split; try done.
  by repeat case_eqb.
Qed.


(** A route other than [Invalid] needs at least five segments. *)
Lemma getRouteType_valid_long path t :
  oci.getRouteType path = Ok t → t ≠ oci.Invalid → 5 <= len (segmentsOf path).
Proof.
  intros Ht Hne.
  destruct (Z.lt_ge_cases (len (segmentsOf path)) 5) as [H|H]; [|done].
  rewrite (getRouteType_short _ H) in Ht. congruence.
Qed.

(** ** The path-variable extractor *)

Section ExtractFacts.

Variable digest_Parse : string -> option string.

(** What the extractor computes on a path of at least five segments,
    with the panics of every slice and index expression resolved. *)
Lemma ExtractPathVars_long path paramMap :
  let segments := segmentsOf path in
  5 <= len segments →
  ∃ root reg typ final t,
    segments !! 1%nat = Some root ∧
    segments !! 2%nat = Some reg ∧
    index segments (len segments - 2) = Ok typ ∧
    last segments = Some final ∧
    oci.getRouteType path = Ok t ∧
    oci.ExtractPathVars digest_Parse path paramMap =
      let image := imageUpTo segments 2 in
      if String.eqb t oci.Manifests then
        match digest_Parse final with
        | None => Ok (oci.mkPathVars root reg image final "" final)
        | Some _ => Ok (oci.mkPathVars root reg image final final "")
        end
      else if String.eqb t oci.Blobs then
        Ok (oci.mkPathVars root reg image "" final "")
      else if String.eqb t oci.BlobsUploadsSession then
        if negb (String.eqb final oci.APIPartUpload)
           && String.eqb typ oci.APIPartUpload
        then
          if 6 <=? len segments
          then Ok (oci.mkPathVars root reg (imageUpTo segments 3) final
                     (digestParam paramMap) "")
          else Panic (SliceBoundsOutOfRange 3 (len segments - 3))
        else Ok (oci.mkPathVars root reg image "" (digestParam paramMap) "")
      else if String.eqb t oci.Tags then
        Ok (oci.mkPathVars root reg image "" "" "")
      else if String.eqb t oci.Referrers then
        Ok (oci.mkPathVars root reg image "" final "")
      else Ok (oci.mkPathVars root reg image "" "" "").
Proof.
  intros segments Hlen.
  destruct (index_Ok segments 1) as (root & Hroot & Hroot'); [lia|].
  destruct (index_Ok segments 2) as (reg & Hreg & Hreg'); [lia|].
  destruct (getRouteType_long path Hlen) as (typ & final & Htyp & Hfinal & Ht).
  fold segments in Htyp, Hfinal.
  exists root, reg, typ, final. eexists.
  split; [exact Hroot'|]. split; [exact Hreg'|]. split; [exact Htyp|].
  split; [by apply index_last|]. split; [exact Ht|].
  unfold oci.ExtractPathVars. rewrite getRouteType_trimmed, Ht.
  fold (segmentsOf path). fold segments.
  rewrite Hroot, Hreg, (slice_Ok segments 3 (len segments - 2)) by lia.
  cbn [mbind outcome_bind].
  replace (take (Z.to_nat (len segments - 2 - 3)) (drop (Z.to_nat 3) segments))
    with (take (Z.to_nat (len segments - 2 - 3)) (drop 3%nat segments)) by done.
  fold (imageUpTo segments 2).
  set (t := if String.eqb typ oci.APIPartManifest then _ else _).
  cbv zeta.
  destruct (String.eqb t oci.Manifests).
  { rewrite Hfinal. cbn [mbind outcome_bind]. done. }
  destruct (String.eqb t oci.Blobs).
  { rewrite Hfinal. done. }
  destruct (String.eqb t oci.BlobsUploadsSession); [|].
  { rewrite Hfinal. cbn [mbind outcome_bind].
    fold (digestParam paramMap).
    destruct (String.eqb final oci.APIPartUpload); cbn [negb andb]; [done|].
    rewrite Htyp. cbn [mbind outcome_bind].
    destruct (String.eqb typ oci.APIPartUpload); [|done].
    destruct (Z.leb_spec 6 (len segments)).
    - rewrite (slice_Ok segments 3 (len segments - 3)) by lia.
      cbn [mbind outcome_bind]. done.
    - rewrite (slice_Panic segments 3 (len segments - 3)) by lia. done. }
  destruct (String.eqb t oci.Tags); [done|].
  destruct (String.eqb t oci.Referrers); [|done].
  rewrite Hfinal. done.
Qed.

(** On fewer than five segments one of the unconditional accesses
    [segments[1]], [segments[2]], [segments[3:len(segments)-2]] panics. *)
Lemma ExtractPathVars_short path paramMap :
  len (segmentsOf path) < 5 →
  ∃ p, oci.ExtractPathVars digest_Parse path paramMap = Panic p.
Proof.
  intros Hlen. unfold oci.ExtractPathVars. fold (segmentsOf path).
  set (segments := segmentsOf path) in *.
  destruct (Z.lt_ge_cases 1 (len segments)) as [H1|H1].
  2: { rewrite (index_Panic segments 1) by lia. by eexists. }
  destruct (index_Ok segments 1) as (root & -> & _); [lia|].
  destruct (Z.lt_ge_cases 2 (len segments)) as [H2|H2].
  2: { rewrite (index_Panic segments 2) by lia. by eexists. }
  destruct (index_Ok segments 2) as (reg & -> & _); [lia|].
  rewrite (slice_Panic segments 3 (len segments - 2)) by lia.
  by eexists.
Qed.

(** On at least six segments every access is within bounds. *)
Lemma ExtractPathVars_six path paramMap :
  6 <= len (segmentsOf path) →
  ∃ pv, oci.ExtractPathVars digest_Parse path paramMap = Ok pv.
Proof.
  intros Hlen.
  destruct (ExtractPathVars_long path paramMap)
    as (root & reg & typ & final & t & _ & _ & _ & _ & _ & ->); [lia|].
  cbv zeta.
  destruct (Z.leb_spec 6 (len (segmentsOf path))); [|lia].
  repeat match goal with
         | |- context [if ?b then _ else _] => destruct b
         | |- context [match ?o with Some _ => _ | None => _ end] => destruct o
         end; by eexists.
Qed.

End ExtractFacts.

(** ** Registry-info resolution *)

Lemma IsEmpty_false s : s ≠ "" → oci.IsEmpty s = false.
Proof. unfold oci.IsEmpty. by destruct (String.eqb_spec s ""). Qed.

Lemma IsEmpty_true s : s = "" → oci.IsEmpty s = true.
Proof. by intros ->. Qed.

Lemma traced_bind_pure {A B} (a : A) (f : A → oci.traced B) :
  oci.pure (Ok a) ≫= f = f a.
Proof. unfold mbind, oci.traced_bind, oci.pure. by destruct (f a). Qed.


Section ResolveFacts.

Variable digest_Parse : string -> option string.
Variable ValidateIdentifier : string -> option error.

(** Once the registry is resolved, only the filter and the
    remote-support check remain. *)
Lemma GetRegistryInfo_resolved filter h r remoteSupport pv rootSpace reg :
  resolved digest_Parse ValidateIdentifier h r pv rootSpace reg →
  oci.GetRegistryInfo digest_Parse ValidateIdentifier filter h r remoteSupport
  = (lookups pv rootSpace reg,
     if negb (oci.IsEmpty (oci.image pv)) && negb (oci.IsEmpty (oci.tag pv))
        && (let '(flag, err2) :=
              filter (reg_AllowedPattern reg) (reg_BlockedPattern reg)
                (oci.image pv +:+ ":" +:+ oci.tag pv) in
            negb flag || notNil err2)
     then Fail ErrCodeDenied
     else if RegistryType_eqb (reg_Type reg) UPSTREAM && negb remoteSupport
     then Fail ErrCodeDenied
     else Ok (infoOf h r pv rootSpace reg)).
Proof.
  intros (Hpv & Hval & Hroot & Hreg & (parent & Hparent) & Hid & Hname).
  unfold oci.GetRegistryInfo. rewrite Hpv.
  cbn [mbind oci.traced_bind oci.pure]. rewrite Hval.
  cbn [mbind oci.traced_bind oci.pure]. rewrite Hroot.
  cbn [mbind oci.traced_bind oci.call]. rewrite Hreg.
  cbn [mbind oci.traced_bind oci.call]. rewrite Hparent.
  cbn [mbind oci.traced_bind oci.call].
  rewrite (IsEmpty_false _ Hid), (IsEmpty_false _ Hname).
  cbn [oci.failWhen mbind oci.traced_bind oci.pure
       oci.Image oci.Tag oci.artifactInfo].
  unfold lookups, infoOf.
  destruct (negb (oci.IsEmpty (oci.image pv))
            && negb (oci.IsEmpty (oci.tag pv))); cbn [andb].
  - destruct (filter _ _ _) as [flag err2].
    destruct (negb flag || notNil err2);
      cbn [oci.failWhen mbind oci.traced_bind oci.pure]; [done|].
    by destruct (RegistryType_eqb (reg_Type reg) UPSTREAM && negb remoteSupport).
  - cbn [mbind oci.traced_bind oci.pure].
    by destruct (RegistryType_eqb (reg_Type reg) UPSTREAM && negb remoteSupport).
Qed.

(** When the image or the tag is empty the filter is not consulted:
    the resolution does not depend on it, whatever the stores answer. *)
Lemma GetRegistryInfo_filter_unused filter1 filter2 h r remoteSupport pv :
  oci.ExtractPathVars digest_Parse (oci.URL_Path r)
    (oci.GetQueryParamMap (oci.URL_Query r)) = Ok pv →
  oci.image pv = "" ∨ oci.tag pv = "" →
  oci.GetRegistryInfo digest_Parse ValidateIdentifier filter1 h r remoteSupport
  = oci.GetRegistryInfo digest_Parse ValidateIdentifier filter2 h r remoteSupport.
Proof.
  intros Hpv Hempty. unfold oci.GetRegistryInfo. rewrite Hpv.
  cbn [mbind oci.traced_bind oci.pure].
  destruct (ValidateIdentifier _); [done|].
  cbn [mbind oci.traced_bind oci.pure].
  destruct (oci.FindByRefCaseInsensitive h _) as [rootSpace| |]; [|done..].
  cbn [mbind oci.traced_bind oci.call].
  destruct (oci.GetByRootParentIDAndName h _ _) as [reg| |]; [|done..].
  cbn [mbind oci.traced_bind oci.call].
  destruct (oci.Find h _) as [parent| |]; [|done..].
  cbn [mbind oci.traced_bind oci.call oci.Image oci.Tag oci.artifactInfo].
  assert (negb (oci.IsEmpty (oci.image pv))
          && negb (oci.IsEmpty (oci.tag pv)) = false) as ->; [|done].
  destruct Hempty as [-> | ->]; [done|]. apply andb_false_r.
Qed.

(** A resolution that returns a registry info has resolved the registry,
    and the info is the one built from the path variables. *)
Lemma GetRegistryInfo_Ok_inv filter h r remoteSupport calls info :
  oci.GetRegistryInfo digest_Parse ValidateIdentifier filter h r remoteSupport
  = (calls, Ok info) →
  ∃ pv rootSpace reg,
    resolved digest_Parse ValidateIdentifier h r pv rootSpace reg ∧
    info = infoOf h r pv rootSpace reg.
Proof.
  intros H.
  assert (∃ pv rootSpace reg,
            resolved digest_Parse ValidateIdentifier h r pv rootSpace reg)
    as (pv & rootSpace & reg & Hres).
  { revert H. unfold oci.GetRegistryInfo, resolved.
    destruct (oci.ExtractPathVars _ _ _) as [pv| |]; [|done..].
    rewrite traced_bind_pure.
    destruct (ValidateIdentifier _) eqn:Hval; [done|].
    rewrite traced_bind_pure.
    destruct (oci.FindByRefCaseInsensitive h _) as [rootSpace| |] eqn:Hroot;
      [|done..].
    cbn [mbind oci.traced_bind oci.call].
    destruct (oci.GetByRootParentIDAndName h _ _) as [reg| |] eqn:Hreg;
      [|done..].
    cbn [mbind oci.traced_bind oci.call].
    destruct (oci.Find h _) as [parent| |] eqn:Hparent; [|done..].
    cbn [mbind oci.traced_bind oci.call].
    destruct (String.eqb_spec (space_Identifier rootSpace) "") as [He|Hid];
      [rewrite (IsEmpty_true _ He) | rewrite (IsEmpty_false _ Hid)];
      cbn [oci.failWhen mbind oci.traced_bind oci.pure]; [done|].
    destruct (String.eqb_spec (oci.registry pv) "") as [He|Hname];
      [rewrite (IsEmpty_true _ He) | rewrite (IsEmpty_false _ Hname)];
      cbn [oci.failWhen mbind oci.traced_bind oci.pure]; [done|].
    intros _. exists pv, rootSpace, reg. eauto 10. }
  exists pv, rootSpace, reg. split; [done|].
  rewrite (GetRegistryInfo_resolved _ _ _ _ _ _ _ Hres) in H.
  injection H as _ H.
  repeat match type of H with
         | (if ?b then _ else _) = _ => destruct b; [done|]
         end.
  by injection H.
Qed.

End ResolveFacts.

(** ** The artifact filter *)

Section FilterFacts.

Variable globMatch : string -> string -> option bool.

Lemma matchPatterns_true patterns val :
  oci.matchPatterns globMatch patterns val = (true, None) →
  oci.matchesAny globMatch patterns val.
Proof.
  induction patterns as [|p ps IH]; simpl; [done|].
  destruct (globMatch p val) as [[|]|] eqn:Hp; [| |done].
  - intros _. exists p. split; [apply list_elem_of_here | done].
  - intros H. destruct (IH H) as (q & Hq & Hm).
    exists q. split; [by apply list_elem_of_further | done].
Qed.

Lemma matchPatterns_false patterns val :
  oci.matchPatterns globMatch patterns val = (false, None) →
  ¬ oci.matchesAny globMatch patterns val.
Proof.
  induction patterns as [|p ps IH]; simpl.
  - intros _ (q & Hq & _). by apply elem_of_nil in Hq.
  - destruct (globMatch p val) as [[|]|] eqn:Hp; [done| |done].
    intros H (q & Hq & Hm). apply elem_of_cons in Hq as [-> | Hq].
    + congruence.
    + apply (IH H). by exists q.
Qed.

(** The search answers [(true, nil)], [(false, nil)] or [(false, err)]. *)
Lemma matchPatterns_cases patterns val :
  oci.matchPatterns globMatch patterns val = (true, None) ∨
  oci.matchPatterns globMatch patterns val = (false, None) ∨
  ∃ err, oci.matchPatterns globMatch patterns val = (false, Some err).
Proof.
  induction patterns as [|p ps IH]; simpl; [auto|].
  destruct (globMatch p val) as [[|]|]; eauto.
Qed.

(** The filter lets an artifact pass exactly as invariant I5 says, and
    never passes it together with an error. *)
Lemma MatchArtifactFilter_pass allowed blocked artifact flag err2 :
  oci.MatchArtifactFilter globMatch allowed blocked artifact = (flag, err2) →
  negb flag || notNil err2 = false →
  (allowed = [] ∨ oci.matchesAny globMatch allowed artifact) ∧
  ¬ oci.matchesAny globMatch blocked artifact.
Proof.
  unfold oci.MatchArtifactFilter. intros Hf Hpass.
  destruct (matchPatterns_cases blocked artifact) as [Hb | [Hb | [e Hb]]];
    rewrite Hb in Hf.
  - injection Hf as <- <-. done.
  - split; [|by apply matchPatterns_false].
    destruct allowed as [|a allowed]; [by left|]. right.
    apply matchPatterns_true. rewrite Hf.
    destruct flag, err2; simpl in Hpass; done.
  - injection Hf as <- <-. done.
Qed.

End FilterFacts.

(** ** Route classification and path variables: the specified properties *)




(** C3.  On a path classified [Manifests] the reference is the final
    segment; it is also the digest, with an empty tag, when it parses as a
    digest, and the tag, with an empty digest, when it does not. *)
Theorem C3_manifest_reference digest_Parse path paramMap :
  oci.getRouteType path = Ok oci.Manifests →
  ∃ root reg final,
    last (segmentsOf path) = Some final ∧
    oci.ExtractPathVars digest_Parse path paramMap
    = Ok (oci.mkPathVars root reg (imageUpTo (segmentsOf path) 2) final
            (match digest_Parse final with Some _ => final | None => "" end)
            (match digest_Parse final with Some _ => "" | None => final end)).
Proof.
  intros Hroute.
  assert (Hlen : 5 <= len (segmentsOf path)).
  { by apply (getRouteType_valid_long path oci.Manifests). }
  destruct (ExtractPathVars_long digest_Parse path paramMap Hlen)
    as (root & reg & typ & final & t & _ & _ & _ & Hlast & Ht & ->).
  exists root, reg, final. split; [done|].
  rewrite Hroute in Ht. injection Ht as <-. cbv zeta.
  rewrite String.eqb_refl. by destruct (digest_Parse final).
Qed.

Lemma C3_manifest_reference_witness :
  oci.getRouteType "/v2/root/reg/a/b/manifests/latest" = Ok oci.Manifests ∧
  ∃ root reg final,
    last (segmentsOf "/v2/root/reg/a/b/manifests/latest") = Some final ∧
    oci.ExtractPathVars Samples.digest_Parse
      "/v2/root/reg/a/b/manifests/latest" ∅
    = Ok (oci.mkPathVars root reg
            (imageUpTo (segmentsOf "/v2/root/reg/a/b/manifests/latest") 2)
            final
            (match Samples.digest_Parse final with
             | Some _ => final | None => "" end)
            (match Samples.digest_Parse final with
             | Some _ => "" | None => final end)).
Proof.
  split; [reflexivity|].
  apply (C3_manifest_reference Samples.digest_Parse
           "/v2/root/reg/a/b/manifests/latest" ∅).
  reflexivity.
Defined.

(** What the extractor does on a blob-upload route: a final segment
    [uploads] is a new upload without session reference; any other final
    segment is the session reference and is left out of the image, provided
    the path has six segments or more; the [digest] query parameter, when
    present, is the digest. *)
Lemma ExtractPathVars_upload digest_Parse path paramMap :
  oci.getRouteType path = Ok oci.BlobsUploadsSession →
  ∃ root reg final,
    last (segmentsOf path) = Some final ∧
    (final = oci.APIPartUpload →
       oci.ExtractPathVars digest_Parse path paramMap
       = Ok (oci.mkPathVars root reg (imageUpTo (segmentsOf path) 2) ""
               (digestParam paramMap) "")) ∧
    (final ≠ oci.APIPartUpload → 6 <= len (segmentsOf path) →
       oci.ExtractPathVars digest_Parse path paramMap
       = Ok (oci.mkPathVars root reg (imageUpTo (segmentsOf path) 3) final
               (digestParam paramMap) "")) ∧
    (final ≠ oci.APIPartUpload → len (segmentsOf path) = 5 →
       oci.ExtractPathVars digest_Parse path paramMap
       = Panic (SliceBoundsOutOfRange 3 2)).
Proof.
  intros Hroute.
  assert (Hlen : 5 <= len (segmentsOf path)).
  { by apply (getRouteType_valid_long path oci.BlobsUploadsSession). }
  destruct (ExtractPathVars_long digest_Parse path paramMap Hlen)
    as (root & reg & typ & final & t & _ & _ & Htyp & Hlast & Ht & ->).
  destruct (getRouteType_long path Hlen)
    as (typ' & final' & Htyp' & Hfinal' & Ht').
  rewrite Htyp in Htyp'. injection Htyp' as <-.
  apply index_last in Hfinal'. rewrite Hlast in Hfinal'.
  injection Hfinal' as <-.
  rewrite Hroute in Ht. injection Ht as <-.
  rewrite Hroute in Ht'. injection Ht' as Ht'.
  exists root, reg, final. split; [done|]. cbv zeta.
  change (String.eqb oci.BlobsUploadsSession oci.Manifests) with false.
  change (String.eqb oci.BlobsUploadsSession oci.Blobs) with false.
  rewrite String.eqb_refl. cbv iota.
  destruct (String.eqb_spec final oci.APIPartUpload) as [Hf | Hf];
    cbn [negb andb].
  { repeat split; done. }
  assert (Hu : String.eqb typ oci.APIPartUpload = true).
  { revert Ht'. repeat case_eqb; try discriminate; done. }
  rewrite Hu.
  repeat split; try done.
  - intros _ H6. by destruct (Z.leb_spec 6 (len (segmentsOf path))); [|lia].
  - intros _ H5. rewrite H5. done.
Qed.

(** C4 at its failing input.  This path is a blob-upload route whose final
    segment [sess] is not [uploads]; instead of capturing it as the
    session reference the extractor panics on [segments[3:len(segments)-3]],
    which is [segments[3:2]] on five segments. *)
Theorem C4_upload_session_of_five_segments digest_Parse paramMap :
  oci.getRouteType "/v2/root/reg/uploads/sess" = Ok oci.BlobsUploadsSession ∧
  last (segmentsOf "/v2/root/reg/uploads/sess") = Some "sess" ∧
  oci.ExtractPathVars digest_Parse "/v2/root/reg/uploads/sess" paramMap
  = Panic (SliceBoundsOutOfRange 3 2).
Proof. repeat split; reflexivity. Qed.

(** C9 at its failing input.  A path of exactly five segments on which the
    extractor slices out of bounds. *)
Theorem C9_slice_out_of_bounds_on_five_segments digest_Parse paramMap :
  len (segmentsOf "/v2/root/reg/uploads/sess") = 5 ∧
  ∃ p, oci.ExtractPathVars digest_Parse "/v2/root/reg/uploads/sess" paramMap
       = Panic p.
Proof. split; [reflexivity|]. by eexists. Qed.

(** ** Registry-info resolution: the specified properties *)

(** A request with image and tag whose registry is resolved is answered
    [DENIED], or [image:tag] passes the patterns of the registry: it
    matches the allow globs (an empty list matches everything) and no
    block glob. *)
Lemma passes_or_denied globMatch digest_Parse ValidateIdentifier
    h r remoteSupport pv rootSpace reg :
  let artifact := oci.image pv +:+ ":" +:+ oci.tag pv in
  resolved digest_Parse ValidateIdentifier h r pv rootSpace reg →
  oci.image pv ≠ "" → oci.tag pv ≠ "" →
  (oci.GetRegistryInfo digest_Parse ValidateIdentifier
     (oci.MatchArtifactFilter globMatch) h r remoteSupport).2
  = Fail ErrCodeDenied ∨
  (reg_AllowedPattern reg = [] ∨
   oci.matchesAny globMatch (reg_AllowedPattern reg) artifact) ∧
  ¬ oci.matchesAny globMatch (reg_BlockedPattern reg) artifact.
Proof.
  intros artifact Hres Himage Htag.
  rewrite (GetRegistryInfo_resolved _ _ _ _ _ _ _ _ _ Hres).
  rewrite (IsEmpty_false _ Himage), (IsEmpty_false _ Htag).
  cbn [negb andb snd]. fold artifact.
  destruct (oci.MatchArtifactFilter globMatch _ _ artifact)
    as [flag err2] eqn:Hf.
  destruct (negb flag || notNil err2) eqn:Hpass; [by left|].
  right. exact (MatchArtifactFilter_pass _ _ _ _ _ _ Hf Hpass).
Qed.

(** C1.  Take a request that carries an image and a tag, with any headers
    (credentials are not looked at).  Once its registry is resolved, the
    resolution returns [DENIED] unless [image:tag] matches the allow globs
    of the registry (an empty list matches everything) and matches none of
    its block globs; in particular it returns [DENIED] whenever a block
    glob matches.  And whatever the stores answer, it returns a registry
    info with an image and a tag only for a resolved registry whose
    patterns the artifact passes. *)
Theorem C1_policy_envelope globMatch digest_Parse ValidateIdentifier
    h r remoteSupport :
  let passes reg artifact :=
    (reg_AllowedPattern reg = [] ∨
     oci.matchesAny globMatch (reg_AllowedPattern reg) artifact) ∧
    ¬ oci.matchesAny globMatch (reg_BlockedPattern reg) artifact in
  let result :=
    (oci.GetRegistryInfo digest_Parse ValidateIdentifier
       (oci.MatchArtifactFilter globMatch) h r remoteSupport).2 in
  (∀ pv rootSpace reg,
     let artifact := oci.image pv +:+ ":" +:+ oci.tag pv in
     resolved digest_Parse ValidateIdentifier h r pv rootSpace reg →
     oci.image pv ≠ "" → oci.tag pv ≠ "" →
     (¬ passes reg artifact → result = Fail ErrCodeDenied) ∧
     (oci.matchesAny globMatch (reg_BlockedPattern reg) artifact →
        result = Fail ErrCodeDenied)) ∧
  (∀ info,
     result = Ok info →
     oci.Image (oci.artifactInfo info) ≠ "" → oci.Tag info ≠ "" →
     ∃ pv rootSpace reg,
       resolved digest_Parse ValidateIdentifier h r pv rootSpace reg ∧
       info = infoOf h r pv rootSpace reg ∧
       passes reg (oci.Image (oci.artifactInfo info) +:+ ":" +:+ oci.Tag info)).
Proof.
  intros passes result. split.
  - intros pv rootSpace reg artifact Hres Himage Htag.
    assert (Hdenied : ¬ passes reg artifact → result = Fail ErrCodeDenied).
    { intros Hno.
      destruct (passes_or_denied globMatch _ _ _ _ remoteSupport _ _ _
                  Hres Himage Htag) as [Hd | Hp]; [exact Hd | by destruct Hno]. }
    split; [exact Hdenied|].
    intros Hblocked. apply Hdenied. intros [_ Hnot]. by apply Hnot.
  - intros info Hok Himage Htag. unfold result in Hok.
    destruct (oci.GetRegistryInfo _ _ _ h r remoteSupport) as [calls o] eqn:Hg.
    cbn [snd] in Hok. subst o.
    destruct (GetRegistryInfo_Ok_inv _ _ _ _ _ _ _ _ Hg)
      as (pv & rootSpace & reg & Hres & ->).
    exists pv, rootSpace, reg. split; [done|]. split; [done|].
    cbn [infoOf oci.Image oci.Tag oci.artifactInfo] in *.
    destruct (passes_or_denied globMatch _ _ _ _ remoteSupport _ _ _
                Hres Himage Htag) as [Hd | Hp]; [|exact Hp].
    rewrite Hg in Hd. discriminate.
Qed.

(** C1 at the request [GET /v2/root/reg/foo/manifests/latest] on a
    registry that blocks [*:latest]. *)
Lemma C1_policy_envelope_witness :
  let r := Samples.request "/v2/root/reg/foo/manifests/latest" in
  let pv := oci.mkPathVars "root" "reg" "foo" "latest" "" "latest" in
  resolved Samples.digest_Parse Samples.ValidateIdentifier Samples.handler
    r pv Samples.rootSpace Samples.reg ∧
  oci.image pv ≠ "" ∧ oci.tag pv ≠ "" ∧
  oci.matchesAny Samples.globMatch (reg_BlockedPattern Samples.reg)
    "foo:latest" ∧
  (Samples.GetRegistryInfo r true).2 = Fail ErrCodeDenied.
Proof.
  intros r pv.
  assert (Hres : resolved Samples.digest_Parse Samples.ValidateIdentifier
                   Samples.handler r pv Samples.rootSpace Samples.reg).
  { repeat split; try reflexivity; try discriminate.
    exists Samples.rootSpace. reflexivity. }
  assert (Hblocked : oci.matchesAny Samples.globMatch
                       (reg_BlockedPattern Samples.reg) "foo:latest").
  { exists "*:latest". split; [apply list_elem_of_here | reflexivity]. }
  split; [exact Hres|]. split; [discriminate|]. split; [discriminate|].
  split; [exact Hblocked|].
  apply (proj2 (proj1 (C1_policy_envelope Samples.globMatch
           Samples.digest_Parse Samples.ValidateIdentifier Samples.handler
           r true) pv Samples.rootSpace Samples.reg Hres
           ltac:(discriminate) ltac:(discriminate))).
  exact Hblocked.
Defined.

(** C8.  When the parsed image or the parsed tag is empty the resolution
    is the same for every filter function and for every choice of allow
    and block patterns: the filter is not evaluated.  The tag is empty on
    every blob route and on every manifest route whose final segment
    parses as a digest. *)
Theorem C8_filter_skipped digest_Parse ValidateIdentifier h r remoteSupport pv :
  oci.ExtractPathVars digest_Parse (oci.URL_Path r)
    (oci.GetQueryParamMap (oci.URL_Query r)) = Ok pv →
  (oci.image pv = "" ∨ oci.tag pv = "" →
   ∀ filter1 filter2 allowed blocked,
     oci.GetRegistryInfo digest_Parse ValidateIdentifier filter1
       (withPatterns allowed blocked h) r remoteSupport
     = oci.GetRegistryInfo digest_Parse ValidateIdentifier filter2
         h r remoteSupport) ∧
  (oci.getRouteType (oci.URL_Path r) = Ok oci.Blobs → oci.tag pv = "") ∧
  (oci.getRouteType (oci.URL_Path r) = Ok oci.Manifests →
   ∀ final, last (segmentsOf (oci.URL_Path r)) = Some final →
            is_Some (digest_Parse final) → oci.tag pv = "").
Proof.
  intros Hpv. split; [|split].
  - intros Hempty filter1 filter2 allowed blocked.
    rewrite (GetRegistryInfo_filter_unused _ _ filter1 filter2
               (withPatterns allowed blocked h) r _ pv Hpv Hempty).
    unfold oci.GetRegistryInfo. rewrite Hpv, !traced_bind_pure.
    destruct (ValidateIdentifier _); [done|].
    rewrite !traced_bind_pure.
    cbn [withPatterns oci.FindByRefCaseInsensitive oci.Find
         oci.GetByRootParentIDAndName oci.OCIRelativeURL].
    destruct (oci.FindByRefCaseInsensitive h _) as [rootSpace| |]; [|done..].
    cbn [mbind oci.traced_bind oci.call].
    destruct (oci.GetByRootParentIDAndName h _ _) as [reg| |]; [|done..].
    cbn [mbind outcome_bind oci.traced_bind oci.call reg_ParentID reg_Type].
    destruct (oci.Find h _) as [parent| |]; [|done..].
    cbn [mbind oci.traced_bind oci.call oci.Image oci.Tag oci.artifactInfo].
    assert (negb (oci.IsEmpty (oci.image pv))
            && negb (oci.IsEmpty (oci.tag pv)) = false) as ->; [|done].
    destruct Hempty as [-> | ->]; [done|]. apply andb_false_r.
  - intros Hroute.
    assert (Hlen : 5 <= len (segmentsOf (oci.URL_Path r))).
    { by apply (getRouteType_valid_long _ oci.Blobs). }
    destruct (ExtractPathVars_long digest_Parse (oci.URL_Path r)
                (oci.GetQueryParamMap (oci.URL_Query r)) Hlen)
      as (root & reg & typ & final & t & _ & _ & _ & _ & Ht & Hex).
    rewrite Hroute in Ht. injection Ht as <-.
    rewrite Hpv in Hex. cbv zeta in Hex.
    change (String.eqb oci.Blobs oci.Manifests) with false in Hex.
    rewrite String.eqb_refl in Hex. by injection Hex as ->.
  - intros Hroute final Hlast [d Hd].
    assert (Hlen : 5 <= len (segmentsOf (oci.URL_Path r))).
    { by apply (getRouteType_valid_long _ oci.Manifests). }
    destruct (ExtractPathVars_long digest_Parse (oci.URL_Path r)
                (oci.GetQueryParamMap (oci.URL_Query r)) Hlen)
      as (root & reg & typ & final' & t & _ & _ & _ & Hlast' & Ht & Hex).
    rewrite Hlast in Hlast'. injection Hlast' as <-.
    rewrite Hroute in Ht. injection Ht as <-.
    rewrite Hpv in Hex. cbv zeta in Hex.
    rewrite String.eqb_refl, Hd in Hex. by injection Hex as ->.
Qed.

(** C8 at the blob request [GET /v2/root/reg/foo/blobs/sha256:0]: the tag
    is empty, and the resolution is the same with a filter that rejects
    everything and a registry that blocks every artifact. *)
Lemma C8_filter_skipped_witness :
  let r := Samples.request "/v2/root/reg/foo/blobs/sha256:0" in
  let pv := oci.mkPathVars "root" "reg" "foo" "" "sha256:0" "" in
  oci.ExtractPathVars Samples.digest_Parse (oci.URL_Path r)
    (oci.GetQueryParamMap (oci.URL_Query r)) = Ok pv ∧
  oci.getRouteType (oci.URL_Path r) = Ok oci.Blobs ∧
  oci.tag pv = "" ∧
  oci.GetRegistryInfo Samples.digest_Parse Samples.ValidateIdentifier
    (fun _ _ _ => (false, None)) (withPatterns [] ["*"] Samples.handler) r true
  = Samples.GetRegistryInfo r true.
Proof.
  intros r pv.
  pose proof (C8_filter_skipped Samples.digest_Parse
                Samples.ValidateIdentifier Samples.handler r true pv eq_refl)
    as (Hsame & Hblob & _).
  split; [reflexivity|]. split; [reflexivity|].
  split; [by apply Hblob|].
  apply Hsame. by right.
Defined.

(** C10.  Once the registry is resolved and its type is UPSTREAM, a
    caller without remote support is answered [DENIED], whatever the
    filter says. *)
Theorem C10_upstream_without_remote_support digest_Parse ValidateIdentifier
    filter h r pv rootSpace reg :
  resolved digest_Parse ValidateIdentifier h r pv rootSpace reg →
  reg_Type reg = UPSTREAM →
  oci.GetRegistryInfo digest_Parse ValidateIdentifier filter h r false
  = (lookups pv rootSpace reg, Fail ErrCodeDenied).
Proof.
  intros Hres Htype.
  rewrite (GetRegistryInfo_resolved _ _ _ _ _ _ _ _ _ Hres), Htype.
  by destruct (_ && _).
Qed.

(** C10 at [GET /v2/root/proxy/foo/manifests/1.0] on an upstream proxy
    registry without patterns. *)
Lemma C10_upstream_without_remote_support_witness :
  let r := Samples.request "/v2/root/proxy/foo/manifests/1.0" in
  let pv := oci.mkPathVars "root" "proxy" "foo" "1.0" "" "1.0" in
  resolved Samples.digest_Parse Samples.ValidateIdentifier Samples.handler
    r pv Samples.rootSpace Samples.proxy ∧
  reg_Type Samples.proxy = UPSTREAM ∧
  Samples.GetRegistryInfo r false
  = (lookups pv Samples.rootSpace Samples.proxy, Fail ErrCodeDenied).
Proof.
  intros r pv.
  assert (Hres : resolved Samples.digest_Parse Samples.ValidateIdentifier
                   Samples.handler r pv Samples.rootSpace Samples.proxy).
  { repeat split; try reflexivity; try discriminate.
    exists Samples.rootSpace. reflexivity. }
  split; [exact Hres|]. split; [reflexivity|].
  exact (C10_upstream_without_remote_support Samples.digest_Parse
           Samples.ValidateIdentifier (oci.MatchArtifactFilter Samples.globMatch)
           Samples.handler r pv Samples.rootSpace Samples.proxy Hres eq_refl).
Defined.

(** ** Walking a manifest list *)

Section ManifestListFacts.

Variable NewDigest : string -> outcome string.
Variable Digest_String : string -> string.
Variable FindManifestByDigest : Z -> string -> string -> outcome metadata.Manifest.
Variable getManifestConfig :
  string -> string -> outcome (option metadata.manifestConfig).
Variable GetTimeInMs : Z -> string.
Variable GetSize : Z -> string.

Let walk :=
  (metadata.walkManifestList NewDigest Digest_String FindManifestByDigest
     getManifestConfig GetTimeInMs GetSize).
Let getManifestList :=
  (metadata.getManifestList NewDigest Digest_String FindManifestByDigest
     getManifestConfig GetTimeInMs GetSize).

(** Walking a list is walking its front and then, from the details
    collected there, its back. *)
Lemma walkManifestList_app before rest registry image regInfo count details :
  walk (before ++ rest)%list registry image regInfo count details
  = details' ← walk before registry image regInfo count details;
    walk rest registry image regInfo count details'.
Proof.
  unfold walk. revert details.
  induction before as [|entry before IH]; intros details; [done|].
  cbn [app metadata.walkManifestList].
  destruct (NewDigest _) as [dgst| |]; [|done..].
  cbn [mbind outcome_bind].
  destruct (FindManifestByDigest _ _ _) as [m|err|]; [| |done].
  - destruct (getManifestConfig _ _) as [cfg| |]; [|done..].
    cbn [mbind outcome_bind]. apply IH.
  - destruct (errors_Is_ResourceNotFound err); [|done].
    destruct (RegistryType_eqb _ _); [apply IH | done].
Qed.



End ManifestListFacts.

(** ** Deleting a registry *)

Create HintDb frame.

Lemma keepsBlobs_pure {A} (o : outcome A) : keepsBlobs (metadata.pure o).
Proof. by intros db. Qed.

Lemma keepsBlobs_query {A} (q : metadata.DB → outcome A) :
  keepsBlobs (metadata.query q).
Proof. by intros db. Qed.

Lemma keepsBlobs_bind {A B} (m : metadata.Tx A) (f : A → metadata.Tx B) :
  keepsBlobs m → (∀ a, keepsBlobs (f a)) → keepsBlobs (m ≫= f).
Proof.
  intros Hm Hf db. unfold mbind, metadata.Tx_bind.
  specialize (Hm db). destruct (m db) as [[a| |] db']; try done.
  destruct (Hf a db') as [H1 H2]. simpl in Hm.
  destruct Hm as [H3 H4]. split; congruence.
Qed.

Lemma keepsBlobs_wrap {A} format (m : metadata.Tx A) :
  keepsBlobs m → keepsBlobs (metadata.wrap format m).
Proof.
  intros Hm db. unfold metadata.wrap. specialize (Hm db).
  by destruct (m db) as [[a| |] db'].
Qed.

Lemma keepsBlobs_WithTx (f : metadata.Tx unit) :
  keepsBlobs f → keepsBlobs (metadata.WithTx f).
Proof.
  intros Hf db. unfold metadata.WithTx. specialize (Hf db).
  by destruct (f db) as [[[]| |] db'].
Qed.

Lemma keepsBlobs_write fails c effect :
  (∀ db, metadata.blobs (effect db) = metadata.blobs db ∧
         metadata.objects (effect db) = metadata.objects db) →
  keepsBlobs (metadata.write fails c effect).
Proof.
  intros He db. unfold metadata.write. destruct (fails c); [done|]. apply He.
Qed.

Lemma keepsBlobs_AuditLog fails resourceType name action scope :
  keepsBlobs (metadata.AuditLog fails resourceType name action scope).
Proof. intros db. unfold metadata.AuditLog. by destruct (fails _). Qed.

Lemma keepsBlobs_principalOf session : keepsBlobs (metadata.principalOf session).
Proof. destruct session; apply keepsBlobs_pure. Qed.

#[local] Hint Resolve keepsBlobs_pure keepsBlobs_query keepsBlobs_wrap
  keepsBlobs_WithTx keepsBlobs_AuditLog keepsBlobs_principalOf : frame.

(** Steps of a sequence are framed one after the other. *)
Ltac frame :=
  repeat first
    [ apply keepsBlobs_bind; [|intros ?]
    | apply keepsBlobs_WithTx
    | apply keepsBlobs_wrap
    | apply keepsBlobs_write; by intros ?
    | match goal with
      | |- keepsBlobs (if ?b then _ else _) => destruct b
      end
    | solve [auto with frame] ].

Lemma keepsBlobs_deleteRegistryWithAudit fails regInfo registry principal parentRef :
  keepsBlobs
    (metadata.deleteRegistryWithAudit fails regInfo registry principal parentRef).
Proof.
  unfold metadata.deleteRegistryWithAudit,
    metadata.DeleteDownloadStatByRegistryID,
    metadata.DeleteBandwidthStatByRegistryID, metadata.DeleteByRegistryID,
    metadata.RegistryDelete.
  frame.
Qed.

Lemma keepsBlobs_deleteUpstreamProxyWithAudit fails SpaceStore_Find
    RegistryRepository_Get FetchUpstreamProxyIDs
    FetchRegistriesIDByUpstreamProxyID FormatInt
    regInfo principal parentRef registryName :
  keepsBlobs
    (metadata.deleteUpstreamProxyWithAudit fails SpaceStore_Find
       RegistryRepository_Get FetchUpstreamProxyIDs
       FetchRegistriesIDByUpstreamProxyID FormatInt
       regInfo principal parentRef registryName).
Proof.
  unfold metadata.deleteUpstreamProxyWithAudit, metadata.UpstreamProxyDelete.
  frame.
Qed.

#[local] Hint Resolve keepsBlobs_deleteRegistryWithAudit
  keepsBlobs_deleteUpstreamProxyWithAudit : frame.

Lemma keepsBlobs_DeleteRegistry fails GetRegistryRequestBaseInfo
    SpaceStore_FindByRef SpaceStore_Find CheckRegistry
    RegistryRepository_GetByParentIDAndName RegistryRepository_Get
    FetchUpstreamProxyIDs FetchRegistriesIDByUpstreamProxyID FormatInt
    session registryRef :
  keepsBlobs
    (metadata.DeleteRegistry fails GetRegistryRequestBaseInfo
       SpaceStore_FindByRef SpaceStore_Find CheckRegistry
       RegistryRepository_GetByParentIDAndName RegistryRepository_Get
       FetchUpstreamProxyIDs FetchRegistriesIDByUpstreamProxyID FormatInt
       session registryRef).
Proof.
  intros db. unfold metadata.DeleteRegistry.
  destruct (GetRegistryRequestBaseInfo db registryRef) as [regInfo| |]; [|done..].
  destruct (SpaceStore_FindByRef db _) as [space| |]; [|done..].
  destruct (CheckRegistry session space _); [done|].
  destruct (RegistryRepository_GetByParentIDAndName db _ _) as [[repoEntity|] err];
    [|done].
  destruct (_ =? 0); [done|]. destruct err; [done|].
  match goal with
  | |- context [(if ?b then ?f else ?g) db] =>
      set (transaction := if b then f else g);
      assert (Ht : keepsBlobs transaction)
  end.
  { unfold transaction. destruct (RegistryType_eqb _ _); frame. }
  specialize (Ht db). by destruct (transaction db) as [[[]| |] db'].
Qed.

(** The rows that a registry deletion is to remove are gone from [db]. *)
Lemma filter_gone {A} (P : A → Prop) `{∀ x, Decision (P x)} (l : list A) x :
  x ∈ filter P l → P x.
Proof. intros Hx. by apply list_elem_of_filter in Hx as [? _]. Qed.

Lemma deleteRegistryWithAudit_removes fails regInfo registry principal parentRef db :
  let out :=
    metadata.deleteRegistryWithAudit fails regInfo registry principal parentRef db in
  ((∀ c, fails c = None) → out.1 = Ok tt) ∧
  (out.1 = Ok tt →
   (∀ st, st ∈ metadata.downloadStats out.2 →
          metadata.ds_RegistryID st ≠ metadata.RegistryID regInfo) ∧
   (∀ st, st ∈ metadata.bandwidthStats out.2 →
          metadata.bs_RegistryID st ≠ metadata.RegistryID regInfo) ∧
   (∀ img, img ∈ metadata.images out.2 →
           metadata.img_RegistryID img ≠ metadata.RegistryID regInfo) ∧
   (∀ reg, reg ∈ metadata.registries out.2 →
           metadata.isRegistry (metadata.parentID regInfo)
             (metadata.RegistryIdentifier regInfo) reg = false)).
Proof.
  unfold metadata.deleteRegistryWithAudit,
    metadata.DeleteDownloadStatByRegistryID,
    metadata.DeleteBandwidthStatByRegistryID, metadata.DeleteByRegistryID,
    metadata.RegistryDelete, metadata.AuditLog, metadata.write, metadata.pure.
  unfold mbind, metadata.Tx_bind. cbv zeta. split.
  - intros Hnone. by rewrite !Hnone.
  - destruct (fails (metadata.ImageStore_DeleteDownloadStatByRegistryID _));
      [done|].
    destruct (fails (metadata.ImageStore_DeleteBandwidthStatByRegistryID _));
      [done|].
    destruct (fails (metadata.ImageStore_DeleteByRegistryID _)); [done|].
    destruct (fails (metadata.RegistryRepository_Delete _ _)); [done|].
    intros _.
    destruct (fails (metadata.AuditService_Log _ _)); cbn;
      (repeat split; intros x Hx; apply filter_gone in Hx; [done..|];
       by apply negb_prop_elim, Is_true_false in Hx).
Qed.

(** A transaction hands on the outcome of its function. *)
Lemma WithTx_outcome (f : metadata.Tx unit) db :
  (metadata.WithTx f db).1 = (f db).1.
Proof. unfold metadata.WithTx. by destruct (f db) as [[[]| |] db']. Qed.

Section DeleteTransactions.

Variable fails : metadata.StoreWrite -> option error.
Variable SpaceStore_Find : metadata.DB -> Z -> outcome Space.
Variable RegistryRepository_Get : metadata.DB -> Z -> outcome Registry.
Variable FetchUpstreamProxyIDs :
  metadata.DB -> list string -> Z -> outcome (list Z).
Variable FetchRegistriesIDByUpstreamProxyID :
  metadata.DB -> string -> Z -> outcome (list Z).
Variable FormatInt : Z -> string.

(** The transaction of a virtual registry: it commits what
    [deleteRegistryWithAudit] did, or fails with its error, wrapped. *)
Lemma registryTransaction_cases regInfo repoEntity session db :
  match
    metadata.WithTx (
      principal ← metadata.principalOf session;
      metadata.wrap "failed to delete registry: %w"
        (metadata.deleteRegistryWithAudit fails regInfo repoEntity principal
           (metadata.ParentRef regInfo))) db
  with
  | (Ok _, db') =>
      ∃ s, session = Some s ∧
           metadata.deleteRegistryWithAudit fails regInfo repoEntity
             (metadata.session_Principal s) (metadata.ParentRef regInfo) db
           = (Ok tt, db')
  | (Fail err, db') =>
      ∃ s cause,
        session = Some s ∧
        (metadata.deleteRegistryWithAudit fails regInfo repoEntity
           (metadata.session_Principal s) (metadata.ParentRef regInfo) db).1
        = Fail cause ∧
        err = ErrorfW "failed to delete registry: %w" cause
  | (Panic _, _) => True
  end.
Proof.
  unfold metadata.WithTx, mbind, metadata.Tx_bind, metadata.wrap.
  destruct session as [s|]; [|done].
  unfold metadata.principalOf, metadata.pure. cbv beta iota.
  destruct (metadata.deleteRegistryWithAudit _ _ _ _ _ db)
    as [[[]|cause|p] db'] eqn:Hrun;
    [by exists s | exists s, cause; by rewrite Hrun | done].
Qed.

(** The transaction of any other registry: the upstream proxy is deleted
    first, and the registry from the database that this leaves. *)
Lemma proxyTransaction_cases regInfo repoEntity session db :
  match
    metadata.WithTx (
      principal ← metadata.principalOf session;
      _ ← metadata.wrap "failed to delete upstream proxy: %w"
            (metadata.deleteUpstreamProxyWithAudit fails SpaceStore_Find
               RegistryRepository_Get FetchUpstreamProxyIDs
               FetchRegistriesIDByUpstreamProxyID FormatInt regInfo principal
               (metadata.ParentRef regInfo) (reg_Name repoEntity));
      principal ← metadata.principalOf session;
      metadata.wrap "failed to delete registry: %w"
        (metadata.deleteRegistryWithAudit fails regInfo repoEntity principal
           (metadata.ParentRef regInfo))) db
  with
  | (Ok _, db') =>
      ∃ s db0,
        session = Some s ∧
        metadata.deleteUpstreamProxyWithAudit fails SpaceStore_Find
          RegistryRepository_Get FetchUpstreamProxyIDs
          FetchRegistriesIDByUpstreamProxyID FormatInt regInfo
          (metadata.session_Principal s) (metadata.ParentRef regInfo)
          (reg_Name repoEntity) db = (Ok tt, db0) ∧
        metadata.deleteRegistryWithAudit fails regInfo repoEntity
          (metadata.session_Principal s) (metadata.ParentRef regInfo) db0
        = (Ok tt, db')
  | (Fail err, db') =>
      ∃ s cause,
        session = Some s ∧
        ((metadata.deleteUpstreamProxyWithAudit fails SpaceStore_Find
            RegistryRepository_Get FetchUpstreamProxyIDs
            FetchRegistriesIDByUpstreamProxyID FormatInt regInfo
            (metadata.session_Principal s) (metadata.ParentRef regInfo)
            (reg_Name repoEntity) db).1 = Fail cause ∧
         err = ErrorfW "failed to delete upstream proxy: %w" cause ∨
         ∃ db0,
           metadata.deleteUpstreamProxyWithAudit fails SpaceStore_Find
             RegistryRepository_Get FetchUpstreamProxyIDs
             FetchRegistriesIDByUpstreamProxyID FormatInt regInfo
             (metadata.session_Principal s) (metadata.ParentRef regInfo)
             (reg_Name repoEntity) db = (Ok tt, db0) ∧
           (metadata.deleteRegistryWithAudit fails regInfo repoEntity
              (metadata.session_Principal s) (metadata.ParentRef regInfo)
              db0).1 = Fail cause ∧
           err = ErrorfW "failed to delete registry: %w" cause)
  | (Panic _, _) => True
  end.
Proof.
  unfold metadata.WithTx, mbind, metadata.Tx_bind, metadata.wrap.
  destruct session as [s|]; [|done].
  unfold metadata.principalOf, metadata.pure. cbv beta iota.
  destruct (metadata.deleteUpstreamProxyWithAudit _ _ _ _ _ _ _ _ _ _ db)
    as [[[]|cause|p] db0] eqn:Hproxy;
    [|exists s, cause; split; [done|]; left; by rewrite Hproxy|done].
  cbv beta iota.
  destruct (metadata.deleteRegistryWithAudit _ _ _ _ _ db0)
    as [[[]|cause|p] db'] eqn:Hrun;
    [ by exists s, db0
    | exists s, cause; split; [done|]; right; exists db0; by rewrite Hrun
    | done ].
Qed.

End DeleteTransactions.

(** The deletion through the endpoint: an answer of 200 is given only
    when the registry-scoped rows are gone, and is given when no write
    fails, the registry is found and the caller is allowed. *)
Lemma DeleteRegistry_removes fails GetRegistryRequestBaseInfo
    SpaceStore_FindByRef SpaceStore_Find CheckRegistry
    RegistryRepository_GetByParentIDAndName RegistryRepository_Get
    FetchUpstreamProxyIDs FetchRegistriesIDByUpstreamProxyID FormatInt :
  (∀ session registryRef db goErr,
     let out :=
       metadata.DeleteRegistry fails GetRegistryRequestBaseInfo
         SpaceStore_FindByRef SpaceStore_Find CheckRegistry
         RegistryRepository_GetByParentIDAndName RegistryRepository_Get
         FetchUpstreamProxyIDs FetchRegistriesIDByUpstreamProxyID FormatInt
         session registryRef db in
     out.1 = Ok (metadata.DeleteRegistry200JSONResponse, goErr) →
     ∃ regInfo,
       GetRegistryRequestBaseInfo db registryRef = Ok regInfo ∧
       (∀ st, st ∈ metadata.downloadStats out.2 →
              metadata.ds_RegistryID st ≠ metadata.RegistryID regInfo) ∧
       (∀ st, st ∈ metadata.bandwidthStats out.2 →
              metadata.bs_RegistryID st ≠ metadata.RegistryID regInfo) ∧
       (∀ img, img ∈ metadata.images out.2 →
               metadata.img_RegistryID img ≠ metadata.RegistryID regInfo) ∧
       (∀ reg, reg ∈ metadata.registries out.2 →
               metadata.isRegistry (metadata.parentID regInfo)
                 (metadata.RegistryIdentifier regInfo) reg = false) ∧
       metadata.blobs out.2 = metadata.blobs db ∧
       metadata.objects out.2 = metadata.objects db) ∧
  (∀ s registryRef db regInfo space repoEntity,
     (∀ c, fails c = None) →
     GetRegistryRequestBaseInfo db registryRef = Ok regInfo →
     SpaceStore_FindByRef db (metadata.ParentRef regInfo) = Ok space →
     CheckRegistry (Some s) space (metadata.RegistryIdentifier regInfo) = None →
     RegistryRepository_GetByParentIDAndName db (metadata.parentID regInfo)
       (metadata.RegistryIdentifier regInfo) = (Some repoEntity, None) →
     reg_Name repoEntity ≠ "" →
     reg_Type repoEntity = VIRTUAL ∨
     FetchUpstreamProxyIDs db [metadata.RegistryIdentifier regInfo]
       (metadata.parentID regInfo) = Ok [] ∨
     (∃ proxyID proxyIDs,
        FetchUpstreamProxyIDs db [metadata.RegistryIdentifier regInfo]
          (metadata.parentID regInfo) = Ok (proxyID :: proxyIDs) ∧
        FetchRegistriesIDByUpstreamProxyID db (FormatInt proxyID)
          (metadata.parentID regInfo) = Ok []) →
     (metadata.DeleteRegistry fails GetRegistryRequestBaseInfo
        SpaceStore_FindByRef SpaceStore_Find CheckRegistry
        RegistryRepository_GetByParentIDAndName RegistryRepository_Get
        FetchUpstreamProxyIDs FetchRegistriesIDByUpstreamProxyID FormatInt
        (Some s) registryRef db).1
     = Ok (metadata.DeleteRegistry200JSONResponse, None)).
Proof.
  split.
  - intros session registryRef db goErr out Hout.
    destruct (keepsBlobs_DeleteRegistry fails GetRegistryRequestBaseInfo
                SpaceStore_FindByRef SpaceStore_Find CheckRegistry
                RegistryRepository_GetByParentIDAndName RegistryRepository_Get
                FetchUpstreamProxyIDs FetchRegistriesIDByUpstreamProxyID
                FormatInt session registryRef db) as [Hblobs Hobjects].
    fold out in Hblobs, Hobjects.
    revert Hout Hblobs Hobjects. subst out. unfold metadata.DeleteRegistry.
    destruct (GetRegistryRequestBaseInfo db registryRef) as [regInfo| |];
      [|done..].
    destruct (SpaceStore_FindByRef db _) as [space| |]; [|done..].
    destruct (CheckRegistry session space _); [done|].
    destruct (RegistryRepository_GetByParentIDAndName db _ _)
      as [[repoEntity|] err]; [|done].
    destruct (_ =? 0); [done|]. destruct err; [done|].
    assert (Hremoved : ∀ principal db0 db',
      metadata.deleteRegistryWithAudit fails regInfo repoEntity principal
        (metadata.ParentRef regInfo) db0 = (Ok tt, db') →
      (∀ st, st ∈ metadata.downloadStats db' →
             metadata.ds_RegistryID st ≠ metadata.RegistryID regInfo) ∧
      (∀ st, st ∈ metadata.bandwidthStats db' →
             metadata.bs_RegistryID st ≠ metadata.RegistryID regInfo) ∧
      (∀ img, img ∈ metadata.images db' →
              metadata.img_RegistryID img ≠ metadata.RegistryID regInfo) ∧
      (∀ reg, reg ∈ metadata.registries db' →
              metadata.isRegistry (metadata.parentID regInfo)
                (metadata.RegistryIdentifier regInfo) reg = false)).
    { intros principal db0 db' Hrun.
      pose proof (deleteRegistryWithAudit_removes fails regInfo repoEntity
                    principal (metadata.ParentRef regInfo) db0) as Hrem.
      cbv zeta in Hrem. rewrite Hrun in Hrem. by apply Hrem. }
    destruct (RegistryType_eqb (reg_Type repoEntity) VIRTUAL).
    + pose proof (registryTransaction_cases fails regInfo repoEntity session
                    db) as Hcases.
      destruct (metadata.WithTx _ db) as [[[]|err|p] db']; [|done..].
      destruct Hcases as (s & _ & Hrun).
      intros _ Hblobs Hobjects. exists regInfo. split; [done|].
      destruct (Hremoved _ _ _ Hrun) as (H1 & H2 & H3 & H4).
      by repeat split.
    + pose proof (proxyTransaction_cases fails SpaceStore_Find
                    RegistryRepository_Get FetchUpstreamProxyIDs
                    FetchRegistriesIDByUpstreamProxyID FormatInt regInfo
                    repoEntity session db) as Hcases.
      destruct (metadata.WithTx _ db) as [[[]|err|p] db']; [|done..].
      destruct Hcases as (s & db0 & _ & _ & Hrun).
      intros _ Hblobs Hobjects. exists regInfo. split; [done|].
      destruct (Hremoved _ _ _ Hrun) as (H1 & H2 & H3 & H4).
      by repeat split.
  - intros s registryRef db regInfo space repoEntity Hnone Hbase Hspace Hcheck
      Hentity Hname Hfree.
    unfold metadata.DeleteRegistry.
    rewrite Hbase, Hspace, Hcheck, Hentity.
    destruct (Z.eqb_spec (Z.of_nat (String.length (reg_Name repoEntity))) 0)
      as [Hzero|_].
    { destruct (reg_Name repoEntity); [done | cbn in Hzero; lia]. }
    assert (Hregistry : ∀ principal db0,
      (metadata.deleteRegistryWithAudit fails regInfo repoEntity principal
         (metadata.ParentRef regInfo) db0).1 = Ok tt).
    { intros principal db0.
      by apply (deleteRegistryWithAudit_removes fails regInfo repoEntity
                  principal (metadata.ParentRef regInfo) db0). }
    assert (Hvirtual :
      (metadata.WithTx (
         principal ← metadata.principalOf (Some s);
         metadata.wrap "failed to delete registry: %w"
           (metadata.deleteRegistryWithAudit fails regInfo repoEntity principal
              (metadata.ParentRef regInfo))) db).1 = Ok tt).
    { rewrite WithTx_outcome.
      unfold mbind, metadata.Tx_bind, metadata.wrap.
      cbn [metadata.principalOf metadata.pure].
      specialize (Hregistry (metadata.session_Principal s) db).
      by destruct (metadata.deleteRegistryWithAudit _ _ _ _ _ db)
        as [[[]| |] db']. }
    destruct (RegistryType_eqb (reg_Type repoEntity) VIRTUAL) eqn:Htype.
    { by destruct (metadata.WithTx _ db) as [[[]| |] db']. }
    destruct Hfree as [Hvirtual' | Hfree]; [by rewrite Hvirtual' in Htype|].
    clear Hvirtual.
    assert (Hproxy :
      (metadata.deleteUpstreamProxyWithAudit fails SpaceStore_Find
         RegistryRepository_Get FetchUpstreamProxyIDs
         FetchRegistriesIDByUpstreamProxyID FormatInt regInfo
         (metadata.session_Principal s) (metadata.ParentRef regInfo)
         (reg_Name repoEntity) db).1 = Ok tt).
    { unfold metadata.deleteUpstreamProxyWithAudit, mbind, metadata.Tx_bind,
        metadata.wrap, metadata.query, metadata.pure,
        metadata.UpstreamProxyDelete, metadata.AuditLog, metadata.write.
      cbv beta. rewrite !Hnone.
      destruct Hfree as [-> | (proxyID & proxyIDs & -> & Hfree)]; [done|].
      cbv beta iota.
      replace (0 <? len (proxyID :: proxyIDs)) with true
        by (symmetry; apply Z.ltb_lt; unfold len; cbn [length]; lia).
      replace (index (proxyID :: proxyIDs) 0) with (Ok proxyID)
        by (unfold index; change (0 <=? 0) with true; cbn [andb];
            by replace (0 <? len (proxyID :: proxyIDs)) with true
              by (symmetry; apply Z.ltb_lt; unfold len; cbn [length]; lia)).
      cbv beta iota. by rewrite Hfree. }
    assert (Htransaction :
      (metadata.WithTx (
         principal ← metadata.principalOf (Some s);
         _ ← metadata.wrap "failed to delete upstream proxy: %w"
               (metadata.deleteUpstreamProxyWithAudit fails SpaceStore_Find
                  RegistryRepository_Get FetchUpstreamProxyIDs
                  FetchRegistriesIDByUpstreamProxyID FormatInt regInfo
                  principal (metadata.ParentRef regInfo)
                  (reg_Name repoEntity));
         principal ← metadata.principalOf (Some s);
         metadata.wrap "failed to delete registry: %w"
           (metadata.deleteRegistryWithAudit fails regInfo repoEntity principal
              (metadata.ParentRef regInfo))) db).1 = Ok tt).
    { rewrite WithTx_outcome.
      unfold mbind, metadata.Tx_bind, metadata.wrap, metadata.principalOf,
        metadata.pure.
      cbv beta iota.
      destruct (metadata.deleteUpstreamProxyWithAudit _ _ _ _ _ _ _ _ _ _ db)
        as [o db0].
      cbn [fst] in Hproxy. subst o. cbv beta iota.
      specialize (Hregistry (metadata.session_Principal s) db0).
      by destruct (metadata.deleteRegistryWithAudit _ _ _ _ _ db0)
        as [[[]| |] db']. }
    clear Hproxy.
    by destruct (metadata.WithTx _ db) as [[[]| |] db'].
Qed.

(** C6.  Deleting a registry — through [DeleteRegistry], for a local or an
    upstream registry, or through [deleteRegistryWithAudit] alone — leaves
    every blob record and every content-addressed object as it was,
    whether the deletion succeeds, fails or is rolled back.  When no write
    fails [deleteRegistryWithAudit] succeeds, and when it succeeds no
    download statistic, bandwidth statistic or image of the registry and no
    registry row of that name under that parent remains.  The same holds
    of the endpoint: whenever [DeleteRegistry] answers 200, the database
    it leaves holds no download statistic, bandwidth statistic or image of
    the registry of the request and no registry row of its name under its
    parent, with the blob records and the objects as before; and it does
    answer 200 when no write fails, the caller has a session and the
    permission, the registry is found with a name and is virtual or has
    no upstream proxy in use. *)
Theorem C6_registry_deletion_keeps_blobs fails GetRegistryRequestBaseInfo
    SpaceStore_FindByRef SpaceStore_Find CheckRegistry
    RegistryRepository_GetByParentIDAndName RegistryRepository_Get
    FetchUpstreamProxyIDs FetchRegistriesIDByUpstreamProxyID FormatInt :
  (∀ session registryRef,
     keepsBlobs
       (metadata.DeleteRegistry fails GetRegistryRequestBaseInfo
          SpaceStore_FindByRef SpaceStore_Find CheckRegistry
          RegistryRepository_GetByParentIDAndName RegistryRepository_Get
          FetchUpstreamProxyIDs FetchRegistriesIDByUpstreamProxyID FormatInt
          session registryRef)) ∧
  (∀ regInfo registry principal parentRef,
     keepsBlobs
       (metadata.deleteRegistryWithAudit fails regInfo registry principal
          parentRef) ∧
     ∀ db,
       let out :=
         metadata.deleteRegistryWithAudit fails regInfo registry principal
           parentRef db in
       ((∀ c, fails c = None) → out.1 = Ok tt) ∧
       (out.1 = Ok tt →
        (∀ st, st ∈ metadata.downloadStats out.2 →
               metadata.ds_RegistryID st ≠ metadata.RegistryID regInfo) ∧
        (∀ st, st ∈ metadata.bandwidthStats out.2 →
               metadata.bs_RegistryID st ≠ metadata.RegistryID regInfo) ∧
        (∀ img, img ∈ metadata.images out.2 →
                metadata.img_RegistryID img ≠ metadata.RegistryID regInfo) ∧
        (∀ reg, reg ∈ metadata.registries out.2 →
                metadata.isRegistry (metadata.parentID regInfo)
                  (metadata.RegistryIdentifier regInfo) reg = false))) ∧
  (∀ session registryRef db goErr,
     let out :=
       metadata.DeleteRegistry fails GetRegistryRequestBaseInfo
         SpaceStore_FindByRef SpaceStore_Find CheckRegistry
         RegistryRepository_GetByParentIDAndName RegistryRepository_Get
         FetchUpstreamProxyIDs FetchRegistriesIDByUpstreamProxyID FormatInt
         session registryRef db in
     out.1 = Ok (metadata.DeleteRegistry200JSONResponse, goErr) →
     ∃ regInfo,
       GetRegistryRequestBaseInfo db registryRef = Ok regInfo ∧
       (∀ st, st ∈ metadata.downloadStats out.2 →
              metadata.ds_RegistryID st ≠ metadata.RegistryID regInfo) ∧
       (∀ st, st ∈ metadata.bandwidthStats out.2 →
              metadata.bs_RegistryID st ≠ metadata.RegistryID regInfo) ∧
       (∀ img, img ∈ metadata.images out.2 →
               metadata.img_RegistryID img ≠ metadata.RegistryID regInfo) ∧
       (∀ reg, reg ∈ metadata.registries out.2 →
               metadata.isRegistry (metadata.parentID regInfo)
                 (metadata.RegistryIdentifier regInfo) reg = false) ∧
       metadata.blobs out.2 = metadata.blobs db ∧
       metadata.objects out.2 = metadata.objects db) ∧
  (∀ s registryRef db regInfo space repoEntity,
     (∀ c, fails c = None) →
     GetRegistryRequestBaseInfo db registryRef = Ok regInfo →
     SpaceStore_FindByRef db (metadata.ParentRef regInfo) = Ok space →
     CheckRegistry (Some s) space (metadata.RegistryIdentifier regInfo) = None →
     RegistryRepository_GetByParentIDAndName db (metadata.parentID regInfo)
       (metadata.RegistryIdentifier regInfo) = (Some repoEntity, None) →
     reg_Name repoEntity ≠ "" →
     reg_Type repoEntity = VIRTUAL ∨
     FetchUpstreamProxyIDs db [metadata.RegistryIdentifier regInfo]
       (metadata.parentID regInfo) = Ok [] ∨
     (∃ proxyID proxyIDs,
        FetchUpstreamProxyIDs db [metadata.RegistryIdentifier regInfo]
          (metadata.parentID regInfo) = Ok (proxyID :: proxyIDs) ∧
        FetchRegistriesIDByUpstreamProxyID db (FormatInt proxyID)
          (metadata.parentID regInfo) = Ok []) →
     (metadata.DeleteRegistry fails GetRegistryRequestBaseInfo
        SpaceStore_FindByRef SpaceStore_Find CheckRegistry
        RegistryRepository_GetByParentIDAndName RegistryRepository_Get
        FetchUpstreamProxyIDs FetchRegistriesIDByUpstreamProxyID FormatInt
        (Some s) registryRef db).1
     = Ok (metadata.DeleteRegistry200JSONResponse, None)).
Proof.
  split; [|split].
  - intros session registryRef. apply keepsBlobs_DeleteRegistry.
  - intros regInfo registry principal parentRef. split.
    + apply keepsBlobs_deleteRegistryWithAudit.
    + intros db. apply deleteRegistryWithAudit_removes.
  - apply DeleteRegistry_removes.
Qed.

(** C6 on the sample database: the endpoint answers 200 to the deletion of
    the registry [reg]; the rows of [reg] are gone, those of the registry
    [proxy] are kept, and the blob table and the object store are as
    before. *)
Lemma C6_registry_deletion_keeps_blobs_witness :
  let out :=
    Samples.DeleteRegistry Samples.noFailure (Some Samples.session) "root/reg"
      Samples.db in
  out.1 = Ok (metadata.DeleteRegistry200JSONResponse, None) ∧
  metadata.downloadStats out.2 = [metadata.mkDownloadStat 2 11] ∧
  metadata.bandwidthStats out.2 = [] ∧
  metadata.images out.2 = [metadata.mkImage 101 11 "alpine"] ∧
  metadata.registries out.2 = [Samples.proxy] ∧
  (∀ img, img ∈ metadata.images out.2 → metadata.img_RegistryID img ≠ 10) ∧
  (∀ reg, reg ∈ metadata.registries out.2 →
          metadata.isRegistry 1 "reg" reg = false) ∧
  metadata.blobs out.2 = metadata.blobs Samples.db ∧
  metadata.objects out.2 = metadata.objects Samples.db.
Proof.
  intros out.
  assert (H200 : out.1 = Ok (metadata.DeleteRegistry200JSONResponse, None)).
  { subst out. unfold Samples.DeleteRegistry.
    apply (proj2 (proj2 (proj2
             (C6_registry_deletion_keeps_blobs Samples.noFailure
                _ _ _ _ _ _ _ _ _)))
             Samples.session "root/reg" Samples.db Samples.regInfo
             Samples.rootSpace Samples.reg);
      [done | reflexivity | reflexivity | reflexivity | reflexivity
      | discriminate | by left]. }
  split; [exact H200|].
  do 4 (split; [reflexivity|]).
  subst out. unfold Samples.DeleteRegistry in *.
  destruct (proj1 (proj2 (proj2
              (C6_registry_deletion_keeps_blobs Samples.noFailure
                 _ _ _ _ _ _ _ _ _)))
              (Some Samples.session) "root/reg" Samples.db None H200)
    as (regInfo & Hbase & _ & _ & Himages & Hregistries & Hblobs & Hobjects).
  cbn in Hbase. injection Hbase as <-.
  by repeat split.
Defined.


(** ** Client setup details *)

(** A text without [<] passes through a replacement of a token that
    starts with [<]. *)
Lemma replaceFrom_clean token new x rest :
  noLt x = true →
  strings.replaceFrom (String "<" token) new 0 (x +:+ rest)
  = x +:+ strings.replaceFrom (String "<" token) new 0 rest.
Proof.
  induction x as [|c x IH]; [done|].
  cbn [noLt]. intros [Hc Hx]%andb_true_iff.
  change (String c x +:+ rest) with (String c (x +:+ rest)).
  cbn [strings.replaceFrom String.prefix].
  destruct (ascii_dec "<" c) as [<-|_]; [done|].
  by rewrite IH.
Qed.

Lemma append_cons c s rest : String c s +:+ rest = String c (s +:+ rest).
Proof. reflexivity. Qed.

Lemma append_empty_l s : "" +:+ s = s.
Proof. reflexivity. Qed.

Lemma append_empty_r s : s +:+ "" = s.
Proof. induction s as [|c s IH]; [done|]. by rewrite append_cons, IH. Qed.

Section ClientSetupFacts.

Variable DisectRoot : string -> string * string.
Variable DisectLeaf : string -> string * string.
Variable RegistryURL : string -> string.
Variable TrimURLScheme : string -> string.
Variable GetHost : string -> string.

(** The generated commands are the instructions of the package type, first
    written with the tokens and then substituted. *)
Lemma GenerateClientSetupDetails_substituted session packageType image tag
    registryRef :
  let username := metadata.principal_Email (metadata.session_Principal session) in
  let hostname := TrimURLScheme (RegistryURL (DisectRoot registryRef).1) in
  let repoName := (DisectLeaf registryRef).2 in
  let values :=
    placeholderValues username hostname (GetHost hostname) repoName image tag in
  match
    metadata.GenerateClientSetupDetails DisectRoot DisectLeaf RegistryURL
      TrimURLScheme GetHost (Some session) packageType image tag registryRef
  with
  | Ok generated =>
      metadata.response_Status generated.1 = metadata.StatusSUCCESS ∧
      metadata.MainHeader (metadata.Data generated.1)
      = (if String.eqb packageType "HELM" then "Helm Client Setup"
         else "Docker Client Setup") ∧
      metadata.emittedCommands generated
      = substituteCommand values <$>
          instructions packageType "<USERNAME>" "<HOSTNAME>" "<LOGIN_HOSTNAME>"
            "<REGISTRY_NAME>" "<IMAGE_NAME>" "<TAG>"
  | _ => False
  end.
Proof.
  intros username hostname repoName values.
  subst values username hostname repoName.
  destruct session as [[id email]].
  unfold instructions, metadata.GenerateClientSetupDetails,
    metadata.replacePlaceholders.
  cbn [metadata.deref mbind outcome_bind metadata.principal_Email
       metadata.session_Principal].
  cbv zeta.
  generalize (TrimURLScheme (RegistryURL (DisectRoot registryRef).1)).
  intros hostname.
  generalize ((DisectLeaf registryRef).2). intros repoName.
  destruct (String.eqb packageType "HELM");
    destruct email as [|e0 email], hostname as [|h0 hostname],
      repoName as [|r0 repoName], image as [image|], tag as [tag|];
    vm_compute; repeat split; reflexivity.
Qed.

End ClientSetupFacts.

(** Symbolic evaluation of the replacements in a template whose values
    contain no [<]. *)
Ltac replace_all :=
  unfold strings.ReplaceAll;
  repeat first
    [ progress simpl
    | rewrite replaceFrom_clean by assumption
    | rewrite append_empty_r ].

(** Substituting clean values in the instructions written with the tokens
    gives the instructions written with the values, and with the token
    wherever a value is missing. *)
Lemma substitute_instructions packageType username hostname loginHostname
    repoName image tag :
  noLt username = true → noLt hostname = true → noLt loginHostname = true →
  noLt repoName = true → noLt (default "" image) = true →
  substituteCommand
    (placeholderValues username hostname loginHostname repoName image tag) <$>
    instructions packageType "<USERNAME>" "<HOSTNAME>" "<LOGIN_HOSTNAME>"
      "<REGISTRY_NAME>" "<IMAGE_NAME>" "<TAG>"
  = instructions packageType
      (fill "<USERNAME>" (present username))
      (fill "<HOSTNAME>" (present hostname))
      (fill "<LOGIN_HOSTNAME>"
         (if String.eqb hostname "" then None else Some loginHostname))
      (fill "<REGISTRY_NAME>" (present repoName))
      (fill "<IMAGE_NAME>" image)
      (fill "<TAG>" tag).
Proof.
  intros Hu Hh Hl Hr Hi.
  unfold instructions, helmInstructions, dockerInstructions, substituteCommand,
    substitute, placeholderValues, present, fill.
  destruct (String.eqb packageType "HELM");
    destruct (String.eqb_spec username "") as [->|_],
             (String.eqb_spec hostname "") as [->|_],
             (String.eqb_spec repoName "") as [->|_],
             image as [image|], tag as [tag|];
    cbn [fmap list_fmap option_fmap option_map take foldl fst snd default
         from_option id metadata.Label metadata.Value] in *;
    repeat (f_equal; try reflexivity);
    replace_all; reflexivity.
Qed.

(** C7.  For a caller with a session the generation returns, with status
    SUCCESS, the Helm instructions (login, push, pull) when the package
    type is HELM and the Docker instructions otherwise.  The emitted
    commands are the instructions in which every placeholder token whose
    value is present — a non-empty user name, host name or registry name,
    a non-nil image or tag — is replaced by that value.  When no value to
    the left of the tag contains [<], they are the instructions written
    with the values themselves, and with the token where no value is
    present. *)
Theorem C7_client_setup_details DisectRoot DisectLeaf RegistryURL
    TrimURLScheme GetHost session packageType image tag registryRef :
  let username := metadata.principal_Email (metadata.session_Principal session) in
  let hostname := TrimURLScheme (RegistryURL (DisectRoot registryRef).1) in
  let repoName := (DisectLeaf registryRef).2 in
  let values :=
    placeholderValues username hostname (GetHost hostname) repoName image tag in
  ∃ response heap,
    metadata.GenerateClientSetupDetails DisectRoot DisectLeaf RegistryURL
      TrimURLScheme GetHost (Some session) packageType image tag registryRef
    = Ok (response, heap) ∧
    metadata.response_Status response = metadata.StatusSUCCESS ∧
    metadata.MainHeader (metadata.Data response)
    = (if String.eqb packageType "HELM" then "Helm Client Setup"
       else "Docker Client Setup") ∧
    metadata.emittedCommands (response, heap)
    = substituteCommand values <$>
        instructions packageType "<USERNAME>" "<HOSTNAME>" "<LOGIN_HOSTNAME>"
          "<REGISTRY_NAME>" "<IMAGE_NAME>" "<TAG>" ∧
    (noLt username = true → noLt hostname = true →
     noLt (GetHost hostname) = true → noLt repoName = true →
     noLt (default "" image) = true →
     metadata.emittedCommands (response, heap)
     = instructions packageType
         (fill "<USERNAME>" (present username))
         (fill "<HOSTNAME>" (present hostname))
         (fill "<LOGIN_HOSTNAME>"
            (if String.eqb hostname "" then None else Some (GetHost hostname)))
         (fill "<REGISTRY_NAME>" (present repoName))
         (fill "<IMAGE_NAME>" image)
         (fill "<TAG>" tag)).
Proof.
  intros username hostname repoName values.
  pose proof (GenerateClientSetupDetails_substituted DisectRoot DisectLeaf
                RegistryURL TrimURLScheme GetHost session packageType image tag
                registryRef) as Hgen.
  cbv zeta in Hgen. fold username hostname repoName values in Hgen.
  destruct (metadata.GenerateClientSetupDetails _ _ _ _ _ _ _ _ _ _)
    as [[response heap]| |]; [|done..].
  destruct Hgen as (Hstatus & Hheader & Hcommands).
  exists response, heap.
  repeat (split; [done|]).
  intros Hu Hh Hl Hr Hi. rewrite Hcommands.
  by apply substitute_instructions.
Qed.

(** C7 for a Helm registry [root/team/reg], chart [chart], version
    [1.2.3] and the user [dev@example.io]. *)
Lemma C7_client_setup_details_witness :
  ∃ response heap,
    Samples.GenerateClientSetupDetails (Some Samples.session) "HELM"
      (Some "chart") (Some "1.2.3") "root/team/reg" = Ok (response, heap) ∧
    metadata.emittedCommands (response, heap)
    = helmInstructions "dev@example.io" "pkg.example.io/root"
        "pkg.example.io" "reg" "chart" "1.2.3".
Proof.
  destruct (C7_client_setup_details Samples.DisectRoot Samples.DisectLeaf
              Samples.RegistryURL Samples.TrimURLScheme Samples.GetHost
              Samples.session "HELM" (Some "chart") (Some "1.2.3")
              "root/team/reg")
    as (response & heap & Hgen & _ & _ & _ & Hclean).
  exists response, heap. split; [exact Hgen|].
  rewrite Hclean by reflexivity. reflexivity.
Defined.

(* ===================================================================== *)
(** * Further properties of the code                                      *)
(* ===================================================================== *)
(** ** Splitting and joining on slashes *)

Lemma TrimLeft_slash s : strings.TrimLeft ("/" +:+ s) "/" = strings.TrimLeft s "/".
Proof. reflexivity. Qed.

Lemma TrimRight_slash s :
  strings.TrimRight (s +:+ "/") "/" = strings.TrimRight s "/".
Proof.
  induction s as [|c s IH]; [done|].
  rewrite append_cons. cbn [strings.TrimRight]. by rewrite IH.
Qed.

Lemma TrimLeft_app_slash s :
  strings.TrimLeft (s +:+ "/") "/"
  = match strings.TrimLeft s "/" with
    | EmptyString => EmptyString
    | kept => kept +:+ "/"
    end.
Proof.
  induction s as [|c s IH]; [done|].
  rewrite append_cons. cbn [strings.TrimLeft].
  destruct (strings.inCutset c "/"); [exact IH | done].
Qed.

Lemma Trim_slash_l s : strings.Trim ("/" +:+ s) "/" = strings.Trim s "/".
Proof. reflexivity. Qed.

Lemma Trim_slash_r s : strings.Trim (s +:+ "/") "/" = strings.Trim s "/".
Proof.
  unfold strings.Trim. rewrite TrimLeft_app_slash.
  destruct (strings.TrimLeft s "/") as [|c kept] eqn:Hk; [done|].
  apply TrimRight_slash.
Qed.

Lemma noSlash_head c s : noSlash (String c s) = true → strings.inCutset c "/" = false.
Proof.
  cbn [noSlash strings.inCutset]. intros [Hc _]%andb_true_iff.
  apply negb_true_iff in Hc. by rewrite Hc.
Qed.

(** A segment is not touched by trimming. *)
Lemma TrimRight_keep_cons c s :
  strings.TrimRight s "/" = s → s ≠ "" →
  strings.TrimRight (String c s) "/" = String c s.
Proof.
  intros Hs Hne. cbn [strings.TrimRight]. rewrite Hs.
  by destruct s.
Qed.

Lemma TrimRight_segment s :
  isSegment s = true → strings.TrimRight s "/" = s.
Proof.
  unfold isSegment. intros [Hne Hs]%andb_true_iff.
  induction s as [|c s IH]; [done|].
  destruct s as [|d s].
  - cbn [strings.TrimRight]. by rewrite (noSlash_head _ _ Hs).
  - apply TrimRight_keep_cons; [|done].
    apply IH; [done|]. cbn [noSlash] in Hs.
    by apply andb_true_iff in Hs as [_ Hs].
Qed.

Lemma TrimRight_keep_app a s :
  strings.TrimRight s "/" = s → s ≠ "" →
  strings.TrimRight (a +:+ s) "/" = a +:+ s.
Proof.
  intros Hs Hne. induction a as [|c a IH]; [done|].
  rewrite append_cons. apply TrimRight_keep_cons; [done|].
  destruct a as [|d a]; [exact Hne | by rewrite append_cons].
Qed.

Lemma Join_cons e e' rest sep :
  strings.Join (e :: e' :: rest) sep = e +:+ sep +:+ strings.Join (e' :: rest) sep.
Proof. reflexivity. Qed.

(** Splitting at the first slash after a slash-free piece. *)
Lemma Split_piece a rest :
  noSlash a = true →
  strings.Split (a +:+ "/" +:+ rest) "/" = a :: strings.Split rest "/".
Proof.
  unfold strings.Split. intros Ha.
  induction a as [|c a IH]; [by destruct rest|].
  rewrite append_cons. cbn [strings.splitFrom String.prefix].
  pose proof (noSlash_head _ _ Ha) as Hc. cbn [strings.inCutset] in Hc.
  apply orb_false_iff in Hc as [Hc _].
  destruct (ascii_dec "/" c) as [<-|_]; [done|].
  cbn [noSlash] in Ha. apply andb_true_iff in Ha as [_ Ha].
  by rewrite (IH Ha).
Qed.

Lemma Split_last a : noSlash a = true → strings.Split a "/" = [a].
Proof.
  unfold strings.Split. intros Ha.
  induction a as [|c a IH]; [done|].
  cbn [strings.splitFrom String.prefix].
  pose proof (noSlash_head _ _ Ha) as Hc. cbn [strings.inCutset] in Hc.
  apply orb_false_iff in Hc as [Hc _].
  destruct (ascii_dec "/" c) as [<-|_]; [done|].
  cbn [noSlash] in Ha. apply andb_true_iff in Ha as [_ Ha].
  by rewrite (IH Ha).
Qed.

(** Joining slash-free pieces and splitting again gives the pieces. *)
Lemma Split_Join segments :
  segments ≠ [] → forallb noSlash segments = true →
  strings.Split (strings.Join segments "/") "/" = segments.
Proof.
  induction segments as [|e [|e' rest] IH]; [done| |].
  - intros _ [He _]%andb_true_iff. by apply Split_last.
  - intros _ [He Hrest]%andb_true_iff.
    rewrite Join_cons, (Split_piece _ _ He). f_equal. by apply IH.
Qed.

Lemma isSegment_noSlash s : isSegment s = true → noSlash s = true.
Proof. unfold isSegment. by intros [_ ?]%andb_true_iff. Qed.

Lemma isSegment_nonempty s : isSegment s = true → s ≠ "".
Proof.
  unfold isSegment. intros [H _]%andb_true_iff.
  apply negb_true_iff in H. by destruct (String.eqb_spec s "").
Qed.

(** The join of segments neither starts nor ends with a slash. *)
Lemma Trim_Join segments :
  segments ≠ [] → forallb isSegment segments = true →
  strings.Trim (strings.Join segments "/") "/" = strings.Join segments "/"
  ∧ strings.Join segments "/" ≠ "".
Proof.
  intros Hne Hsegs. unfold strings.Trim.
  assert (Hhead : headClean "/" (strings.Join segments "/")
                  ∧ strings.Join segments "/" ≠ "").
  { destruct segments as [|e rest]; [done|].
    cbn [forallb] in Hsegs. apply andb_true_iff in Hsegs as [He _].
    pose proof (isSegment_nonempty _ He) as Hn.
    pose proof (isSegment_noSlash _ He) as Hs.
    destruct e as [|c e]; [done|].
    destruct rest; cbn [strings.Join]; rewrite ?append_cons;
      (split; [exact (noSlash_head _ _ Hs) | done]). }
  destruct Hhead as [Hhead Hnonempty]. split; [|done].
  rewrite (TrimLeft_id _ _ Hhead).
  clear Hhead Hnonempty.
  induction segments as [|e [|e' rest] IH]; [done| |].
  - cbn [forallb] in Hsegs. apply andb_true_iff in Hsegs as [He _].
    by apply TrimRight_segment.
  - cbn [forallb] in Hsegs. apply andb_true_iff in Hsegs as [He Hrest].
    rewrite Join_cons.
    assert (Hrest' : strings.Join (e' :: rest) "/" ≠ "").
    { cbn [forallb] in Hrest. apply andb_true_iff in Hrest as [He' _].
      pose proof (isSegment_nonempty _ He').
      destruct e'; [done|]. by destruct rest. }
    rewrite (TrimRight_keep_app e ("/" +:+ strings.Join (e' :: rest) "/"));
      [done| |done].
    change ("/" +:+ strings.Join (e' :: rest) "/")
      with (String "/" (strings.Join (e' :: rest) "/")).
    apply TrimRight_keep_cons; [|done]. by apply IH.
Qed.

(** The segments of a path built from segments. *)
Lemma segmentsOf_pathOf root reg image tail :
  forallb isSegment (root :: reg :: image ++ tail)%list = true →
  segmentsOf (pathOf root reg image tail)
  = ("v2" :: root :: reg :: image ++ tail)%list.
Proof.
  intros Hsegs. unfold segmentsOf, pathOf. rewrite Trim_slash_l.
  assert (Hall : forallb isSegment ("v2" :: root :: reg :: image ++ tail)%list
                 = true) by exact Hsegs.
  destruct (Trim_Join ("v2" :: root :: reg :: image ++ tail)%list)
    as [-> _]; [done | exact Hall |].
  apply Split_Join; [done|].
  clear -Hall. induction ("v2" :: root :: reg :: image ++ tail)%list as [|e l IH];
    [done|].
  cbn [forallb] in *. apply andb_true_iff in Hall as [He Hl].
  by rewrite (isSegment_noSlash _ He), IH.
Qed.

(** ** The extractor, by segments *)

Lemma index_penultimate {A} (front : list A) (a b : A) :
  index (front ++ [a; b])%list (len (front ++ [a; b])%list - 2) = Ok a.
Proof.
  destruct (index_Ok (front ++ [a; b])%list (len (front ++ [a; b])%list - 2))
    as (x & -> & Hx).
  { unfold len. rewrite length_app. cbn [length]. lia. }
  f_equal. rewrite lookup_app_r in Hx.
  - replace (Z.to_nat (len (front ++ [a; b])%list - 2) - length front)%nat
      with 0%nat in Hx; [by injection Hx|].
    unfold len. rewrite length_app. cbn [length]. lia.
  - unfold len. rewrite length_app. cbn [length]. lia.
Qed.

(** What the extractor returns on a path of five segments or more, in
    terms of the segments: a first segment (which is not looked at), the
    root, the registry, the segments [middle] and the last two. *)
Lemma ExtractPathVars_segments digest_Parse path paramMap
    first root reg middle typ final :
  segmentsOf path = (first :: root :: reg :: middle ++ [typ; final])%list →
  oci.ExtractPathVars digest_Parse path paramMap =
    let image := strings.Join middle "/" in
    if String.eqb typ "manifests" then
      match digest_Parse final with
      | None => Ok (oci.mkPathVars root reg image final "" final)
      | Some _ => Ok (oci.mkPathVars root reg image final final "")
      end
    else if String.eqb typ "blobs" then
      if String.eqb final "uploads"
      then Ok (oci.mkPathVars root reg image "" (digestParam paramMap) "")
      else Ok (oci.mkPathVars root reg image "" final "")
    else if String.eqb typ "uploads" then
      if String.eqb final "uploads"
      then Ok (oci.mkPathVars root reg image "" (digestParam paramMap) "")
      else
        match middle with
        | [] => Panic (SliceBoundsOutOfRange 3 2)
        | _ =>
            Ok (oci.mkPathVars root reg
                  (strings.Join (take (Nat.pred (length middle)) middle) "/")
                  final (digestParam paramMap) "")
        end
    else if String.eqb typ "tags" then
      Ok (oci.mkPathVars root reg image "" "" "")
    else if String.eqb typ "referrers" then
      Ok (oci.mkPathVars root reg image "" final "")
    else Ok (oci.mkPathVars root reg image "" "" "").
Proof.
  intros Hsegs.
  set (front := (first :: root :: reg :: middle)%list).
  assert (Hsegs' : segmentsOf path = (front ++ [typ; final])%list) by done.
  assert (Hlen : len (segmentsOf path) = Z.of_nat (length middle) + 5).
  { rewrite Hsegs. unfold len. cbn [length]. rewrite length_app.
    cbn [length]. lia. }
  destruct (ExtractPathVars_long digest_Parse path paramMap)
    as (root' & reg' & typ' & final' & t & Hroot & Hreg & Htyp & Hfinal & Ht & ->);
    [lia|].
  destruct (getRouteType_long path) as (typ'' & final'' & Htyp'' & Hfinal'' & Ht'');
    [lia|].
  rewrite Htyp in Htyp''. injection Htyp'' as <-.
  apply index_last in Hfinal''. rewrite Hfinal in Hfinal''.
  injection Hfinal'' as <-.
  rewrite Ht in Ht''. injection Ht'' as ->.
  rewrite Hsegs in Hroot, Hreg. injection Hroot as <-. injection Hreg as <-.
  rewrite Hsegs', index_penultimate in Htyp. injection Htyp as <-.
  rewrite Hsegs' in Hfinal.
  change (front ++ [typ; final])%list with (front ++ [typ] ++ [final])%list in Hfinal.
  rewrite !app_assoc, last_snoc in Hfinal. injection Hfinal as <-.
  assert (Himage : imageUpTo (segmentsOf path) 2 = strings.Join middle "/").
  { unfold imageUpTo. rewrite Hlen, Hsegs. cbn [drop].
    replace (Z.to_nat (Z.of_nat (length middle) + 5 - 2 - 3)) with (length middle)
      by lia.
    by rewrite drop_0, take_app_length. }
  assert (Himage3 : imageUpTo (segmentsOf path) 3
                    = strings.Join (take (Nat.pred (length middle)) middle) "/").
  { unfold imageUpTo. rewrite Hlen, Hsegs. cbn [drop].
    replace (Z.to_nat (Z.of_nat (length middle) + 5 - 3 - 3))
      with (Nat.pred (length middle)) by lia.
    rewrite drop_0, take_app_le; [done | lia]. }
  rewrite Himage, Himage3, Hlen. cbv zeta.
  unfold oci.APIPartManifest, oci.APIPartBlobs, oci.APIPartUpload,
    oci.APIPartTag, oci.APIPartReferrer.
  destruct (String.eqb typ "manifests"); [done|].
  destruct (String.eqb typ "blobs").
  { destruct (String.eqb final "uploads"); done. }
  destruct (String.eqb typ "uploads").
  { destruct (String.eqb final "uploads"); cbn; [done|].
    destruct middle as [|m middle]; [done|].
    destruct (Z.leb_spec 6 (Z.of_nat (length (m :: middle)) + 5)); [done|].
    cbn [length] in *. lia. }
  destruct (String.eqb typ "tags"); [done|].
  by destruct (String.eqb typ "referrers").
Qed.

(** Every list of five elements or more is three elements, a middle and
    two last elements. *)
Lemma five_segments {A} (l : list A) :
  5 <= len l →
  ∃ first root reg middle typ final,
    l = (first :: root :: reg :: middle ++ [typ; final])%list.
Proof.
  unfold len. intros Hlen.
  destruct l as [|first [|root [|reg rest]]]; cbn [length] in Hlen; try lia.
  exists first, root, reg, (take (length rest - 2) rest).
  pose proof (take_drop (length rest - 2) rest) as Hrest.
  assert (Hd : length (drop (length rest - 2) rest) = 2%nat).
  { rewrite length_drop. lia. }
  destruct (drop (length rest - 2) rest) as [|typ [|final [|? ?]]];
    cbn [length] in Hd; try lia.
  exists typ, final. by rewrite Hrest.
Qed.

(** X1.  Slashes around a path do not matter: a path, the path with a
    slash in front and the path with a slash behind have the same route
    type and the same path variables (or the same panic). *)
Theorem X1_surrounding_slashes digest_Parse path paramMap :
  oci.getRouteType ("/" +:+ path) = oci.getRouteType path ∧
  oci.getRouteType (path +:+ "/") = oci.getRouteType path ∧
  oci.ExtractPathVars digest_Parse ("/" +:+ path) paramMap
  = oci.ExtractPathVars digest_Parse path paramMap ∧
  oci.ExtractPathVars digest_Parse (path +:+ "/") paramMap
  = oci.ExtractPathVars digest_Parse path paramMap.
Proof.
  unfold oci.getRouteType, oci.ExtractPathVars.
  by rewrite Trim_slash_l, Trim_slash_r.
Qed.

(** X2.  The extractor panics exactly on the paths of fewer than five
    segments and on the paths of five segments whose fourth segment is
    [uploads] and whose fifth is not; it never returns an error. *)
Theorem X2_panics_exactly digest_Parse path paramMap :
  let segments := segmentsOf path in
  ((∃ p, oci.ExtractPathVars digest_Parse path paramMap = Panic p) ↔
   (len segments < 5 ∨
    (len segments = 5 ∧ segments !! 3%nat = Some "uploads" ∧
     segments !! 4%nat ≠ Some "uploads"))) ∧
  (∀ err, oci.ExtractPathVars digest_Parse path paramMap ≠ Fail err).
Proof.
  intros segments.
  destruct (Z.lt_ge_cases (len segments) 5) as [Hshort | Hlong].
  - destruct (ExtractPathVars_short digest_Parse path paramMap Hshort) as [p ->].
    split; [|done]. split; [by left | by exists p].
  - destruct (five_segments segments Hlong)
      as (first & root & reg & middle & typ & final & Hsegs).
    rewrite (ExtractPathVars_segments digest_Parse path paramMap
               first root reg middle typ final Hsegs).
    assert (Hlen : len segments = Z.of_nat (length middle) + 5).
    { rewrite Hsegs. unfold len. cbn [length]. rewrite length_app.
      cbn [length]. lia. }
    cbv zeta. rewrite Hlen, Hsegs. clear Hlen Hsegs Hlong.
    destruct middle as [|m middle].
    + cbn [app lookup list_lookup length] in *.
      destruct (String.eqb_spec typ "manifests") as [->|Hm].
      { split; [|by destruct (digest_Parse final)].
        split; [by destruct (digest_Parse final); intros [? ?]|].
        intros [? | (_ & [= ] & _)]. lia. }
      destruct (String.eqb_spec typ "blobs") as [->|Hb].
      { split; [|by destruct (String.eqb final "uploads")].
        split; [by destruct (String.eqb final "uploads"); intros [? ?]|].
        intros [? | (_ & [= ] & _)]. lia. }
      destruct (String.eqb_spec typ "uploads") as [->|Hu].
      { destruct (String.eqb_spec final "uploads") as [->|Hf].
        - split; [|done]. split; [by intros [? ?]|].
          intros [? | (_ & _ & Hne)]; [lia | done].
        - split; [|done]. split; [|by eexists].
          intros _. right. split; [lia|]. split; [done|]. by intros [= ]. }
      split; [|by repeat case_eqb].
      split; [by repeat case_eqb; intros [? ?]|].
      intros [? | (_ & [= ] & _)]; [lia | done].
    + split.
      * split.
        -- repeat case_eqb; try (by intros [? ?]);
             destruct (digest_Parse final); by intros [? ?].
        -- cbn [length]. intros [? | (? & _)]; lia.
      * intros err. repeat case_eqb; try done; by destruct (digest_Parse final).
Qed.

(** X3.  Building a path and parsing it back.  For a root, a registry, an
    image of any number of segments (nested repositories) and a final
    segment, all non-empty and free of slashes, the extractor returns the
    root, the registry and the image joined by slashes, and: on
    [manifests] the final segment as reference and as digest or tag; on
    [blobs] (the final segment not being [uploads]) and on [referrers]
    the final segment as digest; on [tags/list] nothing more. *)
Theorem X3_parse_built_path digest_Parse paramMap root reg image final :
  forallb isSegment (root :: reg :: image ++ [final])%list = true →
  let name := strings.Join image "/" in
  oci.ExtractPathVars digest_Parse
    (pathOf root reg image ["manifests"; final]) paramMap
  = Ok (oci.mkPathVars root reg name final
          (match digest_Parse final with Some _ => final | None => "" end)
          (match digest_Parse final with Some _ => "" | None => final end)) ∧
  (final ≠ "uploads" →
   oci.ExtractPathVars digest_Parse
     (pathOf root reg image ["blobs"; final]) paramMap
   = Ok (oci.mkPathVars root reg name "" final "")) ∧
  oci.ExtractPathVars digest_Parse
    (pathOf root reg image ["referrers"; final]) paramMap
  = Ok (oci.mkPathVars root reg name "" final "") ∧
  oci.ExtractPathVars digest_Parse
    (pathOf root reg image ["tags"; "list"]) paramMap
  = Ok (oci.mkPathVars root reg name "" "" "").
Proof.
  intros Hsegs name.
  assert (Hparts : isSegment root = true ∧ isSegment reg = true ∧
                   forallb isSegment image = true ∧ isSegment final = true).
  { cbn [forallb] in Hsegs. rewrite forallb_app in Hsegs. cbn [forallb] in Hsegs.
    rewrite !andb_true_iff in Hsegs. tauto. }
  destruct Hparts as (Hroot & Hreg & Himage & Hfinal).
  assert (Hpath : ∀ verb last,
            isSegment verb = true → isSegment last = true →
            segmentsOf (pathOf root reg image [verb; last])
            = ("v2" :: root :: reg :: image ++ [verb; last])%list).
  { intros verb last Hverb Hlast. apply segmentsOf_pathOf.
    cbn [forallb]. rewrite forallb_app. cbn [forallb].
    by rewrite Hroot, Hreg, Himage, Hverb, Hlast. }
  repeat split.
  - rewrite (ExtractPathVars_segments _ _ _ _ _ _ _ _ _
               (Hpath "manifests" final eq_refl Hfinal)).
    by destruct (digest_Parse final).
  - intros Hne.
    rewrite (ExtractPathVars_segments _ _ _ _ _ _ _ _ _
               (Hpath "blobs" final eq_refl Hfinal)).
    cbn. by destruct (String.eqb_spec final "uploads").
  - by rewrite (ExtractPathVars_segments _ _ _ _ _ _ _ _ _
                  (Hpath "referrers" final eq_refl Hfinal)).
  - by rewrite (ExtractPathVars_segments _ _ _ _ _ _ _ _ _
                  (Hpath "tags" "list" eq_refl eq_refl)).
Qed.

(** X3 for root [acme], registry [docker], image [library/alpine] and the
    tag [3.19]. *)
Lemma X3_parse_built_path_witness :
  forallb isSegment ["acme"; "docker"; "library"; "alpine"; "3.19"] = true ∧
  oci.ExtractPathVars Samples.digest_Parse
    "/v2/acme/docker/library/alpine/manifests/3.19" ∅
  = Ok (oci.mkPathVars "acme" "docker" "library/alpine" "3.19" "" "3.19").
Proof.
  split; [reflexivity|].
  exact (proj1 (X3_parse_built_path Samples.digest_Parse ∅ "acme" "docker"
                  ["library"; "alpine"] "3.19" eq_refl)).
Defined.

(** X4.  Upload paths built from segments.  [.../blobs/uploads] is a new
    upload: no session reference.  [.../blobs/uploads/session] gives the
    session as reference.  In both the image is what precedes [blobs], and
    the digest is the [digest] query parameter, empty when there is
    none. *)
Theorem X4_parse_built_upload_path digest_Parse paramMap root reg image session :
  forallb isSegment (root :: reg :: image ++ [session])%list = true →
  session ≠ "uploads" →
  let name := strings.Join image "/" in
  oci.ExtractPathVars digest_Parse
    (pathOf root reg image ["blobs"; "uploads"]) paramMap
  = Ok (oci.mkPathVars root reg name "" (digestParam paramMap) "") ∧
  oci.ExtractPathVars digest_Parse
    (pathOf root reg image ["blobs"; "uploads"; session]) paramMap
  = Ok (oci.mkPathVars root reg name session (digestParam paramMap) "").
Proof.
  intros Hsegs Hne name.
  assert (Hparts : isSegment root = true ∧ isSegment reg = true ∧
                   forallb isSegment image = true ∧ isSegment session = true).
  { cbn [forallb] in Hsegs. rewrite forallb_app in Hsegs. cbn [forallb] in Hsegs.
    rewrite !andb_true_iff in Hsegs. tauto. }
  destruct Hparts as (Hroot & Hreg & Himage & Hsession).
  split.
  - assert (Hpath : segmentsOf (pathOf root reg image ["blobs"; "uploads"])
                    = ("v2" :: root :: reg :: image ++ ["blobs"; "uploads"])%list).
    { apply segmentsOf_pathOf. cbn [forallb]. rewrite forallb_app.
      cbn [forallb]. by rewrite Hroot, Hreg, Himage. }
    by rewrite (ExtractPathVars_segments _ _ _ _ _ _ _ _ _ Hpath).
  - assert (Hpath : segmentsOf (pathOf root reg image ["blobs"; "uploads"; session])
                    = ("v2" :: root :: reg :: (image ++ ["blobs"])
                         ++ ["uploads"; session])%list).
    { rewrite <- app_assoc. apply segmentsOf_pathOf. cbn [forallb].
      rewrite forallb_app. cbn [forallb app].
      by rewrite Hroot, Hreg, Himage, Hsession. }
    rewrite (ExtractPathVars_segments _ _ _ _ _ _ _ _ _ Hpath).
    cbn. destruct (String.eqb_spec session "uploads"); [done|].
    rewrite length_app. cbn [length].
    replace (Nat.pred (length image + 1)) with (length image) by lia.
    rewrite take_app_length. by destruct image.
Qed.

(** X4 for the close of an upload session with [?digest=sha256:0a]. *)
Lemma X4_parse_built_upload_path_witness :
  forallb isSegment ["acme"; "docker"; "library"; "alpine"; "5f3c"] = true ∧
  "5f3c" ≠ "uploads" ∧
  oci.ExtractPathVars Samples.digest_Parse
    "/v2/acme/docker/library/alpine/blobs/uploads/5f3c"
    (oci.GetQueryParamMap {[ "digest" := ["sha256:0a"] ]})
  = Ok (oci.mkPathVars "acme" "docker" "library/alpine" "5f3c" "sha256:0a" "").
Proof.
  split; [reflexivity|]. split; [discriminate|].
  exact (proj2 (X4_parse_built_upload_path Samples.digest_Parse
                  (oci.GetQueryParamMap {[ "digest" := ["sha256:0a"] ]})
                  "acme" "docker" ["library"; "alpine"] "5f3c" eq_refl
                  ltac:(discriminate))).
Defined.

(** X5.  On five segments or more the route type depends on the last two
    segments only: what the image is called, and how deep it is nested,
    does not change the route. *)
Theorem X5_route_by_last_two_segments path1 path2 front1 front2 typ final :
  segmentsOf path1 = (front1 ++ [typ; final])%list →
  segmentsOf path2 = (front2 ++ [typ; final])%list →
  (3 <= length front1)%nat → (3 <= length front2)%nat →
  oci.getRouteType path1 = oci.getRouteType path2.
Proof.
  intros H1 H2 Hf1 Hf2.
  assert (Hroute : ∀ path front,
            segmentsOf path = (front ++ [typ; final])%list →
            (3 <= length front)%nat →
            ∃ t, oci.getRouteType path = Ok t ∧
                 t = (if String.eqb typ oci.APIPartManifest then oci.Manifests
                      else if String.eqb typ oci.APIPartBlobs then
                        if String.eqb final oci.APIPartUpload
                        then oci.BlobsUploadsSession else oci.Blobs
                      else if String.eqb typ oci.APIPartUpload
                      then oci.BlobsUploadsSession
                      else if String.eqb typ oci.APIPartTag then oci.Tags
                      else if String.eqb typ oci.APIPartReferrer
                      then oci.Referrers
                      else oci.Invalid)).
  { intros path front Hsegs Hfront.
    destruct (getRouteType_long path) as (typ' & final' & Htyp & Hfinal & ->).
    { rewrite Hsegs. unfold len. rewrite length_app. cbn [length]. lia. }
    rewrite Hsegs, index_penultimate in Htyp. injection Htyp as <-.
    apply index_last in Hfinal. rewrite Hsegs in Hfinal.
    change (front ++ [typ; final])%list
      with (front ++ [typ] ++ [final])%list in Hfinal.
    rewrite app_assoc, last_snoc in Hfinal. injection Hfinal as <-.
    by eexists. }
  destruct (Hroute path1 front1 H1 Hf1) as (t1 & -> & ->).
  by destruct (Hroute path2 front2 H2 Hf2) as (t2 & -> & ->).
Qed.

(** X5 for a flat and a nested image name that contains route words. *)
Lemma X5_route_by_last_two_segments_witness :
  oci.getRouteType "/v2/acme/docker/alpine/manifests/3.19"
  = oci.getRouteType "/v2/acme/docker/blobs/uploads/tags/manifests/3.19".
Proof.
  apply (X5_route_by_last_two_segments
           "/v2/acme/docker/alpine/manifests/3.19"
           "/v2/acme/docker/blobs/uploads/tags/manifests/3.19"
           ["v2"; "acme"; "docker"; "alpine"]
           ["v2"; "acme"; "docker"; "blobs"; "uploads"; "tags"]
           "manifests" "3.19"); [reflexivity | reflexivity | | ];
    cbn [length]; lia.
Defined.

(** The extractor has no error result. *)
Lemma ExtractPathVars_no_error digest_Parse path paramMap err :
  oci.ExtractPathVars digest_Parse path paramMap ≠ Fail err.
Proof.
  destruct (Z.lt_ge_cases (len (segmentsOf path)) 5) as [Hshort | Hlong].
  - by destruct (ExtractPathVars_short digest_Parse path paramMap Hshort) as [p ->].
  - destruct (five_segments _ Hlong)
      as (first & root & reg & middle & typ & final & Hsegs).
    rewrite (ExtractPathVars_segments digest_Parse path paramMap
               first root reg middle typ final Hsegs).
    repeat case_eqb; try done; try (by destruct (digest_Parse final));
      by destruct middle.
Qed.

Section ResolutionFacts.

Variable digest_Parse : string -> option string.
Variable ValidateIdentifier : string -> option error.
Variable filter : list string -> list string -> string -> bool * option error.

(** X6.  How a resolution fails before the registry is known.  An
    identifier that does not validate is reported with the validator's own
    error and no store is called.  A failing lookup is reported with the
    code of its step, whatever error the store gave (root space,
    registry, parent space: ROOT, REG and PARENT not found), and no later
    store is called. *)
Theorem X6_lookup_failures_masked h r remoteSupport pv :
  oci.ExtractPathVars digest_Parse (oci.URL_Path r)
    (oci.GetQueryParamMap (oci.URL_Query r)) = Ok pv →
  (∀ err, ValidateIdentifier (oci.rootIdentifier pv) = Some err →
     oci.GetRegistryInfo digest_Parse ValidateIdentifier filter h r remoteSupport
     = ([], Fail err)) ∧
  (ValidateIdentifier (oci.rootIdentifier pv) = None →
   (∀ err, oci.FindByRefCaseInsensitive h (oci.rootIdentifier pv) = Fail err →
      oci.GetRegistryInfo digest_Parse ValidateIdentifier filter h r remoteSupport
      = ([oci.SpaceStore_FindByRefCaseInsensitive (oci.rootIdentifier pv)],
         Fail ErrCodeRootNotFound)) ∧
   (∀ rootSpace,
      oci.FindByRefCaseInsensitive h (oci.rootIdentifier pv) = Ok rootSpace →
      (∀ err, oci.GetByRootParentIDAndName h (space_ID rootSpace)
                (oci.registry pv) = Fail err →
         oci.GetRegistryInfo digest_Parse ValidateIdentifier filter h r
           remoteSupport
         = ([oci.SpaceStore_FindByRefCaseInsensitive (oci.rootIdentifier pv);
             oci.RegistryDao_GetByRootParentIDAndName (space_ID rootSpace)
               (oci.registry pv)],
            Fail ErrCodeRegNotFound)) ∧
      (∀ reg err,
         oci.GetByRootParentIDAndName h (space_ID rootSpace) (oci.registry pv)
         = Ok reg →
         oci.Find h (reg_ParentID reg) = Fail err →
         oci.GetRegistryInfo digest_Parse ValidateIdentifier filter h r
           remoteSupport
         = (lookups pv rootSpace reg, Fail ErrCodeParentNotFound)))).
Proof.
  intros Hpv. unfold oci.GetRegistryInfo. rewrite Hpv, traced_bind_pure.
  split.
  - by intros err ->.
  - intros ->. rewrite traced_bind_pure. split.
    + by intros err ->.
    + intros rootSpace ->. cbn [mbind oci.traced_bind oci.call]. split.
      * by intros err ->.
      * intros reg err -> Hparent. cbn [mbind oci.traced_bind oci.call].
        by rewrite Hparent.
Qed.

(** X7.  The results of a resolution.  A registry info is returned only
    when the registry is resolved: the path parses into the path
    variables, the root identifier validates, and the three lookups, which
    are exactly the store calls made, find the root space, the registry
    and its parent.  The info is built from those path variables and
    rows; an artifact with image and tag has passed the filter on the
    patterns of that registry, and an upstream proxy is resolved with
    remote support only.  An error is the validator's (no store called),
    ROOT not found after one store call, REG not found after two or three,
    PARENT not found or DENIED after three.  A panic without a store call
    is the extractor's. *)
Theorem X7_resolution_results h r remoteSupport :
  match oci.GetRegistryInfo digest_Parse ValidateIdentifier filter h r
          remoteSupport with
  | (calls, Ok info) =>
      ∃ pv rootSpace reg,
        resolved digest_Parse ValidateIdentifier h r pv rootSpace reg ∧
        calls = lookups pv rootSpace reg ∧
        info = infoOf h r pv rootSpace reg ∧
        (oci.image pv ≠ "" → oci.tag pv ≠ "" →
         filter (reg_AllowedPattern reg) (reg_BlockedPattern reg)
           (oci.image pv +:+ ":" +:+ oci.tag pv) = (true, None)) ∧
        (reg_Type reg = UPSTREAM → remoteSupport = true)
  | (calls, Fail err) =>
      (calls = [] ∧
       ∃ pv, oci.ExtractPathVars digest_Parse (oci.URL_Path r)
               (oci.GetQueryParamMap (oci.URL_Query r)) = Ok pv ∧
             ValidateIdentifier (oci.rootIdentifier pv) = Some err) ∨
      (err = ErrCodeRootNotFound ∧ length calls = 1%nat) ∨
      (err = ErrCodeRegNotFound ∧
       (length calls = 2%nat ∨ length calls = 3%nat)) ∨
      (err = ErrCodeParentNotFound ∧ length calls = 3%nat) ∨
      (err = ErrCodeDenied ∧ length calls = 3%nat)
  | (calls, Panic p) =>
      calls = [] →
      oci.ExtractPathVars digest_Parse (oci.URL_Path r)
        (oci.GetQueryParamMap (oci.URL_Query r)) = Panic p
  end.
Proof.
  unfold oci.GetRegistryInfo.
  destruct (oci.ExtractPathVars _ _ _) as [pv|err|p] eqn:Hpv;
    [|by destruct (ExtractPathVars_no_error _ _ _ _ Hpv)|done].
  rewrite traced_bind_pure.
  destruct (ValidateIdentifier _) as [err|] eqn:Hval.
  { left. split; [done|]. by exists pv. }
  rewrite traced_bind_pure.
  destruct (oci.FindByRefCaseInsensitive h _) as [rootSpace|err|p] eqn:Hroot.
  2: { right. left. by split. }
  2: { by cbn. }
  cbn [mbind oci.traced_bind oci.call].
  destruct (oci.GetByRootParentIDAndName h _ _) as [reg|err|p] eqn:Hreg.
  2: { right. right. left. split; [done | by left]. }
  2: { by cbn. }
  cbn [mbind oci.traced_bind oci.call].
  destruct (oci.Find h _) as [parent|err|p] eqn:Hparent.
  2: { right. right. right. left. by split. }
  2: { by cbn. }
  cbn [mbind oci.traced_bind oci.call].
  destruct (String.eqb_spec (space_Identifier rootSpace) "") as [He|Hid];
    [rewrite (IsEmpty_true _ He) | rewrite (IsEmpty_false _ Hid)];
    cbn [oci.failWhen mbind oci.traced_bind oci.pure].
  { right. right. right. left. by split. }
  destruct (String.eqb_spec (oci.registry pv) "") as [He|Hname];
    [rewrite (IsEmpty_true _ He) | rewrite (IsEmpty_false _ Hname)];
    cbn [oci.failWhen mbind oci.traced_bind oci.pure].
  { right. right. left. split; [done | by right]. }
  assert (Hres : resolved digest_Parse ValidateIdentifier h r pv rootSpace reg).
  { unfold resolved. do 4 (split; [done|]). split; [by exists parent|]. done. }
  cbn [oci.Image oci.Tag oci.artifactInfo].
  destruct (String.eqb_spec (oci.image pv) "") as [Himage|Himage];
    [rewrite (IsEmpty_true _ Himage) | rewrite (IsEmpty_false _ Himage)];
    cbn [negb andb].
  { cbn [mbind oci.traced_bind oci.pure].
    destruct (reg_Type reg) eqn:Htype, remoteSupport;
      cbn [RegistryType_eqb negb andb oci.failWhen mbind oci.traced_bind
           oci.pure];
      try (by do 4 right);
      exists pv, rootSpace, reg; (split; [exact Hres|]);
      do 2 (split; [done|]); (split; [by intros | intros; congruence]). }
  destruct (String.eqb_spec (oci.tag pv) "") as [Htag|Htag];
    [rewrite (IsEmpty_true _ Htag) | rewrite (IsEmpty_false _ Htag)];
    cbn [negb andb].
  { cbn [mbind oci.traced_bind oci.pure].
    destruct (reg_Type reg) eqn:Htype, remoteSupport;
      cbn [RegistryType_eqb negb andb oci.failWhen mbind oci.traced_bind
           oci.pure];
      try (by do 4 right);
      exists pv, rootSpace, reg; (split; [exact Hres|]);
      do 2 (split; [done|]); (split; [by intros | intros; congruence]). }
  destruct (filter _ _ _) as [[] [err2|]] eqn:Hfilter;
    cbn [negb orb notNil oci.failWhen mbind oci.traced_bind oci.pure];
    try (by do 4 right).
  destruct (reg_Type reg) eqn:Htype, remoteSupport;
    cbn [RegistryType_eqb negb andb oci.failWhen mbind oci.traced_bind
         oci.pure];
    try (by do 4 right);
    exists pv, rootSpace, reg; (split; [exact Hres|]);
    do 2 (split; [done|]); (split; [by intros | intros; congruence]).
Qed.

(** X8.  What [remoteSupport] decides.  The store calls are the same with
    and without it.  The result without it is the result with it, except
    that a registry info returned with remote support can become DENIED
    without: this happens for an UPSTREAM registry and for no other. *)
Theorem X8_remote_support_only_denies h r :
  let with_ := oci.GetRegistryInfo digest_Parse ValidateIdentifier filter h r
                 true in
  let without := oci.GetRegistryInfo digest_Parse ValidateIdentifier filter h r
                   false in
  without.1 = with_.1 ∧
  (without.2 = with_.2 ∨
   (without.2 = Fail ErrCodeDenied ∧
    ∃ pv rootSpace reg,
      with_.2 = Ok (infoOf h r pv rootSpace reg) ∧
      oci.GetByRootParentIDAndName h (space_ID rootSpace) (oci.registry pv)
      = Ok reg ∧
      reg_Type reg = UPSTREAM)).
Proof.
  cbv zeta. unfold oci.GetRegistryInfo.
  destruct (oci.ExtractPathVars _ _ _) as [pv|err|p]; [|by split; [|left]..].
  rewrite !traced_bind_pure.
  destruct (ValidateIdentifier _) as [err|]; [by split; [|left]|].
  rewrite !traced_bind_pure.
  destruct (oci.FindByRefCaseInsensitive h _) as [rootSpace|err|p];
    [|by split; [|left]..].
  cbn [mbind oci.traced_bind oci.call].
  destruct (oci.GetByRootParentIDAndName h _ _) as [reg|err|p] eqn:Hreg;
    [|by split; [|left]..].
  cbn [mbind oci.traced_bind oci.call].
  destruct (oci.Find h _) as [parent|err|p]; [|by split; [|left]..].
  cbn [mbind oci.traced_bind oci.call].
  destruct (oci.IsEmpty (space_Identifier rootSpace));
    cbn [oci.failWhen mbind oci.traced_bind oci.pure]; [by split; [|left]|].
  destruct (oci.IsEmpty (oci.registry pv));
    cbn [oci.failWhen mbind oci.traced_bind oci.pure]; [by split; [|left]|].
  cbn [oci.Image oci.Tag oci.artifactInfo].
  assert (Hinfo : ∃ pv' rootSpace' reg',
            Ok (infoOf h r pv rootSpace reg)
            = Ok (infoOf h r pv' rootSpace' reg') ∧
            oci.GetByRootParentIDAndName h (space_ID rootSpace')
              (oci.registry pv') = Ok reg' ∧
            reg_Type reg' = reg_Type reg)
    by by exists pv, rootSpace, reg.
  destruct (negb (oci.IsEmpty (oci.image pv)) && negb (oci.IsEmpty (oci.tag pv))).
  - destruct (filter _ _ _) as [flag err2].
    destruct (negb flag || notNil err2);
      cbn [oci.failWhen mbind oci.traced_bind oci.pure]; [by split; [|left]|].
    destruct (reg_Type reg);
      cbn [RegistryType_eqb negb andb oci.failWhen mbind oci.traced_bind
           oci.pure fst snd]; (split; [done|]); [by left | by right].
  - cbn [mbind oci.traced_bind oci.pure].
    destruct (reg_Type reg);
      cbn [RegistryType_eqb negb andb oci.failWhen mbind oci.traced_bind
           oci.pure fst snd]; (split; [done|]); [by left | by right].
Qed.

End ResolutionFacts.

(** X6 on a root space that the store does not know. *)
Lemma X6_lookup_failures_masked_witness :
  oci.ExtractPathVars Samples.digest_Parse "/v2/nowhere/reg/img/manifests/v1"
    (oci.GetQueryParamMap ∅)
  = Ok (oci.mkPathVars "nowhere" "reg" "img" "v1" "" "v1") ∧
  Samples.GetRegistryInfo (Samples.request "/v2/nowhere/reg/img/manifests/v1")
    true
  = ([oci.SpaceStore_FindByRefCaseInsensitive "nowhere"],
     Fail ErrCodeRootNotFound).
Proof.
  split; [reflexivity|].
  exact (proj1 (proj2 (X6_lookup_failures_masked Samples.digest_Parse
                         Samples.ValidateIdentifier
                         (oci.MatchArtifactFilter Samples.globMatch)
                         Samples.handler
                         (Samples.request "/v2/nowhere/reg/img/manifests/v1")
                         true
                         (oci.mkPathVars "nowhere" "reg" "img" "v1" "" "v1")
                         eq_refl) eq_refl)
           ErrResourceNotFound eq_refl).
Defined.

(** X9.  Closing an upload session.  On [.../blobs/uploads/session] with
    a [digest] query parameter, a resolution in a registry that is not an
    upstream proxy returns the session as reference and the first value
    of the parameter as digest, with an empty tag; the artifact filter has
    no say, whatever the allow and block patterns of the registry. *)
Theorem X9_upload_close_digest digest_Parse ValidateIdentifier filter h r
    remoteSupport root reg image session d more rootSpace registry parent :
  forallb isSegment (root :: reg :: image ++ [session])%list = true →
  session ≠ "uploads" →
  oci.URL_Path r = pathOf root reg image ["blobs"; "uploads"; session] →
  oci.URL_Query r !! "digest" = Some (d :: more) →
  ValidateIdentifier root = None →
  oci.FindByRefCaseInsensitive h root = Ok rootSpace →
  oci.GetByRootParentIDAndName h (space_ID rootSpace) reg = Ok registry →
  oci.Find h (reg_ParentID registry) = Ok parent →
  space_Identifier rootSpace ≠ "" →
  reg_Type registry = VIRTUAL →
  ∃ info,
    oci.GetRegistryInfo digest_Parse ValidateIdentifier filter h r remoteSupport
    = ([oci.SpaceStore_FindByRefCaseInsensitive root;
        oci.RegistryDao_GetByRootParentIDAndName (space_ID rootSpace) reg;
        oci.SpaceStore_Find (reg_ParentID registry)], Ok info) ∧
    oci.Image (oci.artifactInfo info) = strings.Join image "/" ∧
    oci.Reference info = session ∧
    oci.Digest info = d ∧
    oci.Tag info = "".
Proof.
  intros Hsegs Hne Hpath Hquery Hval Hroot Hreg Hparent Hid Htype.
  set (pv := oci.mkPathVars root reg (strings.Join image "/") session d "").
  assert (Hres : resolved digest_Parse ValidateIdentifier h r pv rootSpace
                   registry).
  { unfold resolved. rewrite Hpath.
    assert (Hsplit : segmentsOf (pathOf root reg image
                                  ["blobs"; "uploads"; session])
                     = ("v2" :: root :: reg :: (image ++ ["blobs"])
                          ++ ["uploads"; session])%list).
    { rewrite <- app_assoc. apply segmentsOf_pathOf.
      cbn [forallb] in *. rewrite forallb_app in *. cbn [forallb app] in *.
      rewrite !andb_true_iff in *. tauto. }
    rewrite (ExtractPathVars_segments _ _ _ _ _ _ _ _ _ Hsplit).
    cbn. destruct (String.eqb_spec session "uploads"); [done|].
    rewrite length_app. cbn [length].
    replace (Nat.pred (length image + 1)) with (length image) by lia.
    rewrite take_app_length.
    assert (Hd : digestParam (oci.GetQueryParamMap (oci.URL_Query r)) = d).
    { unfold digestParam, oci.GetQueryParamMap.
      by rewrite lookup_omap, Hquery. }
    rewrite Hd. split; [by destruct image|].
    do 3 (split; [done|]). split; [by exists parent|]. split; [done|].
    cbn [forallb] in Hsegs. rewrite !andb_true_iff in Hsegs.
    destruct Hsegs as (_ & Hregseg & _). by apply isSegment_nonempty. }
  rewrite (GetRegistryInfo_resolved _ _ filter h r remoteSupport _ _ _ Hres).
  rewrite Htype. cbn [oci.tag pv oci.IsEmpty]. rewrite andb_false_r.
  cbn [andb RegistryType_eqb].
  by eexists.
Qed.

(** X9 for the sample stores and [?digest=sha256:0a&digest=sha256:0b]. *)
Lemma X9_upload_close_digest_witness :
  ∃ info,
    oci.GetRegistryInfo Samples.digest_Parse Samples.ValidateIdentifier
      (oci.MatchArtifactFilter Samples.globMatch) Samples.handler
      {| oci.URL_Path := "/v2/root/reg/library/alpine/blobs/uploads/5f3c";
         oci.URL_Query := {[ "digest" := ["sha256:0a"; "sha256:0b"] ]};
         oci.Header := ∅ |} false
    = ([oci.SpaceStore_FindByRefCaseInsensitive "root";
        oci.RegistryDao_GetByRootParentIDAndName 1 "reg";
        oci.SpaceStore_Find 1], Ok info) ∧
    oci.Image (oci.artifactInfo info) = "library/alpine" ∧
    oci.Reference info = "5f3c" ∧
    oci.Digest info = "sha256:0a" ∧
    oci.Tag info = "".
Proof.
  exact (X9_upload_close_digest Samples.digest_Parse Samples.ValidateIdentifier
           (oci.MatchArtifactFilter Samples.globMatch) Samples.handler
           {| oci.URL_Path := "/v2/root/reg/library/alpine/blobs/uploads/5f3c";
              oci.URL_Query := {[ "digest" := ["sha256:0a"; "sha256:0b"] ]};
              oci.Header := ∅ |} false
           "root" "reg" ["library"; "alpine"] "5f3c" "sha256:0a" ["sha256:0b"]
           Samples.rootSpace Samples.reg Samples.rootSpace
           eq_refl ltac:(discriminate) eq_refl eq_refl eq_refl eq_refl eq_refl
           eq_refl ltac:(discriminate) eq_refl).
Defined.

Section ManifestListShape.

Variable NewDigest : string -> outcome string.
Variable Digest_String : string -> string.
Variable FindManifestByDigest : Z -> string -> string -> outcome metadata.Manifest.
Variable getManifestConfig :
  string -> string -> outcome (option metadata.manifestConfig).
Variable GetTimeInMs : Z -> string.
Variable GetSize : Z -> string.

Let walk :=
  (metadata.walkManifestList NewDigest Digest_String FindManifestByDigest
     getManifestConfig GetTimeInMs GetSize).
Let getManifestList :=
  (metadata.getManifestList NewDigest Digest_String FindManifestByDigest
     getManifestConfig GetTimeInMs GetSize).
Let getManifestDetails :=
  (metadata.getManifestDetails Digest_String GetTimeInMs GetSize).

(** The details [d] are those of the manifest that [entry] refers to. *)
Let detailsOf (registry : Registry) (image : string)
    (regInfo : metadata.RegistryRequestBaseInfo) (count : Z)
    (entry : metadata.ManifestDescriptor) (d : metadata.DockerManifestDetails)
  : Prop :=
  ∃ dgst m cfg,
    NewDigest (metadata.md_Digest entry) = Ok dgst ∧
    FindManifestByDigest (reg_ID registry) image dgst = Ok m ∧
    getManifestConfig (metadata.m_ConfigurationDigest m)
      (metadata.RootIdentifier regInfo) = Ok cfg ∧
    d = getManifestDetails m cfg count.

(** A walk that succeeds appends, to the details it starts from, the
    details of the entries that are found, in their order. *)
Lemma walkManifestList_Ok entries registry image regInfo count details result :
  walk entries registry image regInfo count details = Ok result →
  ∃ new,
    result = (details ++ new)%list ∧
    Forall2 (detailsOf registry image regInfo count)
      (filter (λ entry, found NewDigest FindManifestByDigest registry image
                          entry = true) entries) new ∧
    (reg_Type registry ≠ UPSTREAM →
     Forall (λ entry, found NewDigest FindManifestByDigest registry image
                        entry = true) entries).
Proof.
  unfold walk. revert details.
  induction entries as [|entry entries IH]; intros details.
  - intros [= <-]. exists []. rewrite app_nil_r. by repeat constructor.
  - cbn [metadata.walkManifestList].
    destruct (NewDigest _) as [dgst| |] eqn:Hd; [|done..].
    cbn [mbind outcome_bind].
    destruct (FindManifestByDigest _ _ _) as [m|err|] eqn:Hf; [| |done].
    + assert (Hfound : found NewDigest FindManifestByDigest registry image
                         entry = true) by (unfold found; by rewrite Hd, Hf).
      destruct (getManifestConfig _ _) as [cfg| |] eqn:Hc; [|done..].
      cbn [mbind outcome_bind]. intros Hwalk.
      destruct (IH _ Hwalk) as (new & -> & Hnew & Hall).
      exists (getManifestDetails m cfg count :: new).
      split; [by rewrite <- app_assoc|].
      rewrite filter_cons, decide_True by done. split.
      * constructor; [|done]. by exists dgst, m, cfg.
      * intros Htype. constructor; [done | by apply Hall].
    + assert (Hfound : found NewDigest FindManifestByDigest registry image
                         entry ≠ true) by (unfold found; by rewrite Hd, Hf).
      destruct (errors_Is_ResourceNotFound err); [|done].
      destruct (reg_Type registry) eqn:Htype; cbn [RegistryType_eqb]; [done|].
      intros Hwalk. destruct (IH _ Hwalk) as (new & -> & Hnew & Hall).
      exists new. split; [done|]. rewrite filter_cons, decide_False by done.
      split; [done|]. by intros.
Qed.

(** X10.  The details of a manifest list.  When the list is resolved, the
    details are those of the entries whose manifest is in the store, one
    each and in the order of the list, every one with the download count
    that was passed in; outside an upstream proxy that is every entry of
    the list. *)
Theorem X10_manifest_list_details entries registry image regInfo count
    details :
  getManifestList entries registry image regInfo count = Ok details →
  Forall2 (detailsOf registry image regInfo count)
    (filter (λ entry, found NewDigest FindManifestByDigest registry image
                        entry = true) entries) details ∧
  Forall (λ d, metadata.dmd_DownloadsCount d = Some count) details ∧
  (length details <= length entries)%nat ∧
  (reg_Type registry ≠ UPSTREAM → length details = length entries).
Proof.
  unfold getManifestList, metadata.getManifestList. intros Hwalk.
  destruct (walkManifestList_Ok _ _ _ _ _ _ _ Hwalk) as (new & -> & Hnew & Hall).
  cbn [app]. split; [done|].
  pose proof (Forall2_length _ _ _ Hnew) as Hlen.
  pose proof (length_filter (λ entry, found NewDigest FindManifestByDigest
                               registry image entry = true) entries) as Hle.
  split; [|split; [lia|]].
  - clear -Hnew.
    induction Hnew as [|entry d ? ? (dgst & m & cfg & _ & _ & _ & ->) _ IH];
      by constructor.
  - intros Htype. rewrite <- Hlen. f_equal.
    specialize (Hall Htype). clear -Hall.
    induction Hall as [|entry entries Hentry _ IH]; [done|].
    by rewrite filter_cons, decide_True, IH.
Qed.

(** X11.  Errors that end the walk in every registry, an upstream proxy
    included: a digest of an entry that does not parse, a failure of the
    manifest store that is not "resource not found", and a failure to read
    the configuration of a manifest that was found.  The error is returned
    as it is, once the entries before are walked without error. *)
Theorem X11_manifest_list_hard_errors before child after registry image regInfo
    count details err :
  walk before registry image regInfo count [] = Ok details →
  NewDigest (metadata.md_Digest child) = Fail err ∨
  (∃ dgst,
     NewDigest (metadata.md_Digest child) = Ok dgst ∧
     (FindManifestByDigest (reg_ID registry) image dgst = Fail err ∧
      errors_Is_ResourceNotFound err = false ∨
      ∃ m, FindManifestByDigest (reg_ID registry) image dgst = Ok m ∧
           getManifestConfig (metadata.m_ConfigurationDigest m)
             (metadata.RootIdentifier regInfo) = Fail err)) →
  getManifestList (before ++ child :: after)%list registry image regInfo count
  = Fail err.
Proof.
  intros Hbefore Hchild.
  unfold getManifestList, metadata.getManifestList.
  unfold walk in Hbefore. rewrite walkManifestList_app, Hbefore.
  cbn [mbind outcome_bind metadata.walkManifestList].
  destruct Hchild as [-> | (dgst & -> & Hchild)]; [done|].
  cbn [mbind outcome_bind].
  destruct Hchild as [[-> ->] | (m & -> & ->)]; done.
Qed.

End ManifestListShape.

(** X10 on a list of one child that the sample store holds. *)
Lemma X10_manifest_list_details_witness :
  let details :=
    [metadata.getManifestDetails (fun d => d) (fun _ => "0") (fun _ => "2KB")
       (metadata.mkManifest 1 Samples.amd64Digest "sha256:0c" 2048 0)
       (Some (metadata.mkManifestConfig "linux" "amd64")) 42] in
  Samples.getManifestList [Samples.amd64Child] Samples.reg "alpine"
    Samples.regInfo 42 = Ok details ∧
  Forall (λ d, metadata.dmd_DownloadsCount d = Some 42) details.
Proof.
  split; [reflexivity|].
  exact (proj1 (proj2 (X10_manifest_list_details Samples.NewDigest
                         (fun d => d) Samples.FindManifestByDigest
                         Samples.getManifestConfig (fun _ => "0")
                         (fun _ => "2KB") [Samples.amd64Child] Samples.reg
                         "alpine" Samples.regInfo 42 _ eq_refl))).
Defined.

(** X11 on a list whose second child has a digest that does not parse. *)
Lemma X11_manifest_list_hard_errors_witness :
  Samples.getManifestList
    [Samples.amd64Child;
     metadata.mkManifestDescriptor "latest"
       "application/vnd.oci.image.manifest.v1+json" 2048]
    Samples.proxy "alpine" Samples.regInfo 42
  = Fail (ErrOther "invalid digest").
Proof.
  exact (X11_manifest_list_hard_errors Samples.NewDigest
           (fun d => d) Samples.FindManifestByDigest
           Samples.getManifestConfig (fun _ => "0") (fun _ => "2KB")
           [Samples.amd64Child]
           (metadata.mkManifestDescriptor "latest"
              "application/vnd.oci.image.manifest.v1+json" 2048)
           [] Samples.proxy "alpine" Samples.regInfo 42 _
           (ErrOther "invalid digest") eq_refl (or_introl eq_refl)).
Defined.

Section ArtifactManifestsFacts.

Variable NewDigest : string -> outcome string.
Variable Digest_String : string -> string.
Variable FindManifestByDigest : Z -> string -> string -> outcome metadata.Manifest.
Variable getManifestConfig :
  string -> string -> outcome (option metadata.manifestConfig).
Variable GetTimeInMs : Z -> string.
Variable GetSize : Z -> string.
Variable GetRegistryRequestBaseInfo :
  string -> outcome metadata.RegistryRequestBaseInfo.
Variable SpaceStore_FindByRef : string -> outcome Space.
Variable CheckRegistry :
  option metadata.Session -> Space -> string -> metadata.Permission ->
  option error.
Variable RegistryRepository_GetByParentIDAndName :
  Z -> string -> option Registry * option error.
Variable TagStore_GetLatestTagMetadata :
  Z -> string -> string -> outcome metadata.TagMetadata.
Variable TagStore_FindTag : Z -> string -> string -> option metadata.Tag * option error.
Variable ManifestStore_Get : Z -> outcome metadata.Manifest.
Variable DBManifestToManifest :
  metadata.Manifest -> outcome metadata.DistributionManifest.
Variable errors_Is_ErrNoRows : error -> bool.

Let ProcessManifest :=
  (metadata.ProcessManifest NewDigest Digest_String FindManifestByDigest
     getManifestConfig GetTimeInMs GetSize
     RegistryRepository_GetByParentIDAndName TagStore_FindTag ManifestStore_Get
     DBManifestToManifest errors_Is_ErrNoRows).
Let GetDockerArtifactManifests :=
  (metadata.GetDockerArtifactManifests NewDigest Digest_String
     FindManifestByDigest getManifestConfig GetTimeInMs GetSize
     GetRegistryRequestBaseInfo SpaceStore_FindByRef CheckRegistry
     RegistryRepository_GetByParentIDAndName TagStore_GetLatestTagMetadata
     TagStore_FindTag ManifestStore_Get DBManifestToManifest
     errors_Is_ErrNoRows).

(** Every manifest that [ProcessManifest] lists carries the download count
    it was called with. *)
Lemma ProcessManifest_DownloadsCount regInfo image version count details :
  ProcessManifest regInfo image version count = Ok details →
  Forall (λ d, metadata.dmd_DownloadsCount d = Some count) details.
Proof.
  unfold ProcessManifest, metadata.ProcessManifest.
  destruct (RegistryRepository_GetByParentIDAndName _ _) as [registry [err|]];
    [done|].
  cbn [mbind outcome_bind].
  destruct registry as [registry|]; [|done]. cbn [metadata.deref mbind outcome_bind].
  destruct (TagStore_FindTag _ _ _) as [t err].
  destruct (match err with Some _ => _ | None => _ end); [|done..].
  cbn [mbind outcome_bind].
  destruct t as [t|]; [|done]. cbn [metadata.deref mbind outcome_bind].
  destruct (ManifestStore_Get _) as [m| |]; [|done..].
  cbn [mbind outcome_bind].
  destruct (DBManifestToManifest m) as [[c|c|manifests|]| |]; [| | | |done..];
    cbn [mbind outcome_bind].
  - destruct (getManifestConfig _ _); [|done..]. cbn [mbind outcome_bind].
    intros [= <-]. by repeat constructor.
  - destruct (getManifestConfig _ _); [|done..]. cbn [mbind outcome_bind].
    intros [= <-]. by repeat constructor.
  - unfold metadata.getManifestList. intros Hwalk.
    destruct (walkManifestList_Ok _ _ _ _ _ _ _ _ _ _ _ _ _ Hwalk)
      as (new & -> & Hnew & _).
    cbn [app]. clear -Hnew.
    induction Hnew as [|entry d ? ? (dgst & m & cfg & _ & _ & _ & ->) _ IH];
      by constructor.
  - by intros [= <-].
Qed.

(** X12.  A version that has no tag.  When the tag store answers the
    lookup of the version with no tag, and with no error or with the error
    "no rows", [ProcessManifest] goes on and reads the manifest id through
    the nil tag: the endpoint panics, whatever the manifest stores hold. *)
Theorem X12_version_without_tag session registryRef image version regInfo
    space meta registry err :
  GetRegistryRequestBaseInfo registryRef = Ok regInfo →
  SpaceStore_FindByRef (metadata.ParentRef regInfo) = Ok space →
  CheckRegistry session space (metadata.RegistryIdentifier regInfo)
    metadata.PermissionRegistryView = None →
  TagStore_GetLatestTagMetadata (metadata.parentID regInfo)
    (metadata.RegistryIdentifier regInfo) image = Ok meta →
  RegistryRepository_GetByParentIDAndName (metadata.parentID regInfo)
    (metadata.RegistryIdentifier regInfo) = (Some registry, None) →
  TagStore_FindTag (reg_ID registry) image version = (None, err) →
  (∀ e, err = Some e → errors_Is_ErrNoRows e = true) →
  GetDockerArtifactManifests session registryRef image version
  = Panic NilDereference.
Proof.
  intros Hbase Hspace Hcheck Hmeta Hreg Htag Hrows.
  unfold GetDockerArtifactManifests, metadata.GetDockerArtifactManifests.
  rewrite Hbase, Hspace, Hcheck, Hmeta.
  unfold metadata.ProcessManifest. rewrite Hreg.
  cbn [metadata.deref mbind outcome_bind]. rewrite Htag.
  destruct err as [e|]; [|done]. by rewrite (Hrows e eq_refl).
Qed.

(** X13.  The answers of the manifests endpoint.  No Go error is returned
    beside the response.  A 200 answer repeats the artifact and the
    version of the request, is given only after the view permission on the
    registry was granted, and every manifest in it carries the download
    count of the latest tag of the artifact, whatever the version asked
    for.  A 403 answer carries the error of the permission check. *)
Theorem X13_manifests_answers session registryRef image version :
  match GetDockerArtifactManifests session registryRef image version with
  | Ok (metadata.GetDockerArtifactManifests200JSONResponse imageName version'
          manifests) =>
      imageName = image ∧ version' = version ∧
      ∃ regInfo space meta,
        GetRegistryRequestBaseInfo registryRef = Ok regInfo ∧
        SpaceStore_FindByRef (metadata.ParentRef regInfo) = Ok space ∧
        CheckRegistry session space (metadata.RegistryIdentifier regInfo)
          metadata.PermissionRegistryView = None ∧
        TagStore_GetLatestTagMetadata (metadata.parentID regInfo)
          (metadata.RegistryIdentifier regInfo) image = Ok meta ∧
        Forall (λ d, metadata.dmd_DownloadsCount d
                     = Some (metadata.tm_DownloadCount meta)) manifests
  | Ok (metadata.GetDockerArtifactManifests403JSONResponse err) =>
      ∃ regInfo space,
        GetRegistryRequestBaseInfo registryRef = Ok regInfo ∧
        SpaceStore_FindByRef (metadata.ParentRef regInfo) = Ok space ∧
        CheckRegistry session space (metadata.RegistryIdentifier regInfo)
          metadata.PermissionRegistryView = Some err
  | Ok _ => True
  | Fail _ => False
  | Panic _ => True
  end.
Proof.
  unfold GetDockerArtifactManifests, metadata.GetDockerArtifactManifests.
  destruct (GetRegistryRequestBaseInfo _) as [regInfo| |]; [|done..].
  destruct (SpaceStore_FindByRef _) as [space| |] eqn:Hspace; [|done..].
  destruct (CheckRegistry _ _ _ _) as [err|] eqn:Hcheck; [by exists regInfo, space|].
  destruct (TagStore_GetLatestTagMetadata _ _ _) as [meta| |] eqn:Hmeta;
    [|done..].
  destruct (metadata.ProcessManifest _ _ _ _ _ _ _ _ _ _ _ _ _ _ _)
    as [details| |] eqn:Hprocess; [|done..].
  do 2 (split; [done|]). exists regInfo, space, meta.
  do 4 (split; [done|]).
  exact (ProcessManifest_DownloadsCount _ _ _ _ _ Hprocess).
Qed.

End ArtifactManifestsFacts.

(** X12 on the sample stores, which hold the tag [v1] only. *)
Lemma X12_version_without_tag_witness :
  Samples.GetDockerArtifactManifests (Some Samples.session) "root/reg"
    "alpine" "v9" = Panic NilDereference.
Proof.
  exact (X12_version_without_tag Samples.NewDigest (fun d => d)
           Samples.FindManifestByDigest Samples.getManifestConfig
           (fun _ => "0") (fun _ => "2KB")
           Samples.GetRegistryRequestBaseInfo Samples.SpaceStore_FindByRef
           Samples.CheckRegistry
           Samples.RegistryRepository_GetByParentIDAndName
           Samples.TagStore_GetLatestTagMetadata Samples.TagStore_FindTag
           Samples.ManifestStore_Get Samples.DBManifestToManifest
           Samples.errors_Is_ErrNoRows
           (Some Samples.session) "root/reg" "alpine" "v9" Samples.regInfo
           Samples.rootSpace (metadata.mkTagMetadata "v2" 42) Samples.reg
           (Some Samples.ErrNoRows)
           eq_refl eq_refl eq_refl eq_refl eq_refl eq_refl
           ltac:(by intros e [= <-])).
Defined.

Section ArtifactSummaryFacts.

Variable GetRegistryRequestBaseInfo :
  string -> outcome metadata.RegistryRequestBaseInfo.
Variable SpaceStore_FindByRef : string -> outcome Space.
Variable CheckRegistry :
  option metadata.Session -> Space -> string -> metadata.Permission ->
  option error.
Variable TagStore_GetTagMetadata :
  Z -> string -> string -> string -> outcome metadata.TagMetadata.
Variable TagStore_GetLatestTagName : Z -> string -> string -> string * option error.
Variable Summary : Type.
Variable buildArtifactVersionSummary :
  metadata.TagMetadata -> string -> bool -> Summary.

Let FetchArtifactSummary :=
  (metadata.FetchArtifactSummary GetRegistryRequestBaseInfo SpaceStore_FindByRef
     CheckRegistry TagStore_GetTagMetadata TagStore_GetLatestTagName).
Let GetArtifactVersionSummary :=
  (metadata.GetArtifactVersionSummary GetRegistryRequestBaseInfo
     SpaceStore_FindByRef CheckRegistry TagStore_GetTagMetadata
     TagStore_GetLatestTagName Summary buildArtifactVersionSummary).

(** X14.  The answers of the version-summary endpoint.  No Go error is
    returned beside the response: every error of the fetch is answered
    with 500, a refused view permission included, and a failure of the
    base info is wrapped.  A 200 answer is built from the metadata of the
    requested tag and from the comparison of the version with the name of
    the latest tag; the error of the latest-tag lookup is not looked
    at. *)
Theorem X14_summary_answers session registryRef image version :
  match GetArtifactVersionSummary session registryRef image version with
  | Ok (metadata.GetArtifactVersionSummary500JSONResponse _ err) =>
      FetchArtifactSummary session registryRef image version = Fail err ∧
      ((∃ cause,
          GetRegistryRequestBaseInfo registryRef = Fail cause ∧
          err = ErrorfW "failed to get registry request base info: %w" cause) ∨
       ∃ regInfo,
         GetRegistryRequestBaseInfo registryRef = Ok regInfo ∧
         (SpaceStore_FindByRef (metadata.ParentRef regInfo) = Fail err ∨
          ∃ space,
            SpaceStore_FindByRef (metadata.ParentRef regInfo) = Ok space ∧
            (CheckRegistry session space (metadata.RegistryIdentifier regInfo)
               metadata.PermissionRegistryView = Some err ∨
             TagStore_GetTagMetadata (metadata.parentID regInfo)
               (metadata.RegistryIdentifier regInfo) image version
             = Fail err)))
  | Ok (metadata.GetArtifactVersionSummary200JSONResponse _ summary) =>
      ∃ regInfo space tag,
        GetRegistryRequestBaseInfo registryRef = Ok regInfo ∧
        SpaceStore_FindByRef (metadata.ParentRef regInfo) = Ok space ∧
        CheckRegistry session space (metadata.RegistryIdentifier regInfo)
          metadata.PermissionRegistryView = None ∧
        TagStore_GetTagMetadata (metadata.parentID regInfo)
          (metadata.RegistryIdentifier regInfo) image version = Ok tag ∧
        summary
        = buildArtifactVersionSummary tag image
            (String.eqb
               (TagStore_GetLatestTagName (metadata.parentID regInfo)
                  (metadata.RegistryIdentifier regInfo) image).1
               version)
  | Fail _ => False
  | Panic _ => True
  end.
Proof.
  unfold GetArtifactVersionSummary, metadata.GetArtifactVersionSummary,
    FetchArtifactSummary, metadata.FetchArtifactSummary.
  destruct (GetRegistryRequestBaseInfo _) as [regInfo|cause|].
  - destruct (SpaceStore_FindByRef _) as [space|err|] eqn:Hspace;
      cbn [mbind outcome_bind].
    + destruct (CheckRegistry _ _ _ _) as [err|] eqn:Hcheck.
      * split; [done|]. right. exists regInfo. split; [done|]. right.
        exists space. split; [done|]. by left.
      * destruct (TagStore_GetTagMetadata _ _ _ _) as [tag|err|] eqn:Htag;
          cbn [mbind outcome_bind].
        -- destruct (TagStore_GetLatestTagName _ _ _) as [latestTag err2]
             eqn:Hlatest.
           exists regInfo, space, tag. by rewrite Hlatest.
        -- split; [done|]. right. exists regInfo. split; [done|]. right.
           exists space. split; [done|]. by right.
        -- done.
    + split; [done|]. right. exists regInfo. split; [done|]. by left.
    + done.
  - split; [done|]. left. by exists cause.
  - done.
Qed.

End ArtifactSummaryFacts.

Section ClientSetupEndpointFacts.

Variable DisectRoot : string -> string * string.
Variable DisectLeaf : string -> string * string.
Variable RegistryURL : string -> string.
Variable TrimURLScheme : string -> string.
Variable GetHost : string -> string.
Variable GetRegistryRequestBaseInfo :
  string -> option metadata.RegistryRequestBaseInfo * option error.
Variable SpaceStore_FindByRef : string -> outcome Space.
Variable CheckRegistry :
  option metadata.Session -> Space -> string -> metadata.Permission ->
  option error.
Variable RegistryRepository_GetByParentIDAndName :
  Z -> string -> option Registry * option error.

Let GetClientSetupDetails :=
  (metadata.GetClientSetupDetails DisectRoot DisectLeaf RegistryURL
     TrimURLScheme GetHost GetRegistryRequestBaseInfo SpaceStore_FindByRef
     CheckRegistry RegistryRepository_GetByParentIDAndName).

(** X15.  The answers of the client setup endpoint.  A Go error is
    returned beside the response exactly with a 404 answer, whose message
    names the registry, the image or the tag as missing.  A 200 answer is
    given only to a request with a session, after the view permission was
    granted, and holds the instructions of the package type of the
    registry for the reference of the base info. *)
Theorem X15_client_setup_answers ImageStore_GetByName TagStore_FindTag session
    regRefParam imageParam tagParam :
  match GetClientSetupDetails ImageStore_GetByName TagStore_FindTag session
          regRefParam imageParam tagParam with
  | Ok (metadata.GetClientSetupDetails404JSONResponse message, err) =>
      err ≠ None ∧
      message ∈ ["registry doesn't exist with this ref"; "image doesn't exist";
                 "tag doesn't exist"]
  | Ok (metadata.GetClientSetupDetails200JSONResponse details heap, err) =>
      err = None ∧
      ∃ regInfo space reg,
        (GetRegistryRequestBaseInfo regRefParam).1 = Some regInfo ∧
        SpaceStore_FindByRef (metadata.ParentRef regInfo) = Ok space ∧
        CheckRegistry session space (metadata.RegistryIdentifier regInfo)
          metadata.PermissionRegistryView = None ∧
        RegistryRepository_GetByParentIDAndName (metadata.parentID regInfo)
          (metadata.RegistryIdentifier regInfo) = (Some reg, None) ∧
        session ≠ None ∧
        metadata.GenerateClientSetupDetails DisectRoot DisectLeaf RegistryURL
          TrimURLScheme GetHost session (reg_PackageType reg) imageParam
          tagParam (metadata.RegistryRef regInfo) = Ok (details, heap)
  | Ok (_, err) => err = None
  | Fail _ => False
  | Panic _ => True
  end.
Proof.
  unfold GetClientSetupDetails, metadata.GetClientSetupDetails.
  destruct (GetRegistryRequestBaseInfo _) as [[regInfo|] baseErr] eqn:Hbase;
    [|done].
  cbn [metadata.deref mbind outcome_bind].
  destruct (SpaceStore_FindByRef _) as [space| |] eqn:Hspace; [|done..].
  destruct (CheckRegistry _ _ _ _) as [err|] eqn:Hcheck; [done|].
  destruct (RegistryRepository_GetByParentIDAndName _ _) as [reg [err|]] eqn:Hreg.
  { split; [done | in_list]. }
  destruct reg as [reg|]; [|done]. cbn [metadata.deref mbind outcome_bind].
  assert (Hgenerate :
    match
      generated ← metadata.GenerateClientSetupDetails DisectRoot DisectLeaf
                    RegistryURL TrimURLScheme GetHost session
                    (reg_PackageType reg) imageParam tagParam
                    (metadata.RegistryRef regInfo);
      Ok (metadata.GetClientSetupDetails200JSONResponse generated.1
            generated.2, None (A:=error))
    with
    | Ok (metadata.GetClientSetupDetails200JSONResponse details heap, err) =>
        err = None ∧ session ≠ None ∧
        metadata.GenerateClientSetupDetails DisectRoot DisectLeaf RegistryURL
          TrimURLScheme GetHost session (reg_PackageType reg) imageParam
          tagParam (metadata.RegistryRef regInfo) = Ok (details, heap)
    | Ok _ => False
    | Fail _ => False
    | Panic _ => True
    end).
  { destruct session as [s|]; [|done].
    pose proof (GenerateClientSetupDetails_substituted DisectRoot DisectLeaf
                  RegistryURL TrimURLScheme GetHost s (reg_PackageType reg)
                  imageParam tagParam (metadata.RegistryRef regInfo)) as Hgen.
    cbv zeta in Hgen.
    destruct (metadata.GenerateClientSetupDetails _ _ _ _ _ _ _ _ _ _)
      as [[details heap]| |]; [|done..].
    by cbn. }
  assert (Hanswer : ∀ (o : outcome (metadata.GetClientSetupDetailsResponse
                                     * option error)),
    match o with
    | Ok (metadata.GetClientSetupDetails200JSONResponse details heap, err) =>
        err = None ∧ session ≠ None ∧
        metadata.GenerateClientSetupDetails DisectRoot DisectLeaf RegistryURL
          TrimURLScheme GetHost session (reg_PackageType reg) imageParam
          tagParam (metadata.RegistryRef regInfo) = Ok (details, heap)
    | Ok _ => False
    | Fail _ => False
    | Panic _ => True
    end →
    match o with
    | Ok (metadata.GetClientSetupDetails404JSONResponse message, err) =>
        err ≠ None ∧
        message ∈ ["registry doesn't exist with this ref";
                   "image doesn't exist"; "tag doesn't exist"]
    | Ok (metadata.GetClientSetupDetails200JSONResponse details heap, err) =>
        err = None ∧
        ∃ regInfo' space' reg',
          (Some regInfo, baseErr).1 = Some regInfo' ∧
          SpaceStore_FindByRef (metadata.ParentRef regInfo') = Ok space' ∧
          CheckRegistry session space' (metadata.RegistryIdentifier regInfo')
            metadata.PermissionRegistryView = None ∧
          RegistryRepository_GetByParentIDAndName (metadata.parentID regInfo')
            (metadata.RegistryIdentifier regInfo') = (Some reg', None) ∧
          session ≠ None ∧
          metadata.GenerateClientSetupDetails DisectRoot DisectLeaf RegistryURL
            TrimURLScheme GetHost session (reg_PackageType reg') imageParam
            tagParam (metadata.RegistryRef regInfo') = Ok (details, heap)
    | Ok (_, err) => err = None
    | Fail _ => False
    | Panic _ => True
    end).
  { intros [[[] goErr]| |]; try done.
    intros (-> & Hsession & Hgen). split; [done|].
    by exists regInfo, space, reg. }
  destruct imageParam as [image|]; [|by apply Hanswer].
  destruct (ImageStore_GetByName _ _); [split; [done | in_list]|].
  destruct tagParam as [tag|]; [|by apply Hanswer].
  destruct (TagStore_FindTag _ _ _); [split; [done | in_list]|].
  by apply Hanswer.
Qed.

(** X16.  A version without an artifact is not checked.  For a request
    with a session that names no artifact, once the registry is found and
    the view permission granted, the answer is 200 whatever the image and
    tag stores hold, also when a version is given: the instructions of
    the package type of the registry are emitted with that version in
    place of the tag token and the image token left as it is. *)
Theorem X16_client_setup_version_unchecked ImageStore_GetByName
    TagStore_FindTag s regRefParam tagParam regInfo baseErr space reg :
  GetRegistryRequestBaseInfo regRefParam = (Some regInfo, baseErr) →
  SpaceStore_FindByRef (metadata.ParentRef regInfo) = Ok space →
  CheckRegistry (Some s) space (metadata.RegistryIdentifier regInfo)
    metadata.PermissionRegistryView = None →
  RegistryRepository_GetByParentIDAndName (metadata.parentID regInfo)
    (metadata.RegistryIdentifier regInfo) = (Some reg, None) →
  let username := metadata.principal_Email (metadata.session_Principal s) in
  let hostname :=
    TrimURLScheme (RegistryURL (DisectRoot (metadata.RegistryRef regInfo)).1) in
  let repoName := (DisectLeaf (metadata.RegistryRef regInfo)).2 in
  ∃ details heap,
    GetClientSetupDetails ImageStore_GetByName TagStore_FindTag (Some s)
      regRefParam None tagParam
    = Ok (metadata.GetClientSetupDetails200JSONResponse details heap, None) ∧
    metadata.emittedCommands (details, heap)
    = substituteCommand
        (placeholderValues username hostname (GetHost hostname) repoName None
           tagParam) <$>
        instructions (reg_PackageType reg) "<USERNAME>" "<HOSTNAME>"
          "<LOGIN_HOSTNAME>" "<REGISTRY_NAME>" "<IMAGE_NAME>" "<TAG>".
Proof.
  intros Hbase Hspace Hcheck Hreg username hostname repoName.
  unfold GetClientSetupDetails, metadata.GetClientSetupDetails.
  rewrite Hbase. cbn [metadata.deref mbind outcome_bind].
  rewrite Hspace, Hcheck, Hreg. cbn [metadata.deref mbind outcome_bind].
  pose proof (GenerateClientSetupDetails_substituted DisectRoot DisectLeaf
                RegistryURL TrimURLScheme GetHost s (reg_PackageType reg)
                None tagParam (metadata.RegistryRef regInfo)) as Hgen.
  cbv zeta in Hgen. fold username hostname repoName in Hgen.
  destruct (metadata.GenerateClientSetupDetails _ _ _ _ _ _ _ _ _ _)
    as [[details heap]| |]; [|done..].
  destruct Hgen as (_ & _ & Hcommands).
  by exists details, heap.
Qed.

(** X17.  The base info is read without its error.  When the lookup of
    the base info gives no base info, the endpoint reads the parent
    reference through the nil pointer and panics: it answers neither 400
    nor 404. *)
Theorem X17_client_setup_without_base_info ImageStore_GetByName
    TagStore_FindTag session regRefParam imageParam tagParam :
  (GetRegistryRequestBaseInfo regRefParam).1 = None →
  GetClientSetupDetails ImageStore_GetByName TagStore_FindTag session
    regRefParam imageParam tagParam
  = Panic NilDereference.
Proof.
  unfold GetClientSetupDetails, metadata.GetClientSetupDetails.
  by destruct (GetRegistryRequestBaseInfo _) as [[regInfo|] baseErr].
Qed.

End ClientSetupEndpointFacts.

(** X17 on a reference that the sample stores do not know. *)
Lemma X17_client_setup_without_base_info_witness :
  Samples.GetClientSetupDetails (Some Samples.session) "root/nowhere" None
    None = Panic NilDereference.
Proof.
  exact (X17_client_setup_without_base_info Samples.DisectRoot
           Samples.DisectLeaf Samples.RegistryURL Samples.TrimURLScheme
           Samples.GetHost Samples.GetRegistryRequestBaseInfoPtr
           Samples.SpaceStore_FindByRef Samples.CheckRegistry
           Samples.RegistryRepository_GetByParentIDAndName
           Samples.ImageStore_GetByName
           (fun registryID image tag =>
              (Samples.TagStore_FindTag registryID image tag).2)
           (Some Samples.session) "root/nowhere" None None eq_refl).
Defined.

(** X16 on the sample stores, for a version that no tag has. *)
Lemma X16_client_setup_version_unchecked_witness :
  ∃ details heap,
    Samples.GetClientSetupDetails (Some Samples.session) "root/reg" None
      (Some "v9")
    = Ok (metadata.GetClientSetupDetails200JSONResponse details heap, None) ∧
    metadata.emittedCommands (details, heap)
    = substituteCommand
        (placeholderValues "dev@example.io" "pkg.example.io/root"
           "pkg.example.io" "reg" None (Some "v9")) <$>
        instructions "DOCKER" "<USERNAME>" "<HOSTNAME>" "<LOGIN_HOSTNAME>"
          "<REGISTRY_NAME>" "<IMAGE_NAME>" "<TAG>".
Proof.
  exact (X16_client_setup_version_unchecked Samples.DisectRoot
           Samples.DisectLeaf Samples.RegistryURL Samples.TrimURLScheme
           Samples.GetHost Samples.GetRegistryRequestBaseInfoPtr
           Samples.SpaceStore_FindByRef Samples.CheckRegistry
           Samples.RegistryRepository_GetByParentIDAndName
           Samples.ImageStore_GetByName
           (fun registryID image tag =>
              (Samples.TagStore_FindTag registryID image tag).2)
           Samples.session "root/reg" (Some "v9") Samples.regInfo None
           Samples.rootSpace Samples.reg eq_refl eq_refl eq_refl eq_refl).
Defined.

Section DeleteAnswers.

Variable fails : metadata.StoreWrite -> option error.
Variable GetRegistryRequestBaseInfo :
  metadata.DB -> string -> outcome metadata.RegistryRequestBaseInfo.
Variable SpaceStore_FindByRef : metadata.DB -> string -> outcome Space.
Variable SpaceStore_Find : metadata.DB -> Z -> outcome Space.
Variable CheckRegistry :
  option metadata.Session -> Space -> string -> option error.
Variable RegistryRepository_GetByParentIDAndName :
  metadata.DB -> Z -> string -> option Registry * option error.
Variable RegistryRepository_Get : metadata.DB -> Z -> outcome Registry.
Variable FetchUpstreamProxyIDs :
  metadata.DB -> list string -> Z -> outcome (list Z).
Variable FetchRegistriesIDByUpstreamProxyID :
  metadata.DB -> string -> Z -> outcome (list Z).
Variable FormatInt : Z -> string.

Let DeleteRegistry :=
  (metadata.DeleteRegistry fails GetRegistryRequestBaseInfo
     SpaceStore_FindByRef SpaceStore_Find CheckRegistry
     RegistryRepository_GetByParentIDAndName RegistryRepository_Get
     FetchUpstreamProxyIDs FetchRegistriesIDByUpstreamProxyID FormatInt).
Let deleteUpstreamProxyWithAudit :=
  (metadata.deleteUpstreamProxyWithAudit fails SpaceStore_Find
     RegistryRepository_Get FetchUpstreamProxyIDs
     FetchRegistriesIDByUpstreamProxyID FormatInt).

(** X18.  The answers of the delete endpoint, each with the Go error
    beside it and with what in the stores it answers to.  400 reports the
    error of the base info or of the space lookup, 403 the error of the
    permission check, both with that error beside them.  404, with no
    error, answers a registry whose name is empty, whatever the lookup's
    error.  500 with its error beside it reports the error of the registry
    lookup.  Those four leave the database as it was.  500 with no error
    beside it reports the error with which [deleteRegistryWithAudit] or,
    outside a virtual registry, [deleteUpstreamProxyWithAudit] failed,
    wrapped as a failure to delete the registry or the upstream proxy.
    200, with no error, commits what the deletion of the registry left.
    No other answer is given. *)
Theorem X18_delete_answers session registryRef db :
  match DeleteRegistry session registryRef db with
  | (Ok (metadata.DeleteRegistry400JSONResponse err, goErr), db') =>
      goErr = Some err ∧ db' = db ∧
      (GetRegistryRequestBaseInfo db registryRef = Fail err ∨
       ∃ regInfo,
         GetRegistryRequestBaseInfo db registryRef = Ok regInfo ∧
         SpaceStore_FindByRef db (metadata.ParentRef regInfo) = Fail err)
  | (Ok (metadata.DeleteRegistry403JSONResponse err, goErr), db') =>
      goErr = Some err ∧ db' = db ∧
      ∃ regInfo space,
        GetRegistryRequestBaseInfo db registryRef = Ok regInfo ∧
        SpaceStore_FindByRef db (metadata.ParentRef regInfo) = Ok space ∧
        CheckRegistry session space (metadata.RegistryIdentifier regInfo)
        = Some err
  | (Ok (metadata.DeleteRegistry404JSONResponse message, goErr), db') =>
      goErr = None ∧ db' = db ∧
      message = "registry doesn't exist with this key" ∧
      ∃ regInfo repoEntity lookupErr,
        GetRegistryRequestBaseInfo db registryRef = Ok regInfo ∧
        RegistryRepository_GetByParentIDAndName db (metadata.parentID regInfo)
          (metadata.RegistryIdentifier regInfo)
        = (Some repoEntity, lookupErr) ∧
        reg_Name repoEntity = ""
  | (Ok (metadata.DeleteRegistry500JSONResponse err, Some goErr), db') =>
      goErr = err ∧ db' = db ∧
      ∃ regInfo repoEntity,
        GetRegistryRequestBaseInfo db registryRef = Ok regInfo ∧
        RegistryRepository_GetByParentIDAndName db (metadata.parentID regInfo)
          (metadata.RegistryIdentifier regInfo)
        = (Some repoEntity, Some err) ∧
        reg_Name repoEntity ≠ ""
  | (Ok (metadata.DeleteRegistry500JSONResponse err, None), db') =>
      ∃ regInfo repoEntity s cause,
        GetRegistryRequestBaseInfo db registryRef = Ok regInfo ∧
        RegistryRepository_GetByParentIDAndName db (metadata.parentID regInfo)
          (metadata.RegistryIdentifier regInfo) = (Some repoEntity, None) ∧
        session = Some s ∧
        ((reg_Type repoEntity = VIRTUAL ∧
          (metadata.deleteRegistryWithAudit fails regInfo repoEntity
             (metadata.session_Principal s) (metadata.ParentRef regInfo) db).1
          = Fail cause ∧
          err = ErrorfW "failed to delete registry: %w" cause) ∨
         (reg_Type repoEntity ≠ VIRTUAL ∧
          (deleteUpstreamProxyWithAudit regInfo (metadata.session_Principal s)
             (metadata.ParentRef regInfo) (reg_Name repoEntity) db).1
          = Fail cause ∧
          err = ErrorfW "failed to delete upstream proxy: %w" cause) ∨
         (reg_Type repoEntity ≠ VIRTUAL ∧
          ∃ db0,
            deleteUpstreamProxyWithAudit regInfo (metadata.session_Principal s)
              (metadata.ParentRef regInfo) (reg_Name repoEntity) db
            = (Ok tt, db0) ∧
            (metadata.deleteRegistryWithAudit fails regInfo repoEntity
               (metadata.session_Principal s) (metadata.ParentRef regInfo)
               db0).1 = Fail cause ∧
            err = ErrorfW "failed to delete registry: %w" cause))
  | (Ok (metadata.DeleteRegistry200JSONResponse, goErr), db') =>
      goErr = None ∧
      ∃ regInfo repoEntity s db0,
        GetRegistryRequestBaseInfo db registryRef = Ok regInfo ∧
        RegistryRepository_GetByParentIDAndName db (metadata.parentID regInfo)
          (metadata.RegistryIdentifier regInfo) = (Some repoEntity, None) ∧
        session = Some s ∧
        (reg_Type repoEntity = VIRTUAL ∧ db0 = db ∨
         reg_Type repoEntity ≠ VIRTUAL ∧
         deleteUpstreamProxyWithAudit regInfo (metadata.session_Principal s)
           (metadata.ParentRef regInfo) (reg_Name repoEntity) db
         = (Ok tt, db0)) ∧
        metadata.deleteRegistryWithAudit fails regInfo repoEntity
          (metadata.session_Principal s) (metadata.ParentRef regInfo) db0
        = (Ok tt, db')
  | (Fail _, _) => False
  | (Panic _, _) => True
  end.
Proof.
  unfold DeleteRegistry, metadata.DeleteRegistry.
  destruct (GetRegistryRequestBaseInfo db registryRef) as [regInfo|err|];
    [|by repeat split; left|done].
  destruct (SpaceStore_FindByRef db _) as [space|err|] eqn:Hspace;
    [|by repeat split; right; exists regInfo|done].
  destruct (CheckRegistry session space _) as [err|] eqn:Hcheck;
    [by repeat split; exists regInfo, space|].
  destruct (RegistryRepository_GetByParentIDAndName db _ _)
    as [[repoEntity|] err] eqn:Hentity; [|done].
  destruct (Z.eqb_spec (Z.of_nat (String.length (reg_Name repoEntity))) 0)
    as [Hzero|Hname].
  { do 3 (split; [done|]). exists regInfo, repoEntity, err.
    do 2 (split; [done|]).
    destruct (reg_Name repoEntity); [done | cbn in Hzero; lia]. }
  assert (Hnonempty : reg_Name repoEntity ≠ "").
  { intros Hempty. by rewrite Hempty in Hname. }
  destruct err as [err|]; [by repeat split; exists regInfo, repoEntity|].
  destruct (RegistryType_eqb (reg_Type repoEntity) VIRTUAL) eqn:Htype.
  - assert (Hvirtual : reg_Type repoEntity = VIRTUAL)
      by by destruct (reg_Type repoEntity).
    pose proof (registryTransaction_cases fails regInfo repoEntity session db)
      as Hcases.
    destruct (metadata.WithTx _ db) as [[[]|err|p] db']; [| |done].
    + destruct Hcases as (s & -> & Hrun). split; [done|].
      exists regInfo, repoEntity, s, db. do 3 (split; [done|]).
      split; [by left | done].
    + destruct Hcases as (s & cause & -> & Hrun & ->).
      exists regInfo, repoEntity, s, cause. do 3 (split; [done|]). by left.
  - assert (Hother : reg_Type repoEntity ≠ VIRTUAL)
      by (intros Hvirtual; by rewrite Hvirtual in Htype).
    pose proof (proxyTransaction_cases fails SpaceStore_Find
                  RegistryRepository_Get FetchUpstreamProxyIDs
                  FetchRegistriesIDByUpstreamProxyID FormatInt regInfo
                  repoEntity session db) as Hcases.
    destruct (metadata.WithTx _ db) as [[[]|err|p] db']; [| |done].
    + destruct Hcases as (s & db0 & -> & Hproxy & Hrun). split; [done|].
      exists regInfo, repoEntity, s, db0. do 3 (split; [done|]).
      split; [by right | done].
    + destruct Hcases
        as (s & cause & -> & [[Hproxy ->] | (db0 & Hproxy & Hrun & ->)]);
        exists regInfo, repoEntity, s, cause; (do 3 (split; [done|]));
        right; [by left | right; split; [done|]; by exists db0].
Qed.

End DeleteAnswers.

(** ** The audit log has no say *)

Lemma sameTables_refl db : sameTables db db.
Proof. by repeat split. Qed.

Lemma alike_pure {A} (o : outcome A) : alike (metadata.pure o) (metadata.pure o).
Proof. by intros db1 db2 H. Qed.

Lemma alike_bind {A B} (m1 m2 : metadata.Tx A) (f1 f2 : A → metadata.Tx B) :
  alike m1 m2 → (∀ a, alike (f1 a) (f2 a)) → alike (m1 ≫= f1) (m2 ≫= f2).
Proof.
  intros Hm Hf db1 db2 Hdb. unfold mbind, metadata.Tx_bind.
  destruct (Hm db1 db2 Hdb) as [Hout Hdb'].
  destruct (m1 db1) as [o1 db1'], (m2 db2) as [o2 db2'].
  cbn [fst snd] in Hout, Hdb'. subst o2.
  destruct o1 as [a| |]; [by apply Hf | done..].
Qed.

Lemma alike_wrap {A} format (m1 m2 : metadata.Tx A) :
  alike m1 m2 → alike (metadata.wrap format m1) (metadata.wrap format m2).
Proof.
  intros Hm db1 db2 Hdb. unfold metadata.wrap.
  destruct (Hm db1 db2 Hdb) as [Hout Hdb'].
  destruct (m1 db1) as [o1 db1'], (m2 db2) as [o2 db2'].
  cbn [fst snd] in Hout, Hdb'. subst o2. by destruct o1.
Qed.

Lemma alike_WithTx (f1 f2 : metadata.Tx unit) :
  alike f1 f2 → alike (metadata.WithTx f1) (metadata.WithTx f2).
Proof.
  intros Hf db1 db2 Hdb. unfold metadata.WithTx.
  destruct (Hf db1 db2 Hdb) as [Hout Hdb'].
  destruct (f1 db1) as [o1 db1'], (f2 db2) as [o2 db2'].
  cbn [fst snd] in Hout, Hdb'. subst o2. by destruct o1 as [[]| |].
Qed.

Lemma alike_AuditLog fails1 fails2 resourceType name action scope :
  alike (metadata.AuditLog fails1 resourceType name action scope)
        (metadata.AuditLog fails2 resourceType name action scope).
Proof.
  intros db1 db2 Hdb. unfold metadata.AuditLog.
  by destruct (fails1 _), (fails2 _).
Qed.

Lemma alike_principalOf session :
  alike (metadata.principalOf session) (metadata.principalOf session).
Proof. destruct session; apply alike_pure. Qed.

(** Steps that write nothing. *)
Lemma reads_wrap {A} format (m : metadata.Tx A) db :
  (m db).2 = db → (metadata.wrap format m db).2 = db.
Proof. unfold metadata.wrap. by destruct (m db) as [[a| |] db']. Qed.

Lemma reads_bind {A B} (m : metadata.Tx A) (f : A → metadata.Tx B) db :
  (m db).2 = db → (∀ a, (f a db).2 = db) → ((m ≫= f) db).2 = db.
Proof.
  intros Hm Hf. unfold mbind, metadata.Tx_bind.
  destruct (m db) as [[a| |] db']; cbn [snd] in Hm; subst db'; [apply Hf|done..].
Qed.

(** After a step that writes nothing, two continuations that end alike
    make two computations that end alike. *)
Lemma same_after_reading {A B} (m : metadata.Tx A) (f1 f2 : A → metadata.Tx B)
    db :
  (m db).2 = db →
  (∀ a, (f1 a db).1 = (f2 a db).1 ∧ sameTables (f1 a db).2 (f2 a db).2) →
  ((m ≫= f1) db).1 = ((m ≫= f2) db).1 ∧
  sameTables ((m ≫= f1) db).2 ((m ≫= f2) db).2.
Proof.
  intros Hm Hf. unfold mbind, metadata.Tx_bind.
  destruct (m db) as [[a| |] db']; cbn [snd] in Hm; subst db';
    [apply Hf | by split; [|apply sameTables_refl]..].
Qed.

(** The same from one database, for two first steps that end alike. *)
Lemma same_wrap {A} format (m1 m2 : metadata.Tx A) db :
  (m1 db).1 = (m2 db).1 ∧ sameTables (m1 db).2 (m2 db).2 →
  (metadata.wrap format m1 db).1 = (metadata.wrap format m2 db).1 ∧
  sameTables (metadata.wrap format m1 db).2 (metadata.wrap format m2 db).2.
Proof.
  intros [Hout Htables]. unfold metadata.wrap.
  destruct (m1 db) as [o1 db1], (m2 db) as [o2 db2].
  cbn [fst snd] in Hout, Htables. subst o2. by destruct o1.
Qed.

Lemma same_bind {A B} (m1 m2 : metadata.Tx A) (f1 f2 : A → metadata.Tx B) db :
  (m1 db).1 = (m2 db).1 ∧ sameTables (m1 db).2 (m2 db).2 →
  (∀ a, alike (f1 a) (f2 a)) →
  ((m1 ≫= f1) db).1 = ((m2 ≫= f2) db).1 ∧
  sameTables ((m1 ≫= f1) db).2 ((m2 ≫= f2) db).2.
Proof.
  intros [Hout Htables] Hf. unfold mbind, metadata.Tx_bind.
  destruct (m1 db) as [o1 db1], (m2 db) as [o2 db2].
  cbn [fst snd] in Hout, Htables. subst o2.
  destruct o1 as [a| |]; [by apply Hf | done..].
Qed.

Section AuditFacts.

Variable fails1 fails2 : metadata.StoreWrite -> option error.
Variable GetRegistryRequestBaseInfo :
  metadata.DB -> string -> outcome metadata.RegistryRequestBaseInfo.
Variable SpaceStore_FindByRef : metadata.DB -> string -> outcome Space.
Variable SpaceStore_Find : metadata.DB -> Z -> outcome Space.
Variable CheckRegistry :
  option metadata.Session -> Space -> string -> option error.
Variable RegistryRepository_GetByParentIDAndName :
  metadata.DB -> Z -> string -> option Registry * option error.
Variable RegistryRepository_Get : metadata.DB -> Z -> outcome Registry.
Variable FetchUpstreamProxyIDs :
  metadata.DB -> list string -> Z -> outcome (list Z).
Variable FetchRegistriesIDByUpstreamProxyID :
  metadata.DB -> string -> Z -> outcome (list Z).
Variable FormatInt : Z -> string.

(** The two environments differ in the audit service at most. *)
Hypothesis agree :
  ∀ c, (∀ resourceType name, c ≠ metadata.AuditService_Log resourceType name) →
       fails1 c = fails2 c.

Lemma alike_write c effect :
  (∀ resourceType name, c ≠ metadata.AuditService_Log resourceType name) →
  (∀ db1 db2, sameTables db1 db2 → sameTables (effect db1) (effect db2)) →
  alike (metadata.write fails1 c effect) (metadata.write fails2 c effect).
Proof.
  intros Hc Heffect db1 db2 Hdb. unfold metadata.write.
  rewrite (agree c Hc). destruct (fails2 c); [done|].
  split; [done | by apply Heffect].
Qed.

Lemma alike_deleteRegistryWithAudit regInfo registry principal parentRef :
  alike (metadata.deleteRegistryWithAudit fails1 regInfo registry principal
           parentRef)
        (metadata.deleteRegistryWithAudit fails2 regInfo registry principal
           parentRef).
Proof.
  unfold metadata.deleteRegistryWithAudit,
    metadata.DeleteDownloadStatByRegistryID,
    metadata.DeleteBandwidthStatByRegistryID, metadata.DeleteByRegistryID,
    metadata.RegistryDelete.
  repeat first
    [ apply alike_bind; [|intros ?]
    | apply alike_AuditLog
    | apply alike_pure
    | apply alike_write;
        [ done
        | intros [] [] (H1 & H2 & H3 & H4 & H5 & H6 & H7);
          cbn in *; subst; by repeat split ] ].
Qed.

(** The deletion of an upstream proxy, whose queries read the database
    it starts from. *)
Lemma alike_deleteUpstreamProxyWithAudit regInfo principal parentRef
    registryName db :
  (metadata.deleteUpstreamProxyWithAudit fails1 SpaceStore_Find
     RegistryRepository_Get FetchUpstreamProxyIDs
     FetchRegistriesIDByUpstreamProxyID FormatInt regInfo principal parentRef
     registryName db).1
  = (metadata.deleteUpstreamProxyWithAudit fails2 SpaceStore_Find
       RegistryRepository_Get FetchUpstreamProxyIDs
       FetchRegistriesIDByUpstreamProxyID FormatInt regInfo principal parentRef
       registryName db).1 ∧
  sameTables
    (metadata.deleteUpstreamProxyWithAudit fails1 SpaceStore_Find
       RegistryRepository_Get FetchUpstreamProxyIDs
       FetchRegistriesIDByUpstreamProxyID FormatInt regInfo principal parentRef
       registryName db).2
    (metadata.deleteUpstreamProxyWithAudit fails2 SpaceStore_Find
       RegistryRepository_Get FetchUpstreamProxyIDs
       FetchRegistriesIDByUpstreamProxyID FormatInt regInfo principal parentRef
       registryName db).2.
Proof.
  unfold metadata.deleteUpstreamProxyWithAudit.
  assert (Hrest : alike
    (_ ← metadata.UpstreamProxyDelete fails1 (metadata.parentID regInfo)
           (metadata.RegistryIdentifier regInfo);
     _ ← metadata.AuditLog fails1 metadata.ResourceTypeRegistryUpstreamProxy
           registryName metadata.ActionDeleted parentRef;
     metadata.pure (Ok tt))
    (_ ← metadata.UpstreamProxyDelete fails2 (metadata.parentID regInfo)
           (metadata.RegistryIdentifier regInfo);
     _ ← metadata.AuditLog fails2 metadata.ResourceTypeRegistryUpstreamProxy
           registryName metadata.ActionDeleted parentRef;
     metadata.pure (Ok tt))).
  { unfold metadata.UpstreamProxyDelete.
    repeat first
      [ apply alike_bind; [|intros ?]
      | apply alike_AuditLog
      | apply alike_pure
      | apply alike_write;
          [ done
          | intros [] [] (H1 & H2 & H3 & H4 & H5 & H6 & H7);
            cbn in *; subst; by repeat split ] ]. }
  specialize (Hrest db db (sameTables_refl db)).
  apply same_after_reading; [by apply reads_wrap|]. intros upstreamProxies.
  apply same_after_reading; [|by intros _].
  destruct (0 <? len upstreamProxies); [|done].
  apply reads_bind; [done|]. intros first.
  apply reads_bind; [by apply reads_wrap|]. intros registryIDs.
  destruct (0 <? len registryIDs); [|done].
  apply reads_bind; [done|]. intros registryID.
  apply reads_bind; [by apply reads_wrap|]. intros registry.
  apply reads_bind; [by apply reads_wrap|]. by intros spaceDetails.
Qed.

(** X19.  The audit service has no say in a deletion.  Two runs of the
    delete endpoint from the same database, in which the store writes
    fail alike and the audit service may fail in one and not in the other,
    give the same answer and leave the same rows in every table; the
    audit log alone can differ. *)
Theorem X19_audit_failure_ignored session registryRef db :
  let DeleteRegistry fails :=
    metadata.DeleteRegistry fails GetRegistryRequestBaseInfo
      SpaceStore_FindByRef SpaceStore_Find CheckRegistry
      RegistryRepository_GetByParentIDAndName RegistryRepository_Get
      FetchUpstreamProxyIDs FetchRegistriesIDByUpstreamProxyID FormatInt
      session registryRef db in
  (DeleteRegistry fails1).1 = (DeleteRegistry fails2).1 ∧
  sameTables (DeleteRegistry fails1).2 (DeleteRegistry fails2).2.
Proof.
  cbv zeta. unfold metadata.DeleteRegistry.
  destruct (GetRegistryRequestBaseInfo db registryRef) as [regInfo| |];
    [|by split; [|apply sameTables_refl]..].
  destruct (SpaceStore_FindByRef db _) as [space| |];
    [|by split; [|apply sameTables_refl]..].
  destruct (CheckRegistry session space _);
    [by split; [|apply sameTables_refl]|].
  destruct (RegistryRepository_GetByParentIDAndName db _ _)
    as [[repoEntity|] err]; [|by split; [|apply sameTables_refl]].
  destruct (_ =? 0); [by split; [|apply sameTables_refl]|].
  destruct err; [by split; [|apply sameTables_refl]|].
  match goal with
  | |- context [(if ?b then ?f1 else ?g1) db] =>
      match goal with
      | |- _ = (match (if b then ?f2 else ?g2) db with _ => _ end).1 ∧ _ =>
          set (transaction1 := if b then f1 else g1);
          set (transaction2 := if b then f2 else g2);
          assert (Ht : (transaction1 db).1 = (transaction2 db).1 ∧
                       sameTables (transaction1 db).2 (transaction2 db).2)
      end
  end.
  { subst transaction1 transaction2.
    destruct (RegistryType_eqb _ _).
    - apply alike_WithTx; [|apply sameTables_refl].
      apply alike_bind; [apply alike_principalOf|]. intros principal.
      apply alike_wrap, alike_deleteRegistryWithAudit.
    - unfold metadata.WithTx.
      match goal with
      | |- (match ?m1 db with _ => _ end).1 = (match ?m2 db with _ => _ end).1 ∧ _ =>
          assert (Hm : (m1 db).1 = (m2 db).1 ∧ sameTables (m1 db).2 (m2 db).2)
      end.
      { apply same_after_reading; [by destruct session|]. intros principal.
        apply same_bind;
          [apply same_wrap, alike_deleteUpstreamProxyWithAudit|]. intros _.
        apply alike_bind; [apply alike_principalOf|]. intros principal'.
        apply alike_wrap, alike_deleteRegistryWithAudit. }
      destruct Hm as [Hout Htables].
      match goal with
      | |- (match ?m1 db with _ => _ end).1 = (match ?m2 db with _ => _ end).1 ∧ _ =>
          destruct (m1 db) as [o1 db1], (m2 db) as [o2 db2]
      end.
      cbn [fst snd] in Hout, Htables. subst o2.
      destruct o1 as [[]| |]; by split; [|try apply sameTables_refl]. }
  destruct Ht as [Hout Htables].
  destruct (transaction1 db) as [o1 db1], (transaction2 db) as [o2 db2].
  cbn [fst snd] in Hout, Htables. subst o2.
  by destruct o1 as [[]| |].
Qed.

End AuditFacts.

(** X19 on the deletion of the sample registry, with and without the
    audit service. *)
Lemma X19_audit_failure_ignored_witness :
  (Samples.DeleteRegistry Samples.noFailure (Some Samples.session) "root/reg"
     Samples.db).1
  = (Samples.DeleteRegistry Samples.auditDown (Some Samples.session)
       "root/reg" Samples.db).1 ∧
  sameTables
    (Samples.DeleteRegistry Samples.noFailure (Some Samples.session)
       "root/reg" Samples.db).2
    (Samples.DeleteRegistry Samples.auditDown (Some Samples.session)
       "root/reg" Samples.db).2.
Proof.
  apply (X19_audit_failure_ignored Samples.noFailure Samples.auditDown).
  intros [?|?|?|? ?|? ?|resourceType name] Hc; try reflexivity.
  destruct (Hc resourceType name eq_refl).
Defined.


Section DeleteEdges.

Variable fails : metadata.StoreWrite -> option error.
Variable GetRegistryRequestBaseInfo :
  metadata.DB -> string -> outcome metadata.RegistryRequestBaseInfo.
Variable SpaceStore_FindByRef : metadata.DB -> string -> outcome Space.
Variable SpaceStore_Find : metadata.DB -> Z -> outcome Space.
Variable CheckRegistry :
  option metadata.Session -> Space -> string -> option error.
Variable RegistryRepository_GetByParentIDAndName :
  metadata.DB -> Z -> string -> option Registry * option error.
Variable RegistryRepository_Get : metadata.DB -> Z -> outcome Registry.
Variable FetchUpstreamProxyIDs :
  metadata.DB -> list string -> Z -> outcome (list Z).
Variable FetchRegistriesIDByUpstreamProxyID :
  metadata.DB -> string -> Z -> outcome (list Z).
Variable FormatInt : Z -> string.

Let DeleteRegistry :=
  (metadata.DeleteRegistry fails GetRegistryRequestBaseInfo
     SpaceStore_FindByRef SpaceStore_Find CheckRegistry
     RegistryRepository_GetByParentIDAndName RegistryRepository_Get
     FetchUpstreamProxyIDs FetchRegistriesIDByUpstreamProxyID FormatInt).

(** X20.  An upstream proxy in use is not deleted.  When the registry to
    delete is not a virtual one and the first of its upstream proxy
    configurations is used by a registry, the endpoint answers 500 with
    the error that names the first registry using it and the path of its
    space, wrapped as a failure to delete the upstream proxy, with no Go
    error beside it; no delete is attempted, whichever would succeed, and
    the database is as before. *)
Theorem X20_upstream_proxy_in_use s registryRef db regInfo space repoEntity
    proxyID proxyIDs registryID registryIDs registry spaceDetails :
  GetRegistryRequestBaseInfo db registryRef = Ok regInfo →
  SpaceStore_FindByRef db (metadata.ParentRef regInfo) = Ok space →
  CheckRegistry (Some s) space (metadata.RegistryIdentifier regInfo) = None →
  RegistryRepository_GetByParentIDAndName db (metadata.parentID regInfo)
    (metadata.RegistryIdentifier regInfo) = (Some repoEntity, None) →
  reg_Name repoEntity ≠ "" →
  reg_Type repoEntity = UPSTREAM →
  FetchUpstreamProxyIDs db [metadata.RegistryIdentifier regInfo]
    (metadata.parentID regInfo) = Ok (proxyID :: proxyIDs) →
  FetchRegistriesIDByUpstreamProxyID db (FormatInt proxyID)
    (metadata.parentID regInfo) = Ok (registryID :: registryIDs) →
  RegistryRepository_Get db registryID = Ok registry →
  SpaceStore_Find db (reg_ParentID registry) = Ok spaceDetails →
  DeleteRegistry (Some s) registryRef db
  = (Ok (metadata.DeleteRegistry500JSONResponse
           (ErrorfW "failed to delete upstream proxy: %w"
              (Errorf
                 "upstream Proxy : [%s] is being used inside Registry: [%s] which is created under scope: [%s]. "
                 [reg_Name repoEntity; reg_Name registry;
                  space_Path spaceDetails])),
         None),
     db).
Proof.
  intros Hbase Hspace Hcheck Hentity Hname Htype Hproxies Hregistries Hget
    Hfind.
  unfold DeleteRegistry, metadata.DeleteRegistry.
  rewrite Hbase, Hspace, Hcheck, Hentity.
  destruct (Z.eqb_spec (Z.of_nat (String.length (reg_Name repoEntity))) 0)
    as [Hzero|_].
  { destruct (reg_Name repoEntity); [done | cbn in Hzero; lia]. }
  rewrite Htype. cbn [RegistryType_eqb].
  assert (Hlen : ∀ (x : Z) xs, (0 <? len (x :: xs)) = true).
  { intros x xs. unfold len. cbn [length]. apply Z.ltb_lt. lia. }
  assert (Hhead : ∀ (x : Z) xs, index (x :: xs) 0 = Ok x).
  { intros x xs. unfold index. change (0 <=? 0) with true. cbn [andb].
    by rewrite Hlen. }
  assert (Hproxy :
    metadata.deleteUpstreamProxyWithAudit fails SpaceStore_Find
      RegistryRepository_Get FetchUpstreamProxyIDs
      FetchRegistriesIDByUpstreamProxyID FormatInt regInfo
      (metadata.session_Principal s) (metadata.ParentRef regInfo)
      (reg_Name repoEntity) db
    = (Fail (Errorf
         "upstream Proxy : [%s] is being used inside Registry: [%s] which is created under scope: [%s]. "
         [reg_Name repoEntity; reg_Name registry; space_Path spaceDetails]),
       db)).
  { unfold metadata.deleteUpstreamProxyWithAudit, mbind, metadata.Tx_bind,
      metadata.wrap, metadata.query, metadata.pure.
    cbv beta. rewrite Hproxies. cbv beta iota. rewrite Hlen.
    cbv beta iota. rewrite Hhead.
    cbv beta iota. rewrite Hregistries. cbv beta iota. rewrite Hlen.
    cbv beta iota.
    rewrite Hhead.
    cbv beta iota. rewrite Hget. cbv beta iota. by rewrite Hfind. }
  unfold metadata.WithTx, mbind, metadata.Tx_bind, metadata.principalOf,
    metadata.pure, metadata.wrap.
  cbv beta iota. by rewrite Hproxy.
Qed.

(** X21.  The registry of a deletion is read before its lookup error.
    When the lookup of the registry gives no registry, with an error or
    without, the endpoint reads the name through the nil pointer and
    panics: it answers neither 404 nor 500, and nothing is written. *)
Theorem X21_delete_without_registry session registryRef db regInfo space err :
  GetRegistryRequestBaseInfo db registryRef = Ok regInfo →
  SpaceStore_FindByRef db (metadata.ParentRef regInfo) = Ok space →
  CheckRegistry session space (metadata.RegistryIdentifier regInfo) = None →
  RegistryRepository_GetByParentIDAndName db (metadata.parentID regInfo)
    (metadata.RegistryIdentifier regInfo) = (None, err) →
  DeleteRegistry session registryRef db = (Panic NilDereference, db).
Proof.
  intros Hbase Hspace Hcheck Hentity.
  unfold DeleteRegistry, metadata.DeleteRegistry.
  by rewrite Hbase, Hspace, Hcheck, Hentity.
Qed.

End DeleteEdges.

(** X20 on the sample database, where the registry [reg] uses the
    upstream proxy of the registry [proxy]. *)
Lemma X20_upstream_proxy_in_use_witness :
  Samples.DeleteRegistry Samples.noFailure (Some Samples.session)
    "root/proxy" Samples.db
  = (Ok (metadata.DeleteRegistry500JSONResponse
           (ErrorfW "failed to delete upstream proxy: %w"
              (Errorf
                 "upstream Proxy : [%s] is being used inside Registry: [%s] which is created under scope: [%s]. "
                 ["proxy"; "reg"; "root"])),
         None),
     Samples.db).
Proof.
  apply (X20_upstream_proxy_in_use Samples.noFailure _ _ _ _ _ _ _ _ _
           Samples.session "root/proxy" Samples.db
           {| metadata.RegistryID := 11;
              metadata.RegistryIdentifier := "proxy";
              metadata.RegistryRef := "root/proxy";
              metadata.parentID := 1; metadata.ParentRef := "root";
              metadata.RootIdentifier := "root" |}
           Samples.rootSpace Samples.proxy 5 [] 10 [] Samples.reg
           Samples.rootSpace);
    first [reflexivity | discriminate].
Defined.

(** X21 on a database without registries. *)
Lemma X21_delete_without_registry_witness :
  Samples.DeleteRegistry Samples.noFailure (Some Samples.session) "root/reg"
    Samples.emptyDB
  = (Panic NilDereference, Samples.emptyDB).
Proof.
  apply (X21_delete_without_registry Samples.noFailure _ _ _ _ _ _ _ _ _
           (Some Samples.session) "root/reg" Samples.emptyDB Samples.regInfo
           Samples.rootSpace (Some ErrResourceNotFound));
    reflexivity.
Defined.

(** ** Writes of the placeholder replacement *)

Lemma writesOnly_trans l i heap1 heap2 heap3 :
  writesOnly l i heap1 heap2 → writesOnly l i heap2 heap3 →
  writesOnly l i heap1 heap3.
Proof.
  intros [Hother1 (c1 & c2 & H1 & H2 & Hlen1 & Hi1 & Hrest1)]
         [Hother2 (c2' & c3 & H2' & H3 & Hlen2 & Hi2 & Hrest2)].
  rewrite H2 in H2'. injection H2' as <-. split.
  - intros l' Hl'. by rewrite Hother2, Hother1.
  - exists c1, c3. repeat split; [done | done | congruence | done |].
    intros j Hj. by rewrite Hrest2, Hrest1.
Qed.

Lemma storeCommand_writesOnly heap st i command heap' :
  metadata.storeCommand heap st i command = Ok heap' →
  ∃ l, metadata.Commands st = Some l ∧ 0 <= i ∧
       writesOnly l (Z.to_nat i) heap heap'.
Proof.
  unfold metadata.storeCommand.
  destruct (metadata.Commands st) as [l|]; [|done].
  cbn [metadata.deref mbind outcome_bind].
  destruct (heap !! l) as [commands|] eqn:Hl; [|done].
  cbn [metadata.deref mbind outcome_bind].
  destruct (decide (0 <= i < len commands)) as [Hin|Hout];
    [|by rewrite (index_Panic commands i Hout)].
  destruct (index_Ok commands i Hin) as (x & -> & _).
  cbn [mbind outcome_bind]. intros [= <-].
  exists l. split; [done|]. split; [lia|].
  unfold writesOnly, metadata.Heap, metadata.loc in *. split.
  - intros l' Hl'. by rewrite lookup_insert_ne.
  - exists commands, (<[Z.to_nat i := command]> commands).
    rewrite lookup_insert_eq. repeat split; [done | | |].
    + by rewrite length_insert.
    + unfold len in Hin. lia.
    + intros j Hj. by rewrite list_lookup_insert_ne.
Qed.

Lemma replaceInValue_writesOnly old new st i heap heap' :
  metadata.replaceInValue old new st i heap = Ok heap' →
  ∃ l, metadata.Commands st = Some l ∧ 0 <= i ∧
       writesOnly l (Z.to_nat i) heap heap'.
Proof.
  unfold metadata.replaceInValue.
  destruct (metadata.loadCommand heap st i) as [command| |]; [|done..].
  cbn [mbind outcome_bind].
  destruct (metadata.Value command); [|done].
  cbn [metadata.deref mbind outcome_bind]. apply storeCommand_writesOnly.
Qed.

Lemma replaceInLabel_writesOnly old new st i heap heap' :
  metadata.replaceInLabel old new st i heap = Ok heap' →
  ∃ l, metadata.Commands st = Some l ∧ 0 <= i ∧
       writesOnly l (Z.to_nat i) heap heap'.
Proof.
  unfold metadata.replaceInLabel.
  destruct (metadata.loadCommand heap st i) as [command| |]; [|done..].
  cbn [mbind outcome_bind].
  destruct (metadata.Label command); [|done].
  cbn [metadata.deref mbind outcome_bind]. apply storeCommand_writesOnly.
Qed.

(** X22.  What [replaceText] writes.  When it returns, the heap is the
    one it was given, or the step points to a command slice and the
    command at index [i] of that slice is the only thing that may have
    changed: every other slice, the length of the slice and its other
    commands are as before. *)
Theorem X22_replaceText_writes GetHost username st i hostname repoName image
    tag heap heap' :
  metadata.replaceText GetHost username st i hostname repoName image tag heap
  = Ok heap' →
  heap' = heap ∨
  ∃ l, metadata.Commands st = Some l ∧ 0 <= i ∧
       writesOnly l (Z.to_nat i) heap heap'.
Proof.
  set (R := λ h h' : metadata.Heap,
         h' = h ∨ ∃ l, metadata.Commands st = Some l ∧ 0 <= i ∧
                       writesOnly l (Z.to_nat i) h h').
  assert (Htrans : ∀ h1 h2 h3, R h1 h2 → R h2 h3 → R h1 h3).
  { intros h1 h2 h3 [-> | (l & Hl & Hi & H12)] [-> | (l' & Hl' & Hi' & H23)];
      [by left | right; by exists l' | right; by exists l |].
    right. exists l. rewrite Hl in Hl'. injection Hl' as <-.
    do 2 (split; [done|]). by eapply writesOnly_trans. }
  assert (Hstep : ∀ (m : metadata.Heap → outcome metadata.Heap)
                    (k : metadata.Heap → outcome metadata.Heap),
            (∀ h1 h2, m h1 = Ok h2 → R h1 h2) →
            (∀ h1 h2, k h1 = Ok h2 → R h1 h2) →
            ∀ h h', (m h ≫= k) = Ok h' → R h h').
  { intros m k Hm Hk h h'. destruct (m h) as [h1| |] eqn:Hmh; [|done..].
    cbn [mbind outcome_bind]. intros Hkh.
    exact (Htrans _ _ _ (Hm _ _ Hmh) (Hk _ _ Hkh)). }
  assert (Hvalue : ∀ old new h1 h2,
            metadata.replaceInValue old new st i h1 = Ok h2 → R h1 h2).
  { intros old new h1 h2 H. right. by eapply replaceInValue_writesOnly. }
  assert (Hlabel : ∀ old new h1 h2,
            metadata.replaceInLabel old new st i h1 = Ok h2 → R h1 h2).
  { intros old new h1 h2 H. right. by eapply replaceInLabel_writesOnly. }
  assert (Hskip : ∀ h1 h2 : metadata.Heap, Ok h1 = Ok h2 → R h1 h2).
  { intros h1 h2 [= <-]. by left. }
  unfold metadata.replaceText. fold (R heap heap'). revert heap heap'.
  repeat match goal with
  | |- ∀ h h', (@?m h ≫= ?k) = Ok h' → R h h' =>
      apply (Hstep m k); cbv beta
  | |- ∀ h h', (if ?b then _ else _) = Ok h' → R h h' => destruct b
  | |- ∀ h h', match ?o with Some _ => _ | None => _ end = Ok h' → R h h' =>
      destruct o
  | |- ∀ h h', metadata.replaceInValue _ _ _ _ _ = Ok _ → _ => apply Hvalue
  | |- ∀ h h', metadata.replaceInLabel _ _ _ _ _ = Ok _ → _ => apply Hlabel
  | |- ∀ h h', Ok _ = Ok _ → _ => apply Hskip
  end.
Qed.

(** X22 on a heap of two slices, for the first command of the first. *)
Lemma X22_replaceText_writes_witness :
  let heap : metadata.Heap :=
    {[ 1%nat := [metadata.mkCommand (Some "Username: <USERNAME>")
                   (Some "<USERNAME>");
                 metadata.mkCommand (Some "") (Some "docker login <HOSTNAME>")];
       2%nat := [metadata.mkCommand (Some "") (Some "docker pull <USERNAME>")] ]} in
  let st := metadata.mkStep None (Some 1%nat) None in
  ∃ heap',
    metadata.replaceText Samples.GetHost "dev" st 0 "" "" None None heap
    = Ok heap' ∧
    heap' !! 1%nat
    = Some [metadata.mkCommand (Some "Username: dev") (Some "dev");
            metadata.mkCommand (Some "") (Some "docker login <HOSTNAME>")] ∧
    (heap' = heap ∨
     ∃ l, metadata.Commands st = Some l ∧ 0 <= 0 ∧
          writesOnly l (Z.to_nat 0) heap heap').
Proof.
  intros heap st.
  destruct (metadata.replaceText Samples.GetHost "dev" st 0 "" "" None None
              heap) as [heap'| |] eqn:Hrun; [|by vm_compute in Hrun..].
  exists heap'. split; [done|]. split.
  - vm_compute in Hrun. injection Hrun as <-. reflexivity.
  - exact (X22_replaceText_writes Samples.GetHost "dev" st 0 "" "" None None
             heap heap' Hrun).
Defined.
